(** * ScientificGenerator: a shallow embedding of [BookGenerator]

    The development follows [src/ScientificGenerator.py].  Python strings
    are lists of characters, the external completion service and the
    artifact store live in an explicit world that every stage threads, and
    exceptions are values of a result type, so that "does not raise" is a
    statement that can be proved.

    Conventions of the model:
    - a character is an 8-bit code ([ascii]); [len], slicing and [strip]
      count characters, as Python does on code points;
    - console output ([print]) and the [tqdm] import are not modelled;
    - the sampling options of the request payload (temperature, top_p,
      num_ctx and the clock-derived seed) do not influence control flow
      and are left out of the recorded request; the service is free to
      answer every attempt differently;
    - text files follow the POSIX behaviour of Python's text mode: a
      written newline is stored unchanged, and reading translates
      carriage returns (universal newlines);
    - the artifact store accepts every [makedirs] and every write; a read
      of a file that was never written raises;
    - the command-line entry point [main] only collects the arguments of
      [generate_book] and is not part of the model. *)

From Stdlib Require Import ZArith Ascii String Decimal DecimalNat Lia.
From stdpp Require Import base list strings gmap.

Open Scope list_scope.
Open Scope nat_scope.

(** ** Text *)

Abbreviation text := (list ascii).

Fixpoint lit (s : string) : text :=
  match s with
  | EmptyString => []
  | String c r => c :: lit r
  end.

Definition nl : ascii := "010"%char.
Definition cr : ascii := "013"%char.
Definition dq : ascii := "034"%char.
Definition sp : ascii := " "%char.

(** Python truthiness of a [str]: non-empty. *)
Definition truthy (s : text) : bool :=
  match s with
  | [] => false
  | _ :: _ => true
  end.

(** [c.isspace()] for the characters below 256. *)
Definition py_isspace (c : ascii) : bool :=
  let n := nat_of_ascii c in
  ((9 <=? n) && (n <=? 13)) || ((28 <=? n) && (n <=? 32))
  || (n =? 133) || (n =? 160).

Fixpoint lstrip (s : text) : text :=
  match s with
  | [] => []
  | c :: r => if py_isspace c then lstrip r else s
  end.

Definition rstrip (s : text) : text := reverse (lstrip (reverse s)).

(** [s.strip()] *)
Definition strip (s : text) : text := rstrip (lstrip s).

(** [s.split(sep)] for a one-character separator; the result is never
    empty: [''.split('\n') == ['']]. *)
Fixpoint split (sep : ascii) (s : text) : list text :=
  match s with
  | [] => [[]]
  | c :: r =>
      if Ascii.eqb c sep then [] :: split sep r
      else match split sep r with
           | [] => [[c]]
           | l :: ls => (c :: l) :: ls
           end
  end.

(** [sep.join(ls)] *)
Fixpoint join (sep : text) (ls : list text) : text :=
  match ls with
  | [] => []
  | l :: rest =>
      match rest with
      | [] => l
      | _ :: _ => l ++ sep ++ join sep rest
      end
  end.

(** [s.startswith(p)] *)
Fixpoint startswith (p s : text) : bool :=
  match p, s with
  | [], _ => true
  | _ :: _, [] => false
  | a :: p', b :: s' => Ascii.eqb a b && startswith p' s'
  end.

(** [s.replace(old, new)] for a non-empty [old]: every occurrence, found
    left to right without overlap, is replaced.  [skip] counts the
    characters of a matched occurrence that are still to be dropped. *)
Fixpoint replace_go (old new : text) (skip : nat) (s : text) : text :=
  match s with
  | [] => []
  | c :: r =>
      match skip with
      | S k => replace_go old new k r
      | O =>
          if startswith old s
          then new ++ replace_go old new (length old - 1) r
          else c :: replace_go old new 0 r
      end
  end.

Definition replace (old new s : text) : text := replace_go old new 0 s.

(** [l[k:]] and [l[:k]] with Python's treatment of negative bounds. *)
Definition slice_from {A} (k : Z) (l : list A) : list A :=
  if (0 <=? k)%Z then drop (Z.to_nat k) l
  else drop (length l - Z.to_nat (- k)) l.

Definition slice_to {A} (k : Z) (l : list A) : list A :=
  if (0 <=? k)%Z then take (Z.to_nat k) l
  else take (length l - Z.to_nat (- k)) l.

(** Decimal rendering: [str(i)] and the format [{i:02d}]. *)
Fixpoint uint_text (d : Decimal.uint) : text :=
  match d with
  | Nil => []
  | D0 d => "0"%char :: uint_text d
  | D1 d => "1"%char :: uint_text d
  | D2 d => "2"%char :: uint_text d
  | D3 d => "3"%char :: uint_text d
  | D4 d => "4"%char :: uint_text d
  | D5 d => "5"%char :: uint_text d
  | D6 d => "6"%char :: uint_text d
  | D7 d => "7"%char :: uint_text d
  | D8 d => "8"%char :: uint_text d
  | D9 d => "9"%char :: uint_text d
  end.

Definition str_nat (n : nat) : text := uint_text (Nat.to_uint n).

Definition str_int (z : Z) : text :=
  match z with
  | Z0 => lit "0"
  | Zpos p => uint_text (Pos.to_uint p)
  | Zneg p => "-"%char :: uint_text (Pos.to_uint p)
  end.

Definition fmt_02d (n : nat) : text :=
  let s := str_nat n in
  if length s <? 2 then "0"%char :: s else s.

(** Reading a text file: ['\r\n'] and a lone ['\r'] become ['\n']. *)
Fixpoint universal_newlines (s : text) : text :=
  match s with
  | [] => []
  | c :: r =>
      if Ascii.eqb c cr then
        match r with
        | c' :: r' =>
            if Ascii.eqb c' nl then nl :: universal_newlines r'
            else nl :: universal_newlines r
        | [] => [nl]
        end
      else c :: universal_newlines r
  end.

(** [json.dumps(s, ensure_ascii=False)] of a string: quotes, backslashes
    and control characters are escaped. *)
Definition hex_digit (n : nat) : ascii :=
  nth n (lit "0123456789abcdef") "0"%char.

Definition json_escape_char (c : ascii) : text :=
  let n := nat_of_ascii c in
  if Ascii.eqb c dq then "\"%char :: [dq]
  else if Ascii.eqb c "\"%char then lit "\\"
  else if n =? 8 then lit "\b"
  else if n =? 9 then lit "\t"
  else if n =? 10 then lit "\n"
  else if n =? 12 then lit "\f"
  else if n =? 13 then lit "\r"
  else if n <? 32 then lit "\u00" ++ [hex_digit (n / 16); hex_digit (n mod 16)]
  else [c].

Definition json_string (s : text) : text :=
  [dq] ++ concat (map json_escape_char s) ++ [dq].

(** ** The world: completion service, artifact store, clock *)

(** What one [requests.post] can do: answer with a status code and a body
    whose [json()['response']] is a string, or is not available
    ([None]: decoding raises), or raise (connection error, timeout).
    This is the service [_make_request] declares with [-> str]; answers
    of any other type are the subject of [Untyped] below. *)
Inductive http_outcome :=
| Responded (status : Z) (json_response : option text)
| PostRaised.

(** What the run does to the outside, in order; a post is recorded with
    the answer it got. *)
Inductive event :=
| EvPost (endpoint model prompt : text) (answer : http_outcome)
| EvSleep (seconds : Z)
| EvMakedirs (path : text).

Inductive exn :=
| RequestError
| DecodeError
| ValueError
| FileNotFoundError (path : text)
| TypeError
| AttributeError
| OverflowError
| OSError.

Record World := mkWorld {
  service : nat -> text -> http_outcome; (* answer to the k-th post *)
  posted : nat;                          (* posts made so far *)
  files : gmap text text;                (* path -> stored characters *)
  trace : list event;                    (* oldest first *)
  now_stamp : text                       (* strftime("%Y%m%d_%H%M%S") *)
}.

Inductive result (A : Type) :=
| Ok (a : A)
| Raised (e : exn).
Arguments Ok {A} a.
Arguments Raised {A} e.

Definition M (A : Type) : Type := World -> result A * World.

Definition ret {A} (a : A) : M A := fun w => (Ok a, w).

Definition bind {A B} (m : M A) (k : A -> M B) : M B :=
  fun w =>
    match m w with
    | (Ok a, w') => k a w'
    | (Raised e, w') => (Raised e, w')
    end.

Definition raise {A} (e : exn) : M A := fun w => (Raised e, w).

(** [try: m except Exception as e: h e] *)
Definition try_except {A} (m : M A) (h : exn -> M A) : M A :=
  fun w =>
    match m w with
    | (Ok a, w') => (Ok a, w')
    | (Raised e, w') => h e w'
    end.

Declare Scope py_scope.
Delimit Scope py_scope with py.
Notation "x <- m ;; k" := (bind m (fun x => k))
  (at level 100, m at next level, right associativity) : py_scope.
Notation "m ;;; k" := (bind m (fun _ => k))
  (at level 100, right associativity) : py_scope.
Open Scope py_scope.

Definition set_files (f : gmap text text) (w : World) : World :=
  mkWorld (service w) (posted w) f (trace w) (now_stamp w).

Definition log_event (e : event) (w : World) : World :=
  mkWorld (service w) (posted w) (files w) (trace w ++ [e]) (now_stamp w).

Definition requests_post (endpoint model prompt : text) : M (Z * option text) :=
  fun w =>
    let answer := service w (posted w) prompt in
    let w' := mkWorld (service w) (S (posted w)) (files w)
                      (trace w ++ [EvPost endpoint model prompt answer])
                      (now_stamp w) in
    match answer with
    | Responded status body => (Ok (status, body), w')
    | PostRaised => (Raised RequestError, w')
    end.

Definition response_json (body : option text) : M text :=
  match body with
  | Some t => ret t
  | None => raise DecodeError
  end.

(** [time.sleep] rejects a negative duration.  (It also rejects one too
    long for its clock; [Untyped.sleep] has that check.) *)
Definition sleep (seconds : Z) : M unit :=
  fun w =>
    if (seconds <? 0)%Z then (Raised ValueError, w)
    else (Ok tt, log_event (EvSleep seconds) w).

(** [os.makedirs(path, exist_ok=True)] for a path it accepts;
    [Untyped.makedirs] has the paths it refuses. *)
Definition makedirs (path : text) : M unit :=
  fun w => (Ok tt, log_event (EvMakedirs path) w).

Definition strftime_now : M text := fun w => (Ok (now_stamp w), w).

(** [open(path, "w")] truncates; [f.write(s)] appends to the open file. *)
Definition open_w (path : text) : M unit :=
  fun w => (Ok tt, set_files (<[path := []]> (files w)) w).

Definition f_write (path : text) (s : text) : M unit :=
  fun w =>
    (Ok tt, set_files (<[path := default [] (files w !! path) ++ s]> (files w)) w).

(** [open(path, "r").read()] *)
Definition f_read (path : text) : M text :=
  fun w =>
    match files w !! path with
    | Some c => (Ok (universal_newlines c), w)
    | None => (Raised (FileNotFoundError path), w)
    end.

(** [if c: m] *)
Definition when (c : bool) (m : M unit) : M unit := if c then m else ret tt.

(** [for i, x in enumerate(xs, start): body] with a loop-carried value. *)
Fixpoint for_enumerate {A S} (start : nat) (xs : list A)
    (body : nat -> A -> S -> M S) (s : S) : M S :=
  match xs with
  | [] => ret s
  | x :: rest =>
      s' <- body start x s ;;
      for_enumerate (Datatypes.S start) rest body s'
  end.

(** ** BookGenerator *)

Record BookGenerator := mkBookGenerator {
  api_url : text;
  model : text
}.

Section Generator.

(** The instance the methods are called on. *)
Variable self : BookGenerator.

Definition generate_endpoint : text :=
  api_url self ++ lit "/api/generate".

(** One pass of the retry loop of [_make_request]: [Some t] is the early
    [return], [None] lets the [for] go on. *)
Definition request_attempt (prompt : text)
    (max_retries retry_delay : Z) (attempt : nat) : M (option text) :=
  try_except
    (r <- requests_post generate_endpoint (model self) prompt ;;
     if (fst r =? 200)%Z then
       t <- response_json (snd r) ;; ret (Some t)
     else
       when (Z.of_nat attempt <? max_retries - 1)%Z (sleep retry_delay) ;;;
       ret None)
    (fun _ =>
       when (Z.of_nat attempt <? max_retries - 1)%Z (sleep retry_delay) ;;;
       ret None).

Fixpoint request_attempts (prompt : text)
    (max_retries retry_delay : Z) (attempts : list nat) : M text :=
  match attempts with
  | [] => ret []
  | attempt :: rest =>
      r <- request_attempt prompt max_retries retry_delay attempt ;;
      match r with
      | Some t => ret t
      | None => request_attempts prompt max_retries retry_delay rest
      end
  end.

Definition _make_request (prompt : text)
    (max_retries retry_delay : Z) : M text :=
  request_attempts prompt max_retries retry_delay
    (seq 0 (Z.to_nat max_retries)).

(** The call sites all use the defaults [max_retries=3], [retry_delay=5]. *)
Definition make_request (prompt : text) : M text :=
  _make_request prompt 3 5.

(** [[line.strip() for line in response.split('\n') if line.strip()]] *)
Definition nonblank_lines (response : text) : list text :=
  map strip (List.filter (fun line => truthy (strip line)) (split nl response)).

(** *** Task templates.  Each is the f-string of the source, line by
    line; the lines are joined by newlines. *)

Definition quoted (s : text) : text := [dq] ++ s ++ [dq].

Definition outline_prompt (topic : text) (num_chapters : Z) : text :=
  join [nl]
    [ [];
      lit "        Create a detailed outline for a book on the topic " ++ quoted topic ++ lit ".";
      lit "        The outline should contain exactly " ++ str_int num_chapters ++ lit " chapters.";
      lit "        Each chapter should have a logical sequence and connection to the other chapters.";
      lit "        Each chapter title should be informative and appealing to the reader.";
      lit "        Return only the chapter titles, one per line.";
      lit "        " ].

Definition additional_prompt (topic : text) (additional_needed : Z)
    (chapters : list text) : text :=
  join [nl]
    [ [];
      lit "                Create " ++ str_int additional_needed
        ++ lit " more chapters for a book on the topic " ++ quoted topic ++ lit ".";
      lit "                These chapters should complement the existing chapters:";
      lit "                " ++ join (lit ", ") chapters;
      lit "                Each new chapter should be on a separate line.";
      lit "                " ].

Definition structure_context (previous_summary : text) : text :=
  if truthy previous_summary
  then lit "Summary of the previous chapter: " ++ previous_summary ++ [nl]
  else [].

Definition structure_prompt (chapter_title previous_summary : text) : text :=
  join [nl]
    [ [];
      lit "        " ++ structure_context previous_summary;
      lit "        Create a detailed structure for the chapter titled: " ++ quoted chapter_title;
      lit "        ";
      lit "        The chapter should have the following structure:";
      lit "        1. Chapter introduction";
      lit "        2. 3-5 logically connected subsections with informative titles";
      lit "        3. Chapter conclusion";
      lit "        ";
      lit "        Return only the section titles, one per line, including "
        ++ quoted (lit "Introduction") ++ lit " and " ++ quoted (lit "Conclusion") ++ lit ".";
      lit "        " ].

Definition chunk_context (previous_content : text) : text :=
  if truthy previous_content
  then lit "Previous content: " ++ slice_from (-500) previous_content
         ++ lit " (continuation)"
  else [].

Definition chunk_prompt (chapter_title section_title previous_content : text) : text :=
  join [nl]
    [ [];
      lit "        " ++ chunk_context previous_content;
      lit "        Write the section " ++ quoted section_title
        ++ lit " for the book chapter " ++ quoted chapter_title;
      lit "        ";
      lit "        Requirements:";
      lit "        1. Length - approximately 500-700 words";
      lit "        2. Academic writing style with professional terminology";
      lit "        3. Substantial arguments supported by facts";
      lit "        4. Logical structure with smooth transitions between paragraphs";
      lit "        5. If this is the introduction, provide an overview of the chapter";
      lit "        6. If this is the conclusion, summarize and link to the next chapter";
      lit "        ";
      lit "        Begin writing the section:";
      lit "        " ].

Definition summary_prompt (chapter_content : text) : text :=
  join [nl]
    [ [];
      lit "        Create a summary (150-200 words) of the following text:";
      lit "        ";
      lit "        " ++ slice_to 3000 chapter_content ++ lit "...";
      lit "        ";
      lit "        The summary should:";
      lit "        1. Cover the key ideas and arguments";
      lit "        2. Highlight the main conclusions";
      lit "        3. Be written in the present tense";
      lit "        4. Serve as a good context for the next chapter";
      lit "        " ].

Definition metadata_prompt (topic : text) (chapters : list text) : text :=
  join [nl]
    [ [];
      lit "        Create metadata for a book on the topic " ++ quoted topic
        ++ lit " with the following chapters:";
      lit "        " ++ join (lit ", ") chapters;
      lit "        ";
      lit "        The metadata should include:";
      lit "        1. A professional book title (without quotes)";
      lit "        2. A fictional first and last name for the author";
      lit "        3. A brief book annotation (150-200 words)";
      lit "        ";
      lit "        Response format:";
      lit "        Title: [book title]";
      lit "        Author: [first and last name]";
      lit "        Annotation: [annotation text]";
      lit "        " ].

Definition introduction_prompt (topic : text) (chapters : list text)
    (book_title : text) : text :=
  join [nl]
    [ [];
      lit "        Write a professional introduction to the book " ++ quoted book_title
        ++ lit " on the topic " ++ quoted topic ++ lit ".";
      lit "        ";
      lit "        Book structure:";
      lit "        " ++ join (lit ", ") chapters;
      lit "        ";
      lit "        The introduction should:";
      lit "        1. Capture the reader's attention";
      lit "        2. Explain the relevance of the topic";
      lit "        3. Briefly describe the structure of the book";
      lit "        4. Specify the target audience";
      lit "        5. Be approximately 800-1000 words in length";
      lit "        " ].

Definition conclusion_prompt (topic : text) (chapters : list text)
    (book_title : text) : text :=
  join [nl]
    [ [];
      lit "        Write a professional conclusion to the book " ++ quoted book_title
        ++ lit " on the topic " ++ quoted topic ++ lit ".";
      lit "        ";
      lit "        Book structure:";
      lit "        " ++ join (lit ", ") chapters;
      lit "        ";
      lit "        The conclusion should:";
      lit "        1. Summarize all the material";
      lit "        2. Consolidate the key ideas from all chapters";
      lit "        3. Propose directions for further study";
      lit "        4. End with a strong concluding statement";
      lit "        5. Be approximately 800-1000 words in length";
      lit "        " ].

Definition bibliography_prompt (topic : text) : text :=
  join [nl]
    [ [];
      lit "        Create a list of 10-15 professional bibliographic sources for a book on the topic "
        ++ quoted topic ++ lit ".";
      lit "        ";
      lit "        The sources should:";
      lit "        1. Be real, current, and relevant to the topic";
      lit "        2. Include books, scholarly articles, and studies";
      lit "        3. Be formatted in academic style";
      lit "        4. Include author names, publication year, title, and publisher";
      lit "        ";
      lit "        Return only the bibliographic entries, one per line.";
      lit "        " ].

(** *** Stage generators *)

Definition generate_outline (topic : text)
    (num_chapters : Z) : M (list text) :=
  response <- make_request (outline_prompt topic num_chapters) ;;
  if truthy response then
    let chapters := nonblank_lines response in
    if (num_chapters <? Z.of_nat (length chapters))%Z then
      ret (slice_to num_chapters chapters)
    else if (Z.of_nat (length chapters) <? num_chapters)%Z then
      let additional_needed := (num_chapters - Z.of_nat (length chapters))%Z in
      additional_response <-
        make_request (additional_prompt topic additional_needed chapters) ;;
      if truthy additional_response then
        let additional_chapters := nonblank_lines additional_response in
        ret (chapters ++ slice_to additional_needed additional_chapters)
      else ret chapters
    else ret chapters
  else ret [].

Definition fallback_structure : list text :=
  [lit "Introduction"; lit "Main Content"; lit "Conclusion"].

Definition generate_chapter_structure
    (chapter_title previous_summary : text) : M (list text) :=
  response <- make_request (structure_prompt chapter_title previous_summary) ;;
  if truthy response then ret (nonblank_lines response)
  else ret fallback_structure.

Definition generate_chapter_chunk
    (chapter_title section_title previous_content : text) : M text :=
  make_request (chunk_prompt chapter_title section_title previous_content).

Definition summarize_chapter (chapter_content : text) : M text :=
  make_request (summary_prompt chapter_content).

(** The [metadata] dictionary has the three keys below throughout. *)
Record Metadata := mkMetadata {
  title : text;
  author : text;
  annotation : text
}.

Definition default_metadata (topic : text) : Metadata :=
  mkMetadata (lit "Book on " ++ topic) (lit "Author Not Specified") [].

(** The body of [for line in lines] in [generate_metadata]. *)
Definition metadata_line (metadata : Metadata) (line : text) : Metadata :=
  if startswith (lit "Title:") line then
    mkMetadata (strip (replace (lit "Title:") [] line))
               (author metadata) (annotation metadata)
  else if startswith (lit "Author:") line then
    mkMetadata (title metadata)
               (strip (replace (lit "Author:") [] line)) (annotation metadata)
  else if startswith (lit "Annotation:") line then
    mkMetadata (title metadata) (author metadata)
               (strip (replace (lit "Annotation:") [] line))
  else if truthy (annotation metadata) then
    mkMetadata (title metadata) (author metadata)
               (annotation metadata ++ lit " " ++ strip line)
  else metadata.

Definition parse_metadata (topic response : text) : Metadata :=
  let metadata := default_metadata topic in
  if truthy response then
    fold_left metadata_line (split nl (strip response)) metadata
  else metadata.

Definition generate_metadata (topic : text)
    (chapters : list text) : M Metadata :=
  response <- make_request (metadata_prompt topic chapters) ;;
  ret (parse_metadata topic response).

Definition generate_introduction (topic : text)
    (chapters : list text) (metadata : Metadata) : M text :=
  make_request (introduction_prompt topic chapters (title metadata)).

Definition generate_conclusion (topic : text)
    (chapters : list text) (metadata : Metadata) : M text :=
  make_request (conclusion_prompt topic chapters (title metadata)).

Definition generate_bibliography (topic : text) : M (list text) :=
  response <- make_request (bibliography_prompt topic) ;;
  if truthy response then ret (nonblank_lines response) else ret [].

(** *** Artifacts *)

(** [json.dump(metadata, f, ensure_ascii=False, indent=4)] *)
Definition json_dump_metadata (metadata : Metadata) : text :=
  join [nl]
    [ lit "{";
      lit "    " ++ json_string (lit "title") ++ lit ": "
        ++ json_string (title metadata) ++ lit ",";
      lit "    " ++ json_string (lit "author") ++ lit ": "
        ++ json_string (author metadata) ++ lit ",";
      lit "    " ++ json_string (lit "annotation") ++ lit ": "
        ++ json_string (annotation metadata);
      lit "}" ].

Definition chapter_dir_of (output_dir : text) (i : nat) : text :=
  output_dir ++ lit "/chapter_" ++ fmt_02d i.

Definition full_chapter_path (output_dir : text) (i : nat) : text :=
  chapter_dir_of output_dir i ++ lit "/full_chapter.md".

Definition full_book_path (output_dir : text) : text :=
  output_dir ++ lit "/full_book.md".

Definition chapter_heading (i : nat) (chapter : text) : text :=
  lit "# Chapter " ++ str_nat i ++ lit ": " ++ chapter ++ [nl; nl].

Definition title_page (metadata : Metadata) : list text :=
  [ lit "# " ++ title metadata ++ [nl; nl];
    lit "**Author:** " ++ author metadata ++ [nl; nl];
    lit "**Annotation:**" ++ [nl; nl] ++ annotation metadata ++ [nl; nl] ].

Definition bibliography_line (i : nat) (ref : text) : text :=
  str_nat i ++ lit ". " ++ ref ++ [nl].

(** [for x in xs: f.write(x)] *)
Fixpoint write_all (path : text) (xs : list text) : M unit :=
  match xs with
  | [] => ret tt
  | x :: rest => f_write path x ;;; write_all path rest
  end.

(** Values of the loop variables of one section and one chapter pass. *)
Record SectionRun := mkSectionRun {
  sr_section : text;          (* section *)
  sr_previous_content : text; (* previous_content *)
  sr_content : text           (* section_content *)
}.

Record ChapterRun := mkChapterRun {
  cr_chapter : text;            (* chapter *)
  cr_previous_summary : text;   (* previous_summary on entry *)
  cr_sections : list text;      (* sections *)
  cr_runs : list SectionRun;
  cr_content : text;            (* full_chapter_content on exit *)
  cr_summary : text             (* previous_summary on exit *)
}.

Definition section_body (chapter chapter_dir : text)
    (j : nat) (section : text) (st : text * list SectionRun)
    : M (text * list SectionRun) :=
  let full_chapter_content := st.1 in
  let previous_content :=
    if truthy full_chapter_content
    then slice_from (-1000) full_chapter_content else [] in
  section_content <-
    generate_chapter_chunk chapter section previous_content ;;
  let full_chapter_content := full_chapter_content ++ section_content in
  let path := chapter_dir ++ lit "/section_" ++ fmt_02d j ++ lit ".md" in
  open_w path ;;;
  f_write path (lit "## " ++ section ++ [nl; nl]) ;;;
  f_write path section_content ;;;
  sleep 1 ;;;
  ret (full_chapter_content,
       st.2 ++ [mkSectionRun section previous_content section_content]).

Definition chapter_body (output_dir : text)
    (i : nat) (chapter : text) (st : text * list ChapterRun)
    : M (text * list ChapterRun) :=
  let previous_summary := st.1 in
  let chapter_dir := chapter_dir_of output_dir i in
  makedirs chapter_dir ;;;
  sections <- generate_chapter_structure chapter previous_summary ;;
  let readme := chapter_dir ++ lit "/README.md" in
  open_w readme ;;;
  f_write readme (chapter_heading i chapter) ;;;
  f_write readme (lit "## Chapter Contents" ++ [nl; nl]) ;;;
  for_enumerate 1 sections
    (fun j section _ =>
       f_write readme (str_nat j ++ lit ". [" ++ section ++ lit "](section_"
                         ++ fmt_02d j ++ lit ".md)" ++ [nl])) tt ;;;
  sec <- for_enumerate 1 sections (section_body chapter chapter_dir) ([], []) ;;
  let full_chapter_content := sec.1 in
  summary <- summarize_chapter full_chapter_content ;;
  open_w (full_chapter_path output_dir i) ;;;
  f_write (full_chapter_path output_dir i) (chapter_heading i chapter) ;;;
  f_write (full_chapter_path output_dir i) full_chapter_content ;;;
  ret (summary,
       st.2 ++ [mkChapterRun chapter previous_summary sections sec.2
                             full_chapter_content summary]).

(** The block of [generate_book] that combines all materials into
    [full_book.md] (the last [with] statement). *)
Definition write_full_book (output_dir : text) (metadata : Metadata)
    (introduction : text) (chapters : list text) (conclusion : text)
    (bibliography : list text) : M unit :=
  let f := full_book_path output_dir in
  open_w f ;;;
  write_all f (title_page metadata) ;;;
  f_write f (lit "# Introduction" ++ [nl; nl]) ;;;
  f_write f introduction ;;;
  f_write f [nl; nl] ;;;
  for_enumerate 1 chapters
    (fun i chapter _ =>
       chapter_content <- f_read (full_chapter_path output_dir i) ;;
       f_write f (chapter_content ++ [nl; nl])) tt ;;;
  f_write f (lit "# Conclusion" ++ [nl; nl]) ;;;
  f_write f conclusion ;;;
  f_write f [nl; nl] ;;;
  f_write f (lit "# Bibliography" ++ [nl; nl]) ;;;
  for_enumerate 1 bibliography
    (fun i ref _ => f_write f (bibliography_line i ref)) tt.

(** What a run of [generate_book] leaves in its local variables. *)
Record Book := mkBook {
  book_output_dir : text;
  book_chapters : list text;
  book_metadata : Metadata;
  book_introduction : text;
  book_runs : list ChapterRun;
  book_conclusion : text;
  book_bibliography : list text
}.

Definition generate_book (topic : text)
    (num_chapters : Z) (output_dir : option text) : M Book :=
  output_dir <-
    match output_dir with
    | None =>
        timestamp <- strftime_now ;;
        ret (lit "book_" ++ timestamp ++ lit "_"
               ++ slice_to 30 (replace [sp] (lit "_") topic))
    | Some d => ret d
    end ;;
  makedirs output_dir ;;;
  chapters <- generate_outline topic num_chapters ;;
  metadata <- generate_metadata topic chapters ;;
  open_w (output_dir ++ lit "/metadata.json") ;;;
  f_write (output_dir ++ lit "/metadata.json") (json_dump_metadata metadata) ;;;
  open_w (output_dir ++ lit "/outline.txt") ;;;
  f_write (output_dir ++ lit "/outline.txt") (join [nl] chapters) ;;;
  introduction <- generate_introduction topic chapters metadata ;;
  open_w (output_dir ++ lit "/introduction.md") ;;;
  f_write (output_dir ++ lit "/introduction.md")
          (lit "# Introduction" ++ [nl; nl] ++ introduction) ;;;
  let readme := output_dir ++ lit "/README.md" in
  open_w readme ;;;
  write_all readme (title_page metadata) ;;;
  f_write readme (lit "## Contents" ++ [nl; nl]) ;;;
  f_write readme (lit "- [Introduction](introduction.md)" ++ [nl]) ;;;
  for_enumerate 1 chapters
    (fun i chapter _ =>
       f_write readme (lit "- [Chapter " ++ str_nat i ++ lit ": " ++ chapter
                         ++ lit "](chapter_" ++ fmt_02d i ++ lit "/README.md)"
                         ++ [nl])) tt ;;;
  f_write readme (lit "- [Conclusion](conclusion.md)" ++ [nl]) ;;;
  f_write readme (lit "- [Bibliography](bibliography.md)" ++ [nl]) ;;;
  loop <- for_enumerate 1 chapters (chapter_body output_dir) ([], []) ;;
  conclusion <- generate_conclusion topic chapters metadata ;;
  open_w (output_dir ++ lit "/conclusion.md") ;;;
  f_write (output_dir ++ lit "/conclusion.md")
          (lit "# Conclusion" ++ [nl; nl] ++ conclusion) ;;;
  bibliography <- generate_bibliography topic ;;
  open_w (output_dir ++ lit "/bibliography.md") ;;;
  f_write (output_dir ++ lit "/bibliography.md") (lit "# Bibliography" ++ [nl; nl]) ;;;
  for_enumerate 1 bibliography
    (fun i ref _ =>
       f_write (output_dir ++ lit "/bibliography.md") (bibliography_line i ref)) tt ;;;
  write_full_book output_dir metadata introduction chapters conclusion bibliography ;;;
  ret (mkBook output_dir chapters metadata introduction loop.2 conclusion bibliography).

End Generator.
(** * Specification vocabulary *)

(** ** Paths *)

Definition is_digit (c : ascii) : bool :=
  let n := nat_of_ascii c in (48 <=? n) && (n <=? 57).

(** [p] lies under the directory of chapter [k]. *)
Definition in_chapter_dir (output_dir : text) (k : nat) (p : text) : Prop :=
  exists rest, p = chapter_dir_of output_dir k ++ "/"%char :: rest.

(** ** Runs *)

(** [returns m w Q]: from world [w] the computation [m] finishes without
    raising, and its value and final world satisfy [Q]. *)
Definition returns {A} (m : M A) (w : World) (Q : A -> World -> Prop) : Prop :=
  exists a w', m w = (Ok a, w') /\ Q a w'.

(** An attempt fails unless the service answers 200 with a decodable
    body. *)
Definition attempt_fails (o : http_outcome) : bool :=
  match o with
  | Responded status (Some _) => negb (status =? 200)%Z
  | Responded _ None => true
  | PostRaised => true
  end.

(** The next [n] posts of [prompt] all fail. *)
Definition all_fail (w : World) (prompt : text) (n : nat) : Prop :=
  forall k, k < n -> attempt_fails (service w (posted w + k) prompt) = true.

(** The world after one failed attempt. *)
Definition after_failed_attempt (self : BookGenerator) (prompt : text)
    (max_retries retry_delay : Z) (attempt : nat) (w : World) : World :=
  mkWorld (service w) (S (posted w)) (files w)
    (trace w ++ EvPost (generate_endpoint self) (model self) prompt
                  (service w (posted w) prompt)
       :: (if (Z.of_nat attempt <? max_retries - 1)%Z
           then [EvSleep retry_delay] else []))
    (now_stamp w).

(** A post of [prompt] that failed. *)
Definition failed_post (self : BookGenerator) (prompt : text) (e : event) : Prop :=
  exists o, e = EvPost (generate_endpoint self) (model self) prompt o
            /\ attempt_fails o = true.

(** The events of one call of the request layer for [prompt] that
    returned [t]: failed posts of [prompt] and pauses, closed by the post
    that was answered with [t], or by nothing when [t] is the empty
    failure result. *)
Definition request_events (self : BookGenerator) (prompt : text)
    (retry_delay : Z) (t : text) (es : list event) : Prop :=
  exists failures,
    Forall (fun e => failed_post self prompt e \/ e = EvSleep retry_delay) failures
    /\ (es = failures ++ [EvPost (generate_endpoint self) (model self) prompt
                            (Responded 200 (Some t))]
        \/ (es = failures /\ t = [])).

(** The same for [make_request]: the default pause, and at least one
    post. *)
Definition request_segment (self : BookGenerator) (prompt t : text)
    (es : list event) : Prop :=
  request_events self prompt 5 t es
  /\ exists o, EvPost (generate_endpoint self) (model self) prompt o ∈ es.

(** [p] lies under directory [dir]. *)
Definition under (dir p : text) : Prop :=
  exists rest, p = dir ++ "/"%char :: rest.

(** Between [w] and [w'] only files selected by [S] were written. *)
Definition frame (S : text -> Prop) (w w' : World) : Prop :=
  forall p, ~ S p -> files w' !! p = files w !! p.

(** The context handed to the section at which the accumulated chapter
    text is [full]. *)
Definition section_context (full : text) : text :=
  if truthy full then slice_from (-1000) full else [].

(** The events of one section pass: the request for the section, then
    the pause of one second. *)
Definition section_events (self : BookGenerator) (chapter : text)
    (r : SectionRun) (es : list event) : Prop :=
  exists seg,
    es = seg ++ [EvSleep 1]
    /\ request_segment self
         (chunk_prompt chapter (sr_section r) (sr_previous_content r))
         (sr_content r) seg.

(** The section passes of one chapter, started with accumulated text
    [full], and their events: each pass received the tail of what had
    been accumulated, asked for its section with it, and accumulated the
    answer. *)
Fixpoint sections_chain (self : BookGenerator) (chapter full : text)
    (runs : list SectionRun) (segs : list (list event)) : Prop :=
  match runs, segs with
  | [], [] => True
  | r :: rest, es :: segs' =>
      sr_previous_content r = section_context full
      /\ section_events self chapter r es
      /\ sections_chain self chapter (full ++ sr_content r) rest segs'
  | _, _ => False
  end.

(** The sections a structure answer stands for. *)
Definition sections_of (answer : text) : list text :=
  if truthy answer then nonblank_lines answer else fallback_structure.

(** One chapter pass and its events: the directory, the structure
    request with the summary the pass received, the section passes with
    an accumulation that starts empty, and the summary request with the
    complete chapter text. *)
Definition chapter_pass (self : BookGenerator) (output_dir : text) (i : nat)
    (r : ChapterRun) (es : list event) : Prop :=
  exists answer s_structure s_sections s_summary,
    es = EvMakedirs (chapter_dir_of output_dir i)
           :: s_structure ++ concat s_sections ++ s_summary
    /\ request_segment self
         (structure_prompt (cr_chapter r) (cr_previous_summary r))
         answer s_structure
    /\ cr_sections r = sections_of answer
    /\ map sr_section (cr_runs r) = cr_sections r
    /\ sections_chain self (cr_chapter r) [] (cr_runs r) s_sections
    /\ cr_content r = concat (map sr_content (cr_runs r))
    /\ request_segment self (summary_prompt (cr_content r)) (cr_summary r)
         s_summary.

(** The chapter passes from chapter [i] on, the first of which received
    [previous_summary], and their events. *)
Fixpoint chapters_chain (self : BookGenerator) (output_dir : text) (i : nat)
    (previous_summary : text) (runs : list ChapterRun)
    (segs : list (list event)) : Prop :=
  match runs, segs with
  | [], [] => True
  | r :: rest, es :: segs' =>
      cr_previous_summary r = previous_summary
      /\ chapter_pass self output_dir i r es
      /\ chapters_chain self output_dir (S i) (cr_summary r) rest segs'
  | _, _ => False
  end.

(** The events of [generate_outline] and the outline they stand for. *)
Definition outline_events (self : BookGenerator) (topic : text)
    (num_chapters : Z) (chapters : list text) (es : list event) : Prop :=
  exists response s1,
    request_segment self (outline_prompt topic num_chapters) response s1
    /\ let first := nonblank_lines response in
       let needed := (num_chapters - Z.of_nat (length first))%Z in
       if negb (truthy response) then chapters = [] /\ es = s1
       else if (num_chapters <? Z.of_nat (length first))%Z then
         chapters = slice_to num_chapters first /\ es = s1
       else if (Z.of_nat (length first) <? num_chapters)%Z then
         exists additional s2,
           request_segment self (additional_prompt topic needed first)
             additional s2
           /\ es = s1 ++ s2
           /\ chapters
              = first ++ (if truthy additional
                          then slice_to needed (nonblank_lines additional)
                          else [])
       else chapters = first /\ es = s1.

(** The events of a whole run, in the order of the pipeline. *)
Definition book_events (self : BookGenerator) (topic : text)
    (num_chapters : Z) (book : Book) (es : list event) : Prop :=
  exists s_outline metadata_answer s_metadata s_introduction s_chapters
         s_conclusion bibliography_answer s_bibliography,
    es = EvMakedirs (book_output_dir book)
           :: s_outline ++ s_metadata ++ s_introduction
           ++ concat s_chapters ++ s_conclusion ++ s_bibliography
    /\ outline_events self topic num_chapters (book_chapters book) s_outline
    /\ request_segment self (metadata_prompt topic (book_chapters book))
         metadata_answer s_metadata
    /\ book_metadata book = parse_metadata topic metadata_answer
    /\ request_segment self
         (introduction_prompt topic (book_chapters book)
            (title (book_metadata book)))
         (book_introduction book) s_introduction
    /\ chapters_chain self (book_output_dir book) 1 [] (book_runs book)
         s_chapters
    /\ request_segment self
         (conclusion_prompt topic (book_chapters book)
            (title (book_metadata book)))
         (book_conclusion book) s_conclusion
    /\ request_segment self (bibliography_prompt topic) bibliography_answer
         s_bibliography
    /\ book_bibliography book
       = (if truthy bibliography_answer
          then nonblank_lines bibliography_answer else []).

(** ** The assembled document

    The document as the specification words it (section 4.4): title page,
    introduction, the chapters in order, conclusion, bibliography numbered
    from 1.  [write_full_book] is compared with it. *)
Definition numbered_bibliography (bibliography : list text) : text :=
  concat (imap (fun k ref => bibliography_line (S k) ref) bibliography).

Definition assembled_document (metadata : Metadata) (introduction : text)
    (chapter_texts : list text) (conclusion : text)
    (bibliography : list text) : text :=
  concat (title_page metadata)
  ++ (lit "# Introduction" ++ [nl; nl]) ++ introduction ++ [nl; nl]
  ++ concat (map (fun c => c ++ [nl; nl]) chapter_texts)
  ++ (lit "# Conclusion" ++ [nl; nl]) ++ conclusion ++ [nl; nl]
  ++ (lit "# Bibliography" ++ [nl; nl])
  ++ numbered_bibliography bibliography.

(** The text of chapter [i] as [full_book.md] receives it. *)
Definition chapter_text (i : nat) (r : ChapterRun) : text :=
  universal_newlines (chapter_heading i (cr_chapter r) ++ cr_content r).

(** The directory [generate_book] works in. *)
Definition resolved_output_dir (topic : text) (output_dir : option text)
    (w : World) : text :=
  match output_dir with
  | Some d => d
  | None => lit "book_" ++ now_stamp w ++ lit "_"
              ++ slice_to 30 (replace [sp] (lit "_") topic)
  end.

(** What a finished run of [generate_book], started in [w], leaves
    behind. *)
Definition book_complete (self : BookGenerator) (topic : text)
    (num_chapters : Z) (output_dir : option text) (w : World)
    (book : Book) (w' : World) : Prop :=
  book_output_dir book = resolved_output_dir topic output_dir w
  /\ (exists w1,
        generate_outline self topic num_chapters
          (log_event (EvMakedirs (book_output_dir book)) w)
        = (Ok (book_chapters book), w1))
  /\ map cr_chapter (book_runs book) = book_chapters book
  /\ (exists es, trace w' = trace w ++ es
                 /\ book_events self topic num_chapters book es)
  /\ files w' !! full_book_path (book_output_dir book)
     = Some (assembled_document (book_metadata book) (book_introduction book)
               (imap (fun k r => chapter_text (S k) r) (book_runs book))
               (book_conclusion book) (book_bibliography book)).

(** ** Sample generator and worlds *)

Definition local_generator : BookGenerator :=
  mkBookGenerator (lit "http://localhost:11434") (lit "gemma2:27b").

Definition fresh_world (svc : nat -> text -> http_outcome) : World :=
  mkWorld svc 0 ∅ [] (lit "20250101_120000").

(** A service that is down: every post raises. *)
Definition service_down : nat -> text -> http_outcome :=
  fun _ _ => PostRaised.

(** A service that answers every post at once: one title, then one more
    line for every later request. *)
Definition service_terse : nat -> text -> http_outcome :=
  fun k _ =>
    match k with
    | 0 => Responded 200 (Some (lit "Stone Arches"))
    | _ => Responded 200 (Some (lit "Iron Spans"))
    end.

(** Every post is answered with status 200 and a non-empty text. *)
Definition service_healthy (w : World) : Prop :=
  forall k prompt,
    exists t, service w k prompt = Responded 200 (Some t) /\ truthy t = true.

(** A service that answers the k-th post with the k-th text of a
    script and raises once the script is exhausted. *)
Definition service_script (answers : list text) : nat -> text -> http_outcome :=
  fun k _ =>
    match answers !! k with
    | Some t => Responded 200 (Some t)
    | None => PostRaised
    end.

(** A run for two chapters of one section each; posts, in order: outline,
    metadata, introduction, then per chapter structure, section, summary,
    and finally conclusion and bibliography.  Only the text of the first
    chapter's section is left open. *)
Definition two_chapter_script (section_text : text) : list text :=
  [ lit "Stone Arches" ++ [nl] ++ lit "Iron Spans";
    lit "Title: Bridges";
    lit "Bridges matter.";
    lit "Overview";
    section_text;
    lit "Arches carry load by compression.";
    lit "Overview";
    lit "Iron changed everything.";
    lit "Iron spans are light.";
    lit "In sum.";
    lit "Vitruvius. De architectura." ].

(** A run for one chapter of two sections. *)
Definition two_section_script : list text :=
  [ lit "Stone Arches";
    lit "Title: Bridges";
    lit "Bridges matter.";
    lit "Opening" ++ [nl] ++ lit "Closing";
    lit "First text.";
    lit "Second text.";
    lit "Arches carry load by compression.";
    lit "In sum.";
    lit "Vitruvius. De architectura." ].

(** The book of a run that is known to finish. *)
Definition book_of (r : result Book * World) : Book :=
  match r.1 with
  | Ok book => book
  | Raised _ => mkBook [] [] (mkMetadata [] [] []) [] [] [] []
  end.

(** ** Metadata lines *)

(** The line starts with one of the known field prefixes. *)
Definition recognized (line : text) : bool :=
  startswith (lit "Title:") line || startswith (lit "Author:") line
  || startswith (lit "Annotation:") line.

(** ** Stages *)

Inductive stage :=
| OutlineStage
| MetadataStage
| StructureStage
| SectionStage
| SummaryStage
| IntroductionStage
| ConclusionStage
| BibliographyStage.

Inductive stage_output :=
| TitlesOut (l : list text)
| TextOut (t : text)
| MetadataOut (m : Metadata).

Record stage_inputs := mkStageInputs {
  in_topic : text;
  in_num_chapters : Z;
  in_chapters : list text;
  in_metadata : Metadata;
  in_chapter_title : text;
  in_section_title : text;
  in_previous : text;
  in_content : text
}.

Definition run_stage (self : BookGenerator) (st : stage) (i : stage_inputs)
    : M stage_output :=
  match st with
  | OutlineStage =>
      l <- generate_outline self (in_topic i) (in_num_chapters i) ;; ret (TitlesOut l)
  | MetadataStage =>
      m <- generate_metadata self (in_topic i) (in_chapters i) ;; ret (MetadataOut m)
  | StructureStage =>
      l <- generate_chapter_structure self (in_chapter_title i) (in_previous i) ;;
      ret (TitlesOut l)
  | SectionStage =>
      t <- generate_chapter_chunk self (in_chapter_title i) (in_section_title i)
             (in_previous i) ;;
      ret (TextOut t)
  | SummaryStage =>
      t <- summarize_chapter self (in_content i) ;; ret (TextOut t)
  | IntroductionStage =>
      t <- generate_introduction self (in_topic i) (in_chapters i) (in_metadata i) ;;
      ret (TextOut t)
  | ConclusionStage =>
      t <- generate_conclusion self (in_topic i) (in_chapters i) (in_metadata i) ;;
      ret (TextOut t)
  | BibliographyStage =>
      l <- generate_bibliography self (in_topic i) ;; ret (TitlesOut l)
  end.

(** The output carries no text at all. *)
Definition is_empty (o : stage_output) : bool :=
  match o with
  | TitlesOut l => match l with [] => true | _ => false end
  | TextOut t => negb (truthy t)
  | MetadataOut m =>
      negb (truthy (title m)) && negb (truthy (author m))
      && negb (truthy (annotation m))
  end.

(** No post is ever answered. *)
Definition service_dead (w : World) : Prop :=
  forall k prompt, attempt_fails (service w k prompt) = true.

(** What each stage hands back when the service is dead. *)
Definition degraded_output (st : stage) (i : stage_inputs) : stage_output :=
  match st with
  | StructureStage => TitlesOut fallback_structure
  | MetadataStage => MetadataOut (default_metadata (in_topic i))
  | OutlineStage | BibliographyStage => TitlesOut []
  | SectionStage | SummaryStage | IntroductionStage | ConclusionStage => TextOut []
  end.

Definition sample_inputs : stage_inputs :=
  mkStageInputs (lit "History of Bridges") 2 [lit "Stone Arches"; lit "Iron Spans"]
    (default_metadata (lit "History of Bridges")) (lit "Stone Arches")
    (lit "Overview") [] [].

(** A store that holds the full text of one chapter. *)
Definition one_chapter_store : World :=
  set_files {[ full_chapter_path (lit "out") 1 :=
                 lit "# Chapter 1: Stone Arches" ++ [nl; nl] ++ lit "Voussoirs."
                   ++ [cr; nl] ]}
    (fresh_world service_down).

(** [old in s] *)
Fixpoint contains (old s : text) : bool :=
  startswith old s
  || match s with
     | [] => false
     | _ :: r => contains old r
     end.

(** * Further vocabulary *)

(** ** Lines *)

(** Made of whitespace only (the empty string included). *)
Definition blank (s : text) : bool := forallb py_isspace s.

(** A line as the list-returning stages hand it out: not empty, no
    newline inside, no whitespace at either end. *)
Definition clean_line (s : text) : Prop :=
  truthy s = true /\ (nl ∉ s) /\ strip s = s.

(** ** Counting events *)

Definition is_post (e : event) : bool :=
  match e with
  | EvPost _ _ _ _ => true
  | _ => false
  end.

Definition is_sleep (e : event) : bool :=
  match e with
  | EvSleep _ => true
  | _ => false
  end.

Definition count_posts (es : list event) : nat :=
  length (List.filter is_post es).

Definition count_sleeps (es : list event) : nat :=
  length (List.filter is_sleep es).

(** ** One post *)

(** The world after one post of [prompt], with no pause. *)
Definition after_post (self : BookGenerator) (prompt : text) (w : World) : World :=
  mkWorld (service w) (S (posted w)) (files w)
    (trace w ++ [EvPost (generate_endpoint self) (model self) prompt
                   (service w (posted w) prompt)])
    (now_stamp w).

(** The request with which a stage opens. *)
Definition stage_prompt (st : stage) (i : stage_inputs) : text :=
  match st with
  | OutlineStage => outline_prompt (in_topic i) (in_num_chapters i)
  | MetadataStage => metadata_prompt (in_topic i) (in_chapters i)
  | StructureStage => structure_prompt (in_chapter_title i) (in_previous i)
  | SectionStage =>
      chunk_prompt (in_chapter_title i) (in_section_title i) (in_previous i)
  | SummaryStage => summary_prompt (in_content i)
  | IntroductionStage =>
      introduction_prompt (in_topic i) (in_chapters i) (title (in_metadata i))
  | ConclusionStage =>
      conclusion_prompt (in_topic i) (in_chapters i) (title (in_metadata i))
  | BibliographyStage => bibliography_prompt (in_topic i)
  end.

(** ** Directory names *)

(** A space becomes an underscore, every other character stays. *)
Definition underscored (c : ascii) : ascii :=
  if Ascii.eqb sp c then "_"%char else c.

(** ** The artifacts of a run *)

Definition section_path (chapter_dir : text) (j : nat) : text :=
  chapter_dir ++ lit "/section_" ++ fmt_02d j ++ lit ".md".







(** No file of [w] is missing from [w']. *)
Definition keeps_files (w w' : World) : Prop :=
  forall p, is_Some (files w !! p) -> is_Some (files w' !! p).


(** ** Accounting *)




(** ** Directory calls and pauses *)

Definition is_makedirs (e : event) : bool :=
  match e with
  | EvMakedirs _ => true
  | _ => false
  end.

(** The pause of one second that follows a section (a retry pauses for
    five). *)
Definition is_section_pause (e : event) : bool :=
  match e with
  | EvSleep seconds => (seconds =? 1)%Z
  | _ => false
  end.

(** The calls of [os.makedirs], in order. *)
Definition directories (es : list event) : list event :=
  List.filter is_makedirs es.

Definition section_pauses (es : list event) : nat :=
  length (List.filter is_section_pause es).

(** ** The cost of a run *)

(** From [w] to [w'] at least [lo] and at most [hi] posts were made. *)
Definition charged (w w' : World) (lo hi : nat) : Prop :=
  posted w + lo <= posted w' /\ posted w' <= posted w + hi.

(** The computation makes no post, whatever its outcome. *)
Definition silent {A} (m : M A) : Prop :=
  forall w, posted (m w).2 = posted w.


(** * The program on answers of any type

    [_make_request] declares [-> str] and returns
    [response.json()['response']] as it comes.  Everything above reads a
    service that keeps that promise.  Here the answer may hold any JSON
    value, [os.makedirs] and [time.sleep] check their argument, and the
    methods are the same code over such answers. *)

(** A value that is not a string takes part in the program through its
    truth value and through [str()] only: it has no [split] or [strip],
    and neither [+=] onto a string nor [f.write] accept it.  [VOther]
    stands for [None], a number, a boolean, a list or an object. *)
Inductive value :=
| VStr (t : text)
| VOther (truth : bool) (shown : text).

Definition VNone : value := VOther false (lit "None").

(** [bool(v)] *)
Definition truth_of (v : value) : bool :=
  match v with
  | VStr t => truthy t
  | VOther truth _ => truth
  end.

(** [str(v)], which is what an f-string shows of [v] *)
Definition py_str (v : value) : text :=
  match v with
  | VStr t => t
  | VOther _ shown => shown
  end.

(** The receiver of [v.split(...)] or [v.strip()] *)
Definition str_method (v : value) : M text :=
  match v with
  | VStr t => ret t
  | VOther _ _ => raise AttributeError
  end.

(** The operand of [s += v] and the argument of [f.write(v)] *)
Definition str_operand (v : value) : M text :=
  match v with
  | VStr t => ret t
  | VOther _ _ => raise TypeError
  end.

(** What one [requests.post] can do; [response] is what
    [json()['response']] evaluates to, [None] when the body does not
    decode or holds no such key (the evaluation raises). *)
Inductive raw_outcome :=
| RawResponded (status : Z) (response : option value)
| RawRaised.

(** The answer as the trace records it, a value that is not a string by
    its rendering. *)
Definition typed (o : raw_outcome) : http_outcome :=
  match o with
  | RawResponded status response => Responded status (option_map py_str response)
  | RawRaised => PostRaised
  end.

(** Status 200 comes with a string, if with anything. *)
Definition str_answer (o : raw_outcome) : bool :=
  match o with
  | RawResponded status (Some (VOther _ _)) => negb (status =? 200)%Z
  | _ => true
  end.

(** The answers are those of the service of [w], and that service keeps
    the promise of [-> str]. *)
Definition promise_kept (answers : nat -> text -> raw_outcome) (w : World) : Prop :=
  forall k prompt,
    service w k prompt = typed (answers k prompt)
    /\ str_answer (answers k prompt) = true.

Definition NUL : ascii := "000"%char.

(** A directory name [os.makedirs] does not refuse for what it is: not
    empty, no NUL character.  (What the file system may refuse beyond
    that is outside the model.) *)
Definition accepted_directory (path : text) : Prop :=
  truthy path = true /\ existsb (Ascii.eqb NUL) path = false.

(** [time.sleep] takes the pauses the program itself asks for: one
    second after a section, five between attempts. *)
Definition usual_pauses (sleep_refusal : Z -> option exn) : Prop :=
  sleep_refusal 1%Z = None /\ sleep_refusal 5%Z = None.

Module Untyped.

Section Program.

(** Whether [time.sleep] can take a duration at all: it converts the
    seconds to nanoseconds on a 64-bit clock and refuses what does not
    fit with [OverflowError], and the clock refuses some that do with
    [OSError]; where either begins depends on the platform.  [None]
    stands for a duration that is taken. *)
Variable sleep_refusal : Z -> option exn.

(** The service: the answer to the k-th post. *)
Variable answers : nat -> text -> raw_outcome.

Variable self : BookGenerator.

(** [time.sleep(seconds)]: the conversion first, then the sign. *)
Definition sleep (seconds : Z) : M unit :=
  match sleep_refusal seconds with
  | None => sleep seconds
  | Some e => raise e
  end.

(** [os.makedirs(path, exist_ok=True)] *)
Definition makedirs (path : text) : M unit :=
  if negb (truthy path) then raise (FileNotFoundError path)
  else if existsb (Ascii.eqb NUL) path then raise ValueError
  else makedirs path.

Definition requests_post (endpoint model prompt : text) : M (Z * option value) :=
  fun w =>
    let answer := answers (posted w) prompt in
    let w' := mkWorld (service w) (S (posted w)) (files w)
                      (trace w ++ [EvPost endpoint model prompt (typed answer)])
                      (now_stamp w) in
    match answer with
    | RawResponded status response => (Ok (status, response), w')
    | RawRaised => (Raised RequestError, w')
    end.

Definition response_json (response : option value) : M value :=
  match response with
  | Some v => ret v
  | None => raise DecodeError
  end.

Definition request_attempt (prompt : text)
    (max_retries retry_delay : Z) (attempt : nat) : M (option value) :=
  try_except
    (r <- requests_post (generate_endpoint self) (model self) prompt ;;
     if (fst r =? 200)%Z then
       v <- response_json (snd r) ;; ret (Some v)
     else
       when (Z.of_nat attempt <? max_retries - 1)%Z (sleep retry_delay) ;;;
       ret None)
    (fun _ =>
       when (Z.of_nat attempt <? max_retries - 1)%Z (sleep retry_delay) ;;;
       ret None).

Fixpoint request_attempts (prompt : text)
    (max_retries retry_delay : Z) (attempts : list nat) : M value :=
  match attempts with
  | [] => ret (VStr [])
  | attempt :: rest =>
      r <- request_attempt prompt max_retries retry_delay attempt ;;
      match r with
      | Some v => ret v
      | None => request_attempts prompt max_retries retry_delay rest
      end
  end.

Definition _make_request (prompt : text)
    (max_retries retry_delay : Z) : M value :=
  request_attempts prompt max_retries retry_delay
    (seq 0 (Z.to_nat max_retries)).

Definition make_request (prompt : text) : M value :=
  _make_request prompt 3 5.

(** [[line.strip() for line in response.split('\n') if line.strip()]] *)
Definition response_lines (response : value) : M (list text) :=
  response <- str_method response ;;
  ret (nonblank_lines response).

Definition generate_outline (topic : text)
    (num_chapters : Z) : M (list text) :=
  response <- make_request (outline_prompt topic num_chapters) ;;
  if truth_of response then
    chapters <- response_lines response ;;
    if (num_chapters <? Z.of_nat (length chapters))%Z then
      ret (slice_to num_chapters chapters)
    else if (Z.of_nat (length chapters) <? num_chapters)%Z then
      let additional_needed := (num_chapters - Z.of_nat (length chapters))%Z in
      additional_response <-
        make_request (additional_prompt topic additional_needed chapters) ;;
      if truth_of additional_response then
        additional_chapters <- response_lines additional_response ;;
        ret (chapters ++ slice_to additional_needed additional_chapters)
      else ret chapters
    else ret chapters
  else ret [].

Definition structure_context (previous_summary : value) : text :=
  if truth_of previous_summary
  then lit "Summary of the previous chapter: " ++ py_str previous_summary ++ [nl]
  else [].

Definition structure_prompt (chapter_title : text)
    (previous_summary : value) : text :=
  join [nl]
    [ [];
      lit "        " ++ structure_context previous_summary;
      lit "        Create a detailed structure for the chapter titled: " ++ quoted chapter_title;
      lit "        ";
      lit "        The chapter should have the following structure:";
      lit "        1. Chapter introduction";
      lit "        2. 3-5 logically connected subsections with informative titles";
      lit "        3. Chapter conclusion";
      lit "        ";
      lit "        Return only the section titles, one per line, including "
        ++ quoted (lit "Introduction") ++ lit " and " ++ quoted (lit "Conclusion") ++ lit ".";
      lit "        " ].

Definition generate_chapter_structure (chapter_title : text)
    (previous_summary : value) : M (list text) :=
  response <- make_request (structure_prompt chapter_title previous_summary) ;;
  if truth_of response then response_lines response
  else ret fallback_structure.

Definition generate_chapter_chunk
    (chapter_title section_title previous_content : text) : M value :=
  make_request (chunk_prompt chapter_title section_title previous_content).

Definition summarize_chapter (chapter_content : text) : M value :=
  make_request (summary_prompt chapter_content).

Definition generate_metadata (topic : text)
    (chapters : list text) : M Metadata :=
  response <- make_request (metadata_prompt topic chapters) ;;
  let metadata := default_metadata topic in
  if truth_of response then
    response <- str_method response ;;
    ret (fold_left metadata_line (split nl (strip response)) metadata)
  else ret metadata.

Definition generate_introduction (topic : text)
    (chapters : list text) (metadata : Metadata) : M value :=
  make_request (introduction_prompt topic chapters (title metadata)).

Definition generate_conclusion (topic : text)
    (chapters : list text) (metadata : Metadata) : M value :=
  make_request (conclusion_prompt topic chapters (title metadata)).

Definition generate_bibliography (topic : text) : M (list text) :=
  response <- make_request (bibliography_prompt topic) ;;
  if truth_of response then response_lines response else ret [].

Definition section_body (chapter chapter_dir : text)
    (j : nat) (section : text) (st : text * list SectionRun)
    : M (text * list SectionRun) :=
  let full_chapter_content := st.1 in
  let previous_content :=
    if truthy full_chapter_content
    then slice_from (-1000) full_chapter_content else [] in
  section_content <-
    generate_chapter_chunk chapter section previous_content ;;
  section_content <- str_operand section_content ;;
  let full_chapter_content := full_chapter_content ++ section_content in
  let path := chapter_dir ++ lit "/section_" ++ fmt_02d j ++ lit ".md" in
  open_w path ;;;
  f_write path (lit "## " ++ section ++ [nl; nl]) ;;;
  f_write path section_content ;;;
  sleep 1 ;;;
  ret (full_chapter_content,
       st.2 ++ [mkSectionRun section previous_content section_content]).

Definition chapter_body (output_dir : text)
    (i : nat) (chapter : text) (st : value * list ChapterRun)
    : M (value * list ChapterRun) :=
  let previous_summary := st.1 in
  let chapter_dir := chapter_dir_of output_dir i in
  makedirs chapter_dir ;;;
  sections <- generate_chapter_structure chapter previous_summary ;;
  let readme := chapter_dir ++ lit "/README.md" in
  open_w readme ;;;
  f_write readme (chapter_heading i chapter) ;;;
  f_write readme (lit "## Chapter Contents" ++ [nl; nl]) ;;;
  for_enumerate 1 sections
    (fun j section _ =>
       f_write readme (str_nat j ++ lit ". [" ++ section ++ lit "](section_"
                         ++ fmt_02d j ++ lit ".md)" ++ [nl])) tt ;;;
  sec <- for_enumerate 1 sections (section_body chapter chapter_dir) ([], []) ;;
  let full_chapter_content := sec.1 in
  summary <- summarize_chapter full_chapter_content ;;
  open_w (full_chapter_path output_dir i) ;;;
  f_write (full_chapter_path output_dir i) (chapter_heading i chapter) ;;;
  f_write (full_chapter_path output_dir i) full_chapter_content ;;;
  ret (summary,
       st.2 ++ [mkChapterRun chapter (py_str previous_summary) sections sec.2
                             full_chapter_content (py_str summary)]).

Definition write_full_book (output_dir : text) (metadata : Metadata)
    (introduction : value) (chapters : list text) (conclusion : value)
    (bibliography : list text) : M unit :=
  let f := full_book_path output_dir in
  open_w f ;;;
  write_all f (title_page metadata) ;;;
  f_write f (lit "# Introduction" ++ [nl; nl]) ;;;
  introduction <- str_operand introduction ;;
  f_write f introduction ;;;
  f_write f [nl; nl] ;;;
  for_enumerate 1 chapters
    (fun i chapter _ =>
       chapter_content <- f_read (full_chapter_path output_dir i) ;;
       f_write f (chapter_content ++ [nl; nl])) tt ;;;
  f_write f (lit "# Conclusion" ++ [nl; nl]) ;;;
  conclusion <- str_operand conclusion ;;
  f_write f conclusion ;;;
  f_write f [nl; nl] ;;;
  f_write f (lit "# Bibliography" ++ [nl; nl]) ;;;
  for_enumerate 1 bibliography
    (fun i ref _ => f_write f (bibliography_line i ref)) tt.

Definition generate_book (topic : text)
    (num_chapters : Z) (output_dir : option text) : M Book :=
  output_dir <-
    match output_dir with
    | None =>
        timestamp <- strftime_now ;;
        ret (lit "book_" ++ timestamp ++ lit "_"
               ++ slice_to 30 (replace [sp] (lit "_") topic))
    | Some d => ret d
    end ;;
  makedirs output_dir ;;;
  chapters <- generate_outline topic num_chapters ;;
  metadata <- generate_metadata topic chapters ;;
  open_w (output_dir ++ lit "/metadata.json") ;;;
  f_write (output_dir ++ lit "/metadata.json") (json_dump_metadata metadata) ;;;
  open_w (output_dir ++ lit "/outline.txt") ;;;
  f_write (output_dir ++ lit "/outline.txt") (join [nl] chapters) ;;;
  introduction <- generate_introduction topic chapters metadata ;;
  open_w (output_dir ++ lit "/introduction.md") ;;;
  f_write (output_dir ++ lit "/introduction.md")
          (lit "# Introduction" ++ [nl; nl] ++ py_str introduction) ;;;
  let readme := output_dir ++ lit "/README.md" in
  open_w readme ;;;
  write_all readme (title_page metadata) ;;;
  f_write readme (lit "## Contents" ++ [nl; nl]) ;;;
  f_write readme (lit "- [Introduction](introduction.md)" ++ [nl]) ;;;
  for_enumerate 1 chapters
    (fun i chapter _ =>
       f_write readme (lit "- [Chapter " ++ str_nat i ++ lit ": " ++ chapter
                         ++ lit "](chapter_" ++ fmt_02d i ++ lit "/README.md)"
                         ++ [nl])) tt ;;;
  f_write readme (lit "- [Conclusion](conclusion.md)" ++ [nl]) ;;;
  f_write readme (lit "- [Bibliography](bibliography.md)" ++ [nl]) ;;;
  loop <- for_enumerate 1 chapters (chapter_body output_dir) (VStr [], []) ;;
  conclusion <- generate_conclusion topic chapters metadata ;;
  open_w (output_dir ++ lit "/conclusion.md") ;;;
  f_write (output_dir ++ lit "/conclusion.md")
          (lit "# Conclusion" ++ [nl; nl] ++ py_str conclusion) ;;;
  bibliography <- generate_bibliography topic ;;
  open_w (output_dir ++ lit "/bibliography.md") ;;;
  f_write (output_dir ++ lit "/bibliography.md") (lit "# Bibliography" ++ [nl; nl]) ;;;
  for_enumerate 1 bibliography
    (fun i ref _ =>
       f_write (output_dir ++ lit "/bibliography.md") (bibliography_line i ref)) tt ;;;
  write_full_book output_dir metadata introduction chapters conclusion bibliography ;;;
  ret (mkBook output_dir chapters metadata (py_str introduction) loop.2
              (py_str conclusion) bibliography).

End Program.

End Untyped.

(** The document of a finished run, written out: the title page, the
    introduction, the chapters as read back, the conclusion and the
    numbered bibliography. *)
Definition full_book_text (book : Book) : text :=
  lit "# " ++ title (book_metadata book) ++ [nl; nl]
  ++ lit "**Author:** " ++ author (book_metadata book) ++ [nl; nl]
  ++ lit "**Annotation:**" ++ [nl; nl] ++ annotation (book_metadata book) ++ [nl; nl]
  ++ lit "# Introduction" ++ [nl; nl] ++ book_introduction book ++ [nl; nl]
  ++ concat (imap (fun k r => chapter_text (S k) r ++ [nl; nl]) (book_runs book))
  ++ lit "# Conclusion" ++ [nl; nl] ++ book_conclusion book ++ [nl; nl]
  ++ lit "# Bibliography" ++ [nl; nl]
  ++ concat (imap (fun k ref => str_nat (S k) ++ lit ". " ++ ref ++ [nl])
                  (book_bibliography book)).

(** A [time.sleep] that takes every duration. *)
Definition patient : Z -> option exn := fun _ => None.

(** [service_terse], answer by answer. *)
Definition answers_terse : nat -> text -> raw_outcome :=
  fun k _ =>
    match k with
    | 0 => RawResponded 200 (Some (VStr (lit "Stone Arches")))
    | _ => RawResponded 200 (Some (VStr (lit "Iron Spans")))
    end.

(** Every answer is status 200 with [{"response": null}]. *)
Definition answers_null : nat -> text -> raw_outcome :=
  fun _ _ => RawResponded 200 (Some VNone).

(** Every answer is status 200 with a number for the response. *)
Definition answers_number : nat -> text -> raw_outcome :=
  fun _ _ => RawResponded 200 (Some (VOther true (lit "7"))).

(** What the null answers leave of [full_book.md]: the default title
    page and the heading of the introduction. *)
Definition broken_document (topic : text) : text :=
  lit "# Book on " ++ topic ++ [nl; nl]
  ++ lit "**Author:** Author Not Specified" ++ [nl; nl]
  ++ lit "**Annotation:**" ++ [nl; nl] ++ [nl; nl]
  ++ lit "# Introduction" ++ [nl; nl].

(** The computation leaves the service as it is. *)
Definition steady {A} (m : M A) : Prop :=
  forall w, service (m w).2 = service w.

(** The value [f a] in place of [a]. *)
Definition cast {A B} (f : A -> B) (r : result A * World) : result B * World :=
  (match r.1 with
   | Ok a => Ok (f a)
   | Raised e => Raised e
   end, r.2).

(** ** The command line *)




Section Main.

(** [int(s)] for a string [s]; [None] stands for [ValueError]. *)
Variable py_int : text -> option Z.



(** [time.sleep] and the service, as [Untyped] has them. *)
Variable sleep_refusal : Z -> option exn.
Variable answers : nat -> text -> raw_outcome.


End Main.

(** * Properties *)

(** ** Text and path facts *)

Example split_ex : split nl (lit "a" ++ [nl] ++ lit "b" ++ [nl]) = [lit "a"; lit "b"; []].
Proof. reflexivity. Qed.
Example strip_ex : strip (lit "  a b " ++ [nl]) = lit "a b".
Proof. reflexivity. Qed.
Example replace_ex : replace (lit "ab") (lit "x") (lit "cababa") = lit "cxxa".
Proof. reflexivity. Qed.
Example fmt_ex : fmt_02d 7 = lit "07" /\ fmt_02d 12 = lit "12" /\ fmt_02d 123 = lit "123".
Proof. repeat split; reflexivity. Qed.
Example slice_ex : slice_from (-2) [1;2;3] = [2;3] /\ slice_from (-5) [1;2;3] = [1;2;3]
  /\ slice_to (-1) [1;2;3] = [1;2] /\ slice_to 2 [1;2;3] = [1;2].
Proof. repeat split; reflexivity. Qed.

Lemma uint_text_inj d1 d2 : uint_text d1 = uint_text d2 -> d1 = d2.
Proof.
  revert d2; induction d1; intros [] H; simpl in H;
    try discriminate; try reflexivity; f_equal; apply IHd1; congruence.
Qed.

Lemma uint_text_digits d : forallb is_digit (uint_text d) = true.
Proof. induction d; simpl; auto. Qed.

Lemma str_nat_inj n m : str_nat n = str_nat m -> n = m.
Proof. intros H. apply Unsigned.to_uint_inj, uint_text_inj, H. Qed.

Lemma fmt_02d_uint n :
  exists d, fmt_02d n = uint_text d /\ Nat.of_uint d = n.
Proof.
  unfold fmt_02d, str_nat. destruct (_ <? 2).
  - exists (D0 (Nat.to_uint n)). split; [reflexivity|].
    change (Nat.of_uint (D0 (Nat.to_uint n))) with (Nat.of_uint (Nat.to_uint n)).
    apply Unsigned.of_to.
  - exists (Nat.to_uint n). split; [reflexivity|apply Unsigned.of_to].
Qed.

Lemma fmt_02d_inj n m : fmt_02d n = fmt_02d m -> n = m.
Proof.
  destruct (fmt_02d_uint n) as (d1 & -> & <-).
  destruct (fmt_02d_uint m) as (d2 & -> & <-).
  intros H. apply uint_text_inj in H. congruence.
Qed.

Lemma fmt_02d_digits n : forallb is_digit (fmt_02d n) = true.
Proof. destruct (fmt_02d_uint n) as (d & -> & _). apply uint_text_digits. Qed.

(** Two digit strings followed by a slash agree as soon as the whole
    strings do. *)
Lemma digits_slash_inj (a b x y : text) :
  forallb is_digit a = true -> forallb is_digit b = true ->
  a ++ "/"%char :: x = b ++ "/"%char :: y -> a = b.
Proof.
  revert b; induction a as [|c a IH]; intros [|c' b] Ha Hb H; simpl in *.
  - reflexivity.
  - injection H as <- _. apply andb_true_iff in Hb as [Hb _]. discriminate.
  - injection H as -> _. apply andb_true_iff in Ha as [Ha _]. discriminate.
  - injection H as -> H. f_equal.
    apply andb_true_iff in Ha as [_ Ha]. apply andb_true_iff in Hb as [_ Hb].
    eauto.
Qed.

Lemma full_chapter_in_dir out k : in_chapter_dir out k (full_chapter_path out k).
Proof. exists (lit "full_chapter.md"). reflexivity. Qed.

Lemma in_chapter_dir_inj out i k p :
  in_chapter_dir out i p -> in_chapter_dir out k p -> i = k.
Proof.
  intros [x ->] [y H]. unfold chapter_dir_of in H.
  rewrite <- !(app_assoc out) in H. apply app_inv_head in H.
  rewrite <- !app_assoc in H. apply app_inv_head in H.
  apply digits_slash_inj in H; auto using fmt_02d_digits, fmt_02d_inj.
Qed.

Lemma startswith_app p x : startswith p (p ++ x) = true.
Proof.
  induction p as [|c p IH]; simpl; [reflexivity|].
  rewrite Ascii.eqb_refl. exact IH.
Qed.

(** The files written directly under [output_dir] are in no chapter
    directory. *)
Lemma top_level_not_in_chapter_dir out k (name : text) :
  startswith (lit "/chapter_") name = false ->
  ~ in_chapter_dir out k (out ++ name).
Proof.
  intros Hn [rest H]. unfold chapter_dir_of in H.
  rewrite <- !app_assoc in H. apply app_inv_head in H.
  rewrite H, startswith_app in Hn. discriminate.
Qed.

Lemma top_level_ne out k (name : text) :
  startswith (lit "/chapter_") name = false ->
  out ++ name <> full_chapter_path out k.
Proof.
  intros Hn E. apply (top_level_not_in_chapter_dir out k name Hn).
  rewrite E. apply full_chapter_in_dir.
Qed.

(** ** Rules for [returns] *)

Lemma returns_ret {A} (a : A) w (Q : A -> World -> Prop) :
  Q a w -> returns (ret a) w Q.
Proof. intros H. exists a, w. split; [reflexivity|exact H]. Qed.

Lemma returns_bind {A B} (m : M A) (k : A -> M B) w (Q : B -> World -> Prop) :
  returns m w (fun a w1 => returns (k a) w1 Q) -> returns (bind m k) w Q.
Proof.
  intros (a & w1 & Em & b & w2 & Ek & HQ).
  exists b, w2. split; [|exact HQ]. unfold bind. rewrite Em. exact Ek.
Qed.

Lemma returns_mono {A} (m : M A) w (Q Q' : A -> World -> Prop) :
  returns m w Q -> (forall a w', Q a w' -> Q' a w') -> returns m w Q'.
Proof. intros (a & w' & E & H) HQ. exists a, w'. auto. Qed.

Lemma bind_run {A B} (m : M A) (k : A -> M B) w a w1 :
  m w = (Ok a, w1) -> bind m k w = k a w1.
Proof. intros E. unfold bind. rewrite E. reflexivity. Qed.

(** ** The request layer *)

Lemma request_attempt_failed self prompt max_retries retry_delay attempt w :
  (0 <= retry_delay)%Z ->
  attempt_fails (service w (posted w) prompt) = true ->
  request_attempt self prompt max_retries retry_delay attempt w
  = (Ok None, after_failed_attempt self prompt max_retries retry_delay attempt w).
Proof.
  intros Hd Hf.
  assert (Hs : (retry_delay <? 0)%Z = false) by (apply Z.ltb_ge; exact Hd).
  unfold request_attempt, try_except, bind, requests_post, after_failed_attempt,
    when, sleep, response_json, raise, ret, log_event.
  destruct (service w (posted w) prompt) as [status [t|]|]; simpl in *.
  - apply negb_true_iff in Hf. rewrite Hf.
    destruct (Z.of_nat attempt <? max_retries - 1)%Z; simpl; rewrite ?Hs;
      simpl; rewrite <- ?app_assoc; reflexivity.
  - destruct (status =? 200)%Z;
    destruct (Z.of_nat attempt <? max_retries - 1)%Z; simpl; rewrite ?Hs;
      simpl; rewrite <- ?app_assoc; reflexivity.
  - destruct (Z.of_nat attempt <? max_retries - 1)%Z; simpl; rewrite ?Hs;
      simpl; rewrite <- ?app_assoc; reflexivity.
Qed.

Lemma request_attempt_succeeded self prompt max_retries retry_delay attempt w t :
  service w (posted w) prompt = Responded 200 (Some t) ->
  request_attempt self prompt max_retries retry_delay attempt w
  = (Ok (Some t),
     mkWorld (service w) (S (posted w)) (files w)
       (trace w ++ [EvPost (generate_endpoint self) (model self) prompt
                      (Responded 200 (Some t))])
       (now_stamp w)).
Proof.
  intros Hs.
  unfold request_attempt, try_except, bind, requests_post. rewrite Hs.
  reflexivity.
Qed.

Lemma attempt_fails_false o :
  attempt_fails o = false -> exists t, o = Responded 200 (Some t).
Proof.
  destruct o as [status [t|]|]; simpl; try discriminate.
  intros H. apply negb_false_iff, Z.eqb_eq in H. subst. eauto.
Qed.

(** With a non-negative delay the retry loop never raises, leaves the
    artifact store alone, and its events are failed posts and pauses up
    to the post that was answered. *)
Lemma request_attempts_returns self prompt max_retries retry_delay attempts :
  (0 <= retry_delay)%Z ->
  forall w,
  returns (request_attempts self prompt max_retries retry_delay attempts) w
    (fun t w' =>
       files w' = files w
       /\ exists es,
            trace w' = trace w ++ es
            /\ request_events self prompt retry_delay t es
            /\ (attempts <> [] ->
                exists o, EvPost (generate_endpoint self) (model self) prompt o ∈ es)).
Proof.
  intros Hd. induction attempts as [|attempt rest IH]; intros w.
  - apply returns_ret. split; [reflexivity|]. exists [].
    rewrite app_nil_r. split_and!; [reflexivity| |congruence].
    exists []. split; [constructor|right; auto].
  - simpl. apply returns_bind.
    destruct (attempt_fails (service w (posted w) prompt)) eqn:Hf.
    + eexists _, _. split; [apply request_attempt_failed; assumption|].
      eapply returns_mono; [apply IH|].
      intros t w' (Ef & es & T & (failures & Hfail & Hes) & _).
      split; [exact Ef|].
      set (o := service w (posted w) prompt) in *.
      set (pause := if (Z.of_nat attempt <? max_retries - 1)%Z
                    then [EvSleep retry_delay] else []).
      exists ((EvPost (generate_endpoint self) (model self) prompt o :: pause) ++ es).
      split_and!.
      * rewrite T. cbn [after_failed_attempt trace]. fold o pause.
        rewrite <- app_assoc. reflexivity.
      * exists ((EvPost (generate_endpoint self) (model self) prompt o :: pause)
                  ++ failures).
        split.
        -- apply Forall_app. split; [|exact Hfail].
           constructor; [left; exists o; auto|].
           unfold pause.
           destruct (_ <? _)%Z;
             [apply List.Forall_cons; [right; reflexivity|]|]; apply List.Forall_nil.
        -- destruct Hes as [->|[-> ->]]; [left|right; split];
             rewrite <- ?app_assoc; reflexivity.
      * intros _. exists o. left.
    + apply attempt_fails_false in Hf as [t Hf].
      eexists _, _. split; [apply request_attempt_succeeded; eassumption|].
      apply returns_ret. split; [reflexivity|].
      eexists. split_and!; [reflexivity| |].
      * exists []. split; [constructor|left; reflexivity].
      * intros _. eexists. left.
Qed.

Lemma make_request_returns self prompt w :
  returns (make_request self prompt) w
    (fun t w' =>
       files w' = files w
       /\ exists es, trace w' = trace w ++ es /\ request_segment self prompt t es).
Proof.
  eapply returns_mono; [apply request_attempts_returns; lia|].
  intros t w' (Ef & es & T & Hev & Hpost). split; [exact Ef|].
  exists es. split; [exact T|]. split; [exact Hev|apply Hpost; discriminate].
Qed.

(** When every attempt fails the loop runs through all of them and
    returns the empty string. *)
Lemma request_attempts_all_fail self prompt max_retries retry_delay attempts w :
  (0 <= retry_delay)%Z ->
  all_fail w prompt (length attempts) ->
  request_attempts self prompt max_retries retry_delay attempts w
  = (Ok [],
     fold_left (fun w attempt =>
                  after_failed_attempt self prompt max_retries retry_delay attempt w)
               attempts w).
Proof.
  intros Hd. revert w. induction attempts as [|attempt rest IH]; intros w Hall.
  - reflexivity.
  - simpl. erewrite bind_run.
    2:{ apply request_attempt_failed; [assumption|].
        specialize (Hall 0). rewrite Nat.add_0_r in Hall. apply Hall. simpl. lia. }
    apply IH. intros k Hk. specialize (Hall (S k)).
    simpl. rewrite <- Nat.add_succ_r. apply Hall. simpl. lia.
Qed.

(** ** The artifact store *)

Lemma returns_open_w path w (Q : unit -> World -> Prop) :
  (forall w', files w' = <[path := []]> (files w) -> trace w' = trace w ->
              Q tt w') ->
  returns (open_w path) w Q.
Proof. intros H. eexists _, _. split; [reflexivity|]. apply H; reflexivity. Qed.

Lemma returns_f_write path s acc F w (Q : unit -> World -> Prop) :
  files w = <[path := acc]> F ->
  (forall w', files w' = <[path := acc ++ s]> F -> trace w' = trace w ->
              Q tt w') ->
  returns (f_write path s) w Q.
Proof.
  intros E H. eexists _, _. split; [reflexivity|]. apply H; [|reflexivity].
  cbn [files set_files]. rewrite E, lookup_insert_eq, insert_insert_eq.
  reflexivity.
Qed.

Lemma returns_f_read path c w (Q : text -> World -> Prop) :
  files w !! path = Some c -> Q (universal_newlines c) w ->
  returns (f_read path) w Q.
Proof.
  intros Hp H. eexists _, _. split; [|exact H].
  unfold f_read. rewrite Hp. reflexivity.
Qed.

Lemma returns_makedirs path w (Q : unit -> World -> Prop) :
  (forall w', files w' = files w -> trace w' = trace w ++ [EvMakedirs path] ->
              Q tt w') ->
  returns (makedirs path) w Q.
Proof. intros H. eexists _, _. split; [reflexivity|]. apply H; reflexivity. Qed.

Lemma returns_sleep seconds w (Q : unit -> World -> Prop) :
  (0 <= seconds)%Z ->
  (forall w', files w' = files w -> trace w' = trace w ++ [EvSleep seconds] ->
              Q tt w') ->
  returns (sleep seconds) w Q.
Proof.
  intros Hs H. apply Z.ltb_ge in Hs. eexists _, _. split.
  - unfold sleep. rewrite Hs. reflexivity.
  - apply H; reflexivity.
Qed.

Lemma returns_make_request self prompt w (Q : text -> World -> Prop) :
  (forall t w' es,
     files w' = files w -> trace w' = trace w ++ es ->
     request_segment self prompt t es -> Q t w') ->
  returns (make_request self prompt) w Q.
Proof.
  intros H. eapply returns_mono; [apply make_request_returns|].
  intros t w' (E & es & T & Hs). eapply H; eassumption.
Qed.

Lemma frame_refl S w : frame S w w.
Proof. intros p _. reflexivity. Qed.

Lemma frame_trans S w1 w2 w3 : frame S w1 w2 -> frame S w2 w3 -> frame S w1 w3.
Proof. intros H1 H2 p Hp. rewrite H2, H1; auto. Qed.

Lemma frame_weaken (S S' : text -> Prop) w w' :
  (forall p, S p -> S' p) -> frame S w w' -> frame S' w w'.
Proof. intros HS H p Hp. apply H. auto. Qed.

Lemma frame_insert (S : text -> Prop) path v w w' :
  S path -> files w' = <[path := v]> (files w) -> frame S w w'.
Proof.
  intros HS E p Hp. rewrite E. apply lookup_insert_ne. intros ->. auto.
Qed.

(** [for i, x in enumerate(xs, j): f.write(g i x)] appends the pieces in
    order. *)
Lemma returns_for_write {A} path (g : nat -> A -> text) xs :
  forall j acc F w (Q : unit -> World -> Prop),
  files w = <[path := acc]> F ->
  (forall w',
     files w' = <[path := acc ++ concat (imap (fun k x => g (j + k) x) xs)]> F ->
     trace w' = trace w -> Q tt w') ->
  returns (for_enumerate j xs (fun i x _ => f_write path (g i x)) tt) w Q.
Proof.
  induction xs as [|x xs IH]; intros j acc F w Q E H.
  - apply returns_ret. apply H; [|reflexivity]. simpl. rewrite app_nil_r. exact E.
  - simpl. apply returns_bind. eapply returns_f_write; [exact E|].
    intros w1 E1 T1. eapply IH; [exact E1|]. intros w2 E2 T2.
    apply H; [|congruence].
    rewrite E2, <- app_assoc. cbn [imap concat]. rewrite Nat.add_0_r.
    do 4 f_equal. apply imap_ext. intros k y _. simpl. f_equal. lia.
Qed.

Lemma returns_write_all path xs :
  forall acc F w (Q : unit -> World -> Prop),
  files w = <[path := acc]> F ->
  (forall w', files w' = <[path := acc ++ concat xs]> F -> trace w' = trace w ->
              Q tt w') ->
  returns (write_all path xs) w Q.
Proof.
  induction xs as [|x xs IH]; intros acc F w Q E H.
  - apply returns_ret. apply H; [|reflexivity]. simpl. rewrite app_nil_r. exact E.
  - simpl. apply returns_bind. eapply returns_f_write; [exact E|].
    intros w1 E1 T1. eapply IH; [exact E1|]. intros w2 E2 T2.
    apply H; [|congruence]. rewrite E2, <- app_assoc. reflexivity.
Qed.

(** Steps through the sequential code of the orchestrator; each names the
    next world, what its store holds and what its trace is. *)
Tactic Notation "step_open" "as" simple_intropattern(w)
    simple_intropattern(E) simple_intropattern(T) :=
  apply returns_bind, returns_open_w; intros w E T.
Tactic Notation "step_write" constr(E0) "as" simple_intropattern(w)
    simple_intropattern(E) simple_intropattern(T) :=
  apply returns_bind; (eapply returns_f_write; [exact E0|]); intros w E T.
Tactic Notation "step_write_each" constr(E0) "as" simple_intropattern(w)
    simple_intropattern(E) simple_intropattern(T) :=
  apply returns_bind; (eapply returns_for_write; [exact E0|]); intros w E T.
Tactic Notation "step_request" "as" simple_intropattern(t) simple_intropattern(w)
    simple_intropattern(es) simple_intropattern(E) simple_intropattern(T)
    simple_intropattern(H) :=
  apply returns_bind, returns_make_request; intros t w es E T H.

(** Unfolds the trace of the last world down to the first one. *)
Ltac trace_chain :=
  repeat match goal with
         | H : trace ?w = _ |- context [trace ?w] => rewrite H
         end.

Lemma returns_with_run {A} (m : M A) w (Q0 Q : A -> World -> Prop) :
  returns m w Q0 ->
  (forall a w', m w = (Ok a, w') -> Q0 a w' -> Q a w') ->
  returns m w Q.
Proof. intros (a & w' & E & H) HQ. exists a, w'. auto. Qed.

(** ** Stages never raise and never write *)

Lemma generate_chapter_structure_returns self chapter_title previous_summary w :
  returns (generate_chapter_structure self chapter_title previous_summary) w
    (fun sections w' =>
       files w' = files w
       /\ exists answer es,
            trace w' = trace w ++ es
            /\ request_segment self
                 (structure_prompt chapter_title previous_summary) answer es
            /\ sections = sections_of answer).
Proof.
  unfold generate_chapter_structure, sections_of.
  step_request as response w' es E T Hs.
  destruct (truthy response) eqn:Ht; apply returns_ret;
    (split; [exact E|]); exists response, es; rewrite Ht; auto.
Qed.

Lemma generate_metadata_returns self topic chapters w :
  returns (generate_metadata self topic chapters) w
    (fun metadata w' =>
       files w' = files w
       /\ exists answer es,
            trace w' = trace w ++ es
            /\ request_segment self (metadata_prompt topic chapters) answer es
            /\ metadata = parse_metadata topic answer).
Proof.
  unfold generate_metadata.
  step_request as response w' es E T Hs.
  apply returns_ret. split; [exact E|]. exists response, es. auto.
Qed.

Lemma generate_bibliography_returns self topic w :
  returns (generate_bibliography self topic) w
    (fun bibliography w' =>
       files w' = files w
       /\ exists answer es,
            trace w' = trace w ++ es
            /\ request_segment self (bibliography_prompt topic) answer es
            /\ bibliography
               = if truthy answer then nonblank_lines answer else []).
Proof.
  unfold generate_bibliography.
  step_request as response w' es E T Hs.
  destruct (truthy response) eqn:Ht; apply returns_ret;
    (split; [exact E|]); exists response, es; rewrite Ht; auto.
Qed.

Lemma slice_to_length {A} (n : Z) (l : list A) :
  (0 <= n)%Z -> length (slice_to n l) <= Z.to_nat n.
Proof.
  intros Hn. unfold slice_to. apply Z.leb_le in Hn. rewrite Hn.
  rewrite length_take. lia.
Qed.

Lemma generate_outline_returns self topic num_chapters w :
  returns (generate_outline self topic num_chapters) w
    (fun chapters w' =>
       files w' = files w
       /\ ((0 <= num_chapters)%Z -> length chapters <= Z.to_nat num_chapters)
       /\ exists es,
            trace w' = trace w ++ es
            /\ outline_events self topic num_chapters chapters es).
Proof.
  unfold generate_outline, outline_events.
  step_request as response w1 s1 E1 T1 Hs1.
  destruct (truthy response) eqn:Ht.
  2:{ apply returns_ret. split_and!; [exact E1|simpl; lia|].
      exists s1. split; [exact T1|]. exists response, s1. rewrite Ht.
      cbn [negb]. auto. }
  destruct (Z.ltb_spec num_chapters (Z.of_nat (length (nonblank_lines response))))
    as [Hlt|Hge].
  { apply returns_ret. split_and!; [exact E1|apply slice_to_length|].
    exists s1. split; [exact T1|]. exists response, s1. rewrite Ht.
    split; [exact Hs1|]. cbn [negb].
    destruct (Z.ltb_spec num_chapters (Z.of_nat (length (nonblank_lines response))));
      [auto|lia]. }
  destruct (Z.ltb_spec (Z.of_nat (length (nonblank_lines response))) num_chapters)
    as [Hlt|Hge'].
  2:{ apply returns_ret. split_and!; [exact E1|lia|].
      exists s1. split; [exact T1|]. exists response, s1. rewrite Ht.
      split; [exact Hs1|]. cbn [negb].
      destruct (Z.ltb_spec num_chapters (Z.of_nat (length (nonblank_lines response))));
        [lia|].
      destruct (Z.ltb_spec (Z.of_nat (length (nonblank_lines response))) num_chapters);
        [lia|auto]. }
  step_request as additional w2 s2 E2 T2 Hs2.
  assert (Hev : exists es,
             trace w2 = trace w ++ es
             /\ outline_events self topic num_chapters
                  (nonblank_lines response
                     ++ (if truthy additional
                         then slice_to
                                (num_chapters
                                 - Z.of_nat (length (nonblank_lines response)))
                                (nonblank_lines additional)
                         else [])) es).
  { exists (s1 ++ s2). split; [rewrite T2, T1, app_assoc; reflexivity|].
    exists response, s1. rewrite Ht. split; [exact Hs1|]. cbn [negb].
    destruct (Z.ltb_spec num_chapters (Z.of_nat (length (nonblank_lines response))));
      [lia|].
    destruct (Z.ltb_spec (Z.of_nat (length (nonblank_lines response))) num_chapters);
      [|lia].
    exists additional, s2. auto. }
  destruct (truthy additional); apply returns_ret;
    (split_and!; [congruence| |]).
  - intros Hn. rewrite length_app.
    pose proof (slice_to_length
                  (num_chapters - Z.of_nat (length (nonblank_lines response)))
                  (nonblank_lines additional)). lia.
  - exact Hev.
  - lia.
  - rewrite app_nil_r in Hev. exact Hev.
Qed.

(** ** The section and chapter loops *)

Lemma section_body_returns self chapter dir j section st w :
  returns (section_body self chapter dir j section st) w
    (fun st' w' =>
       exists content es,
         let run := mkSectionRun section (section_context st.1) content in
         st' = (st.1 ++ content, st.2 ++ [run])
         /\ section_events self chapter run es
         /\ trace w' = trace w ++ es
         /\ frame (under dir) w w').
Proof.
  unfold section_body, generate_chapter_chunk.
  step_request as content w1 seg E1 T1 Hs.
  step_open as w2 E2 T2.
  step_write E2 as w3 E3 T3.
  step_write E3 as w4 E4 T4.
  apply returns_bind, returns_sleep; [lia|]. intros w5 E5 T5.
  apply returns_ret. exists content, (seg ++ [EvSleep 1]). cbv zeta. split_and!.
  - reflexivity.
  - exists seg. split; [reflexivity|exact Hs].
  - trace_chain. rewrite <- !app_assoc. reflexivity.
  - eapply frame_insert; [|rewrite E5, E4, E1; reflexivity].
    exists (lit "section_" ++ fmt_02d j ++ lit ".md"). reflexivity.
Qed.

Lemma sections_loop_returns self chapter dir sections :
  forall j st w,
  returns (for_enumerate j sections (section_body self chapter dir) st) w
    (fun st' w' =>
       exists new segs,
         st'.2 = st.2 ++ new
         /\ st'.1 = st.1 ++ concat (map sr_content new)
         /\ map sr_section new = sections
         /\ sections_chain self chapter st.1 new segs
         /\ trace w' = trace w ++ concat segs
         /\ frame (under dir) w w').
Proof.
  induction sections as [|section rest IH]; intros j st w.
  - apply returns_ret. exists [], []. simpl. rewrite !app_nil_r.
    split_and!; auto using frame_refl.
  - simpl. apply returns_bind.
    eapply returns_mono; [apply section_body_returns|].
    intros st1 w1 (content & es & H1). cbv zeta in H1.
    destruct H1 as (-> & Hev & T1 & Hf1).
    eapply returns_mono; [apply IH|].
    intros st2 w2 (new & segs & E2 & E1 & Hs & Hc & T2 & Hf2). cbn [fst snd] in *.
    exists (mkSectionRun section (section_context st.1) content :: new),
           (es :: segs).
    cbn [map concat sr_content sr_section sections_chain sr_previous_content].
    rewrite E2, E1, <- !app_assoc, Hs, T2, T1, <- app_assoc.
    split_and!; auto. eapply frame_trans; eassumption.
Qed.

Lemma chapter_body_returns self out i chapter st w :
  returns (chapter_body self out i chapter st) w
    (fun st' w' =>
       exists run es,
         st' = (cr_summary run, st.2 ++ [run])
         /\ cr_chapter run = chapter
         /\ cr_previous_summary run = st.1
         /\ chapter_pass self out i run es
         /\ trace w' = trace w ++ es
         /\ frame (in_chapter_dir out i) w w'
         /\ files w' !! full_chapter_path out i
            = Some (chapter_heading i chapter ++ cr_content run)).
Proof.
  unfold chapter_body.
  apply returns_bind, returns_makedirs. intros w1 E1 T1.
  apply returns_bind.
  eapply returns_mono; [apply generate_chapter_structure_returns|].
  intros sections w2 (E2 & answer & s_structure & T2 & Hstructure & Hsections).
  step_open as w3 E3 T3.
  step_write E3 as w4 E4 T4.
  step_write E4 as w5 E5 T5.
  step_write_each E5 as w6 E6 T6.
  apply returns_bind.
  eapply returns_mono; [apply sections_loop_returns|].
  intros sec w7 (new & s_sections & Eruns & Efull & Hsec & Hchain & T7 & Hf7).
  cbn [fst snd] in *. rewrite app_nil_l in Eruns, Efull.
  unfold summarize_chapter at 1.
  step_request as summary w8 s_summary E8 T8 Hsummary.
  step_open as w9 E9 T9.
  step_write E9 as w10 E10 T10.
  step_write E10 as w11 E11 T11.
  apply returns_ret.
  exists (mkChapterRun chapter st.1 sections sec.2 sec.1 summary),
         (EvMakedirs (chapter_dir_of out i)
            :: s_structure ++ concat s_sections ++ s_summary).
  cbn [cr_summary cr_chapter cr_previous_summary cr_content].
  split_and!; try reflexivity.
  - exists answer, s_structure, s_sections, s_summary.
    cbn [cr_chapter cr_previous_summary cr_sections cr_runs cr_content cr_summary].
    rewrite Eruns. split_and!; auto.
  - trace_chain. rewrite <- !app_assoc. reflexivity.
  - apply frame_trans with w6.
    { eapply frame_insert; [|rewrite E6, E2, E1; reflexivity].
      exists (lit "README.md"). reflexivity. }
    apply frame_trans with w7; [exact Hf7|].
    eapply frame_insert; [|rewrite E11, E8; reflexivity].
    apply full_chapter_in_dir.
  - rewrite E11, lookup_insert_eq. reflexivity.
Qed.

Lemma chapters_loop_returns self out chapters :
  forall i st w,
  returns (for_enumerate i chapters (chapter_body self out) st) w
    (fun st' w' =>
       exists new segs,
         st'.2 = st.2 ++ new
         /\ map cr_chapter new = chapters
         /\ chapters_chain self out i st.1 new segs
         /\ trace w' = trace w ++ concat segs
         /\ frame (fun p => exists k, i <= k /\ in_chapter_dir out k p) w w'
         /\ forall k run, new !! k = Some run ->
              files w' !! full_chapter_path out (i + k)
              = Some (chapter_heading (i + k) (cr_chapter run) ++ cr_content run)).
Proof.
  induction chapters as [|chapter rest IH]; intros i st w.
  - apply returns_ret. exists [], []. simpl. rewrite !app_nil_r.
    split_and!; auto using frame_refl. intros k run Hk. discriminate.
  - simpl. apply returns_bind.
    eapply returns_mono; [apply chapter_body_returns|].
    intros st1 w1 (run & es & -> & Hc & Hp & Hpass & T1 & Hf1 & Hfile).
    eapply returns_mono; [apply IH|].
    intros st2 w2 (new & segs & E2 & Hcs & Hchain & T2 & Hf2 & Hfiles).
    cbn [fst snd] in *.
    exists (run :: new), (es :: segs). cbn [map chapters_chain concat].
    rewrite E2, <- app_assoc, Hc, Hcs, T2, T1, <- app_assoc. split_and!; auto.
    + apply frame_trans with w1.
      * eapply frame_weaken; [|exact Hf1]. intros p Hin. exists i. auto.
      * eapply frame_weaken; [|exact Hf2]. intros p (k & Hk & Hin).
        exists k. split; [lia|exact Hin].
    + intros [|k] run' Hk; simpl in Hk.
      * injection Hk as <-. rewrite Nat.add_0_r, Hc, Hf2; [exact Hfile|].
        intros (k & Hk & Hin).
        pose proof (in_chapter_dir_inj _ _ _ _ Hin (full_chapter_in_dir out i)).
        lia.
      * rewrite <- Nat.add_succ_comm. apply Hfiles, Hk.
Qed.

(** ** Assembly *)

Lemma chapters_read_loop_returns out (chapters : list text) :
  forall i stored acc F w (Q : unit -> World -> Prop),
  files w = <[full_book_path out := acc]> F ->
  length stored = length chapters ->
  (forall k t, stored !! k = Some t ->
               F !! full_chapter_path out (i + k) = Some t) ->
  (forall w',
     files w' = <[full_book_path out :=
                    acc ++ concat (map (fun c => universal_newlines c ++ [nl; nl])
                                       stored)]> F ->
     trace w' = trace w ->
     Q tt w') ->
  returns
    (for_enumerate i chapters
       (fun i chapter _ =>
          chapter_content <- f_read (full_chapter_path out i) ;;
          f_write (full_book_path out) (chapter_content ++ [nl; nl])) tt) w Q.
Proof.
  induction chapters as [|chapter rest IH]; intros i stored acc F w Q E Hlen Hst H.
  - destruct stored; [|discriminate]. apply returns_ret, H; [|reflexivity].
    simpl. rewrite app_nil_r. exact E.
  - destruct stored as [|t stored]; [discriminate|]. simpl.
    apply returns_bind, returns_bind.
    eapply (returns_f_read _ t).
    { rewrite E, lookup_insert_ne.
      - specialize (Hst 0 t eq_refl). rewrite Nat.add_0_r in Hst. exact Hst.
      - apply (top_level_ne out i (lit "/full_book.md")). reflexivity. }
    eapply returns_f_write; [exact E|]. intros w1 E1 T1.
    eapply (IH (S i) stored); [exact E1|simpl in Hlen; lia| |].
    + intros k t' Hk. replace (S i + k) with (i + S k) by lia.
      apply Hst. exact Hk.
    + intros w2 E2 T2. apply H; [|congruence]. rewrite E2. cbn [map concat].
      rewrite <- !app_assoc. reflexivity.
Qed.

Lemma write_full_book_returns out metadata introduction chapters conclusion
    bibliography stored w (Q : unit -> World -> Prop) :
  length stored = length chapters ->
  (forall k t, stored !! k = Some t ->
               files w !! full_chapter_path out (1 + k) = Some t) ->
  (forall w',
     files w' = <[full_book_path out :=
                    assembled_document metadata introduction
                      (map universal_newlines stored) conclusion bibliography]>
                  (files w) ->
     trace w' = trace w ->
     Q tt w') ->
  returns (write_full_book out metadata introduction chapters conclusion
             bibliography) w Q.
Proof.
  intros Hlen Hst H. unfold write_full_book.
  step_open as w1 E1 T1.
  apply returns_bind. eapply returns_write_all; [exact E1|]. intros w2 E2 T2.
  step_write E2 as w3 E3 T3.
  step_write E3 as w4 E4 T4.
  step_write E4 as w5 E5 T5.
  apply returns_bind.
  eapply chapters_read_loop_returns; [exact E5|exact Hlen|exact Hst|].
  intros w6 E6 T6.
  step_write E6 as w7 E7 T7.
  step_write E7 as w8 E8 T8.
  step_write E8 as w9 E9 T9.
  step_write E9 as w10 E10 T10.
  eapply returns_for_write; [exact E10|]. intros w11 E11 T11.
  apply H; [|trace_chain; reflexivity]. rewrite E11. f_equal.
  unfold assembled_document, numbered_bibliography.
  rewrite List.map_map, <- !app_assoc. reflexivity.
Qed.

(** ** The orchestrator *)

Lemma imap_lookup_stored (runs : list ChapterRun) k t :
  imap (fun k r => chapter_heading (S k) (cr_chapter r) ++ cr_content r) runs !! k
  = Some t ->
  exists run, runs !! k = Some run
              /\ t = chapter_heading (S k) (cr_chapter run) ++ cr_content run.
Proof.
  rewrite list_lookup_imap. destruct (runs !! k) as [run|]; simpl.
  - intros [= <-]. eauto.
  - discriminate.
Qed.

Lemma map_imap {A B C} (g : B -> C) (f : nat -> A -> B) (l : list A) :
  map g (imap f l) = imap (fun k x => g (f k x)) l.
Proof.
  revert f. induction l as [|x l IH]; intros f; [reflexivity|].
  cbn [imap map]. f_equal. apply IH.
Qed.

Lemma generate_book_returns self topic num_chapters output_dir w :
  returns (generate_book self topic num_chapters output_dir) w
    (book_complete self topic num_chapters output_dir w).
Proof.
  unfold generate_book. apply returns_bind.
  exists (resolved_output_dir topic output_dir w), w. split.
  { destruct output_dir; reflexivity. }
  set (out := resolved_output_dir topic output_dir w).
  apply returns_bind. eexists tt, _. split; [reflexivity|].
  assert (T0 : trace (log_event (EvMakedirs out) w) = trace w ++ [EvMakedirs out])
    by reflexivity.
  apply returns_bind.
  eapply returns_with_run; [apply generate_outline_returns|].
  intros chapters w1 Houtline (_ & _ & s_outline & T1 & Hs_outline).
  apply returns_bind.
  eapply returns_mono; [apply generate_metadata_returns|].
  intros metadata w2 (_ & metadata_answer & s_metadata & T2 & Hs_metadata & Hmetadata).
  step_open as w3 E3 T3.
  step_write E3 as w4 _ T4.
  step_open as w5 E5 T5.
  step_write E5 as w6 _ T6.
  unfold generate_introduction at 1.
  step_request as introduction w7 s_introduction _ T7 Hs_introduction.
  step_open as w8 E8 T8.
  step_write E8 as w9 _ T9.
  step_open as w10 E10 T10.
  apply returns_bind. eapply returns_write_all; [exact E10|]. intros w11 E11 T11.
  step_write E11 as w12 E12 T12.
  step_write E12 as w13 E13 T13.
  step_write_each E13 as w14 E14 T14.
  step_write E14 as w15 E15 T15.
  step_write E15 as w16 _ T16.
  apply returns_bind.
  eapply returns_mono; [apply chapters_loop_returns|].
  intros loop w17 (runs & s_chapters & Eruns & Hcs & Hchain & T17 & _ & Hfiles).
  cbn [fst snd] in *. rewrite app_nil_l in Eruns.
  unfold generate_conclusion at 1.
  step_request as conclusion w18 s_conclusion E18 T18 Hs_conclusion.
  step_open as w19 E19 T19.
  step_write E19 as w20 E20 T20.
  apply returns_bind.
  eapply returns_mono; [apply generate_bibliography_returns|].
  intros bibliography w21
    (E21 & bibliography_answer & s_bibliography & T21 & Hs_bibliography & Hbib).
  step_open as w22 E22 T22.
  step_write E22 as w23 E23 T23.
  step_write_each E23 as w24 E24 T24.
  apply returns_bind.
  eapply (write_full_book_returns _ _ _ _ _ _
            (imap (fun k r => chapter_heading (S k) (cr_chapter r) ++ cr_content r)
                  runs)).
  { rewrite length_imap, <- Hcs, length_map. reflexivity. }
  { intros k t Hk. apply imap_lookup_stored in Hk as (run & Hrun & ->).
    rewrite E24, lookup_insert_ne, E21, E20, lookup_insert_ne, E18.
    - apply (Hfiles k run Hrun).
    - apply (top_level_ne out (1 + k) (lit "/conclusion.md")). reflexivity.
    - apply (top_level_ne out (1 + k) (lit "/bibliography.md")). reflexivity. }
  intros w25 E25 T25. apply returns_ret.
  unfold book_complete.
  cbn [book_output_dir book_chapters book_runs book_metadata book_introduction
       book_conclusion book_bibliography].
  rewrite Eruns. split_and!; auto.
  - exists w1. exact Houtline.
  - exists (EvMakedirs out
              :: s_outline ++ s_metadata ++ s_introduction
              ++ concat s_chapters ++ s_conclusion ++ s_bibliography).
    split.
    + trace_chain. rewrite <- !app_assoc. reflexivity.
    + exists s_outline, metadata_answer, s_metadata, s_introduction, s_chapters,
             s_conclusion, bibliography_answer, s_bibliography.
      cbn [book_output_dir book_chapters book_runs book_metadata
           book_introduction book_conclusion book_bibliography].
      rewrite Hmetadata in *. split_and!; auto.
  - rewrite E25, lookup_insert_eq. do 2 f_equal.
    unfold chapter_text. apply map_imap.
Qed.

(** ** Reading the chains *)

Lemma sections_chain_lookup self chapter runs :
  forall segs full k r,
  sections_chain self chapter full runs segs ->
  runs !! k = Some r ->
  sr_previous_content r
  = section_context (full ++ concat (map sr_content (take k runs)))
  /\ exists es, segs !! k = Some es /\ section_events self chapter r es.
Proof.
  induction runs as [|r0 runs IH]; intros [|es0 segs] full k r Hc Hk;
    try discriminate; try contradiction.
  destruct Hc as (Hp & Hev & Hc). destruct k as [|k]; simpl in Hk.
  - injection Hk as <-. simpl. rewrite app_nil_r. eauto.
  - destruct (IH _ _ _ _ Hc Hk) as [E Hr]. split; [|exact Hr].
    rewrite E. cbn [take map concat]. rewrite app_assoc. reflexivity.
Qed.

Lemma chapters_chain_lookup self out runs :
  forall segs i previous k r,
  chapters_chain self out i previous runs segs ->
  runs !! k = Some r ->
  exists es, segs !! k = Some es /\ chapter_pass self out (i + k) r es.
Proof.
  induction runs as [|r0 runs IH]; intros [|es0 segs] i previous k r Hc Hk;
    try discriminate; try contradiction.
  destruct Hc as (_ & Hpass & Hc). destruct k as [|k]; simpl in Hk.
  - injection Hk as <-. rewrite Nat.add_0_r. eauto.
  - destruct (IH _ _ _ _ _ Hc Hk) as (es & He & Hp).
    exists es. split; [exact He|].
    replace (i + S k) with (S i + k) by lia. exact Hp.
Qed.

Lemma chapters_chain_first self out i previous runs segs r :
  chapters_chain self out i previous runs segs -> runs !! 0 = Some r ->
  cr_previous_summary r = previous.
Proof.
  destruct runs as [|r0 runs]; [discriminate|].
  destruct segs; [contradiction|].
  intros (Hp & _) [= <-]. exact Hp.
Qed.

Lemma chapters_chain_next self out runs :
  forall segs i previous k r r',
  chapters_chain self out i previous runs segs ->
  runs !! k = Some r -> runs !! S k = Some r' ->
  cr_previous_summary r' = cr_summary r.
Proof.
  induction runs as [|r0 runs IH]; intros [|es0 segs] i previous k r r' Hc Hk Hk';
    try discriminate; try contradiction.
  destruct Hc as (_ & _ & Hc). destruct k as [|k]; simpl in Hk, Hk'.
  - injection Hk as <-. eapply chapters_chain_first; eassumption.
  - eapply IH; eassumption.
Qed.


(** ** Slices *)

Lemma slice_from_tail {A} (n : nat) (l : list A) :
  0 < n -> slice_from (- Z.of_nat n) l = drop (length l - n) l.
Proof.
  intros Hn. unfold slice_from.
  destruct (Z.leb_spec 0 (- Z.of_nat n)) as [H|_]; [lia|].
  rewrite Z.opp_involutive, Nat2Z.id. reflexivity.
Qed.

Lemma slice_from_tail_length {A} (n : nat) (l : list A) :
  0 < n -> length (slice_from (- Z.of_nat n) l) <= n.
Proof. intros Hn. rewrite slice_from_tail, length_drop by exact Hn. lia. Qed.

Lemma slice_from_tail_suffix {A} (n : nat) (l : list A) :
  0 < n -> slice_from (- Z.of_nat n) l `suffix_of` l.
Proof. intros Hn. rewrite slice_from_tail by exact Hn. apply suffix_drop. Qed.

Lemma slice_from_tail_twice {A} (n m : nat) (l : list A) :
  0 < n -> n <= m ->
  slice_from (- Z.of_nat n) (slice_from (- Z.of_nat m) l)
  = slice_from (- Z.of_nat n) l.
Proof.
  intros Hn Hm. rewrite !slice_from_tail by lia.
  rewrite drop_drop, length_drop. f_equal. lia.
Qed.

Lemma slice_from_tail_truthy (n : nat) (s : text) :
  0 < n -> truthy (slice_from (- Z.of_nat n) s) = truthy s.
Proof.
  intros Hn. rewrite slice_from_tail by exact Hn.
  destruct s as [|c s]; [reflexivity|].
  destruct (drop _ (c :: s)) eqn:E; [|reflexivity].
  apply (f_equal length) in E. rewrite length_drop in E. simpl in E. lia.
Qed.

Lemma section_context_length full : length (section_context full) <= 1000.
Proof.
  unfold section_context. destruct (truthy full); [|simpl; lia].
  apply (slice_from_tail_length 1000). lia.
Qed.

Lemma section_context_suffix full : section_context full `suffix_of` full.
Proof.
  unfold section_context. destruct full as [|c full]; [reflexivity|].
  apply (slice_from_tail_suffix 1000). lia.
Qed.

(** The text a section request embeds is the last 500 characters of the
    accumulated chapter text. *)
Lemma chunk_context_window full :
  chunk_context (section_context full)
  = if truthy full
    then lit "Previous content: " ++ slice_from (-500) full
           ++ lit " (continuation)"
    else [].
Proof.
  unfold chunk_context, section_context.
  destruct (truthy full) eqn:Ht; [|reflexivity].
  rewrite (slice_from_tail_truthy 1000), Ht by lia.
  rewrite (slice_from_tail_twice 500 1000) by lia. reflexivity.
Qed.

Lemma lookup_map {A B} (f : A -> B) (l : list A) k x :
  l !! k = Some x -> map f l !! k = Some (f x).
Proof.
  revert k. induction l as [|y l IH]; intros [|k] H; simpl in *;
    try discriminate.
  - injection H as ->. reflexivity.
  - apply IH, H.
Qed.

(** * The claims *)

(** ** Request layer *)

Lemma make_request_all_fail self prompt w :
  all_fail w prompt 3 ->
  exists w', make_request self prompt w = (Ok [], w')
             /\ service w' = service w /\ files w' = files w.
Proof.
  intros Hall. eexists. split.
  - unfold make_request, _make_request.
    apply request_attempts_all_fail; [lia|exact Hall].
  - split; reflexivity.
Qed.

(** C4: when all three attempts of [_make_request] with [max_retries = 3]
    fail, exactly three posts are made, a pause of [retry_delay] lies
    between consecutive posts and nowhere else, and the empty string is
    returned without raising. *)
Theorem make_request_three_attempts self prompt retry_delay w :
  (0 <= retry_delay)%Z ->
  all_fail w prompt 3 ->
  let post k :=
    EvPost (generate_endpoint self) (model self) prompt
      (service w (posted w + k) prompt) in
  _make_request self prompt 3 retry_delay w
  = (Ok [],
     mkWorld (service w) (posted w + 3) (files w)
       (trace w ++ [ post 0; EvSleep retry_delay;
                     post 1; EvSleep retry_delay;
                     post 2 ])
       (now_stamp w)).
Proof.
  intros Hd Hall post. unfold _make_request.
  rewrite request_attempts_all_fail by assumption.
  unfold after_failed_attempt, post.
  change (seq 0 (Z.to_nat 3)) with [0; 1; 2].
  cbn [fold_left service posted files trace now_stamp].
  change (Z.of_nat 0 <? 3 - 1)%Z with true.
  change (Z.of_nat 1 <? 3 - 1)%Z with true.
  change (Z.of_nat 2 <? 3 - 1)%Z with false.
  rewrite <- !app_assoc.
  replace (posted w + 0) with (posted w) by lia.
  replace (posted w + 1) with (S (posted w)) by lia.
  replace (posted w + 2) with (S (S (posted w))) by lia.
  replace (posted w + 3) with (S (S (S (posted w)))) by lia.
  reflexivity.
Qed.

Lemma make_request_three_attempts_witness :
  _make_request local_generator (lit "hello") 3 5 (fresh_world service_down)
  = (Ok [],
     mkWorld service_down 3 ∅
       [ EvPost (generate_endpoint local_generator) (model local_generator)
           (lit "hello") PostRaised;
         EvSleep 5;
         EvPost (generate_endpoint local_generator) (model local_generator)
           (lit "hello") PostRaised;
         EvSleep 5;
         EvPost (generate_endpoint local_generator) (model local_generator)
           (lit "hello") PostRaised ]
       (lit "20250101_120000")).
Proof.
  apply (make_request_three_attempts local_generator (lit "hello") 5
           (fresh_world service_down)).
  - lia.
  - intros k _. reflexivity.
Defined.

(** ** Outline *)

Lemma generate_outline_all_fail self topic num_chapters w :
  all_fail w (outline_prompt topic num_chapters) 3 ->
  exists w', generate_outline self topic num_chapters w = (Ok [], w').
Proof.
  intros Hall.
  destruct (make_request_all_fail self _ _ Hall) as (w' & E & _).
  exists w'. unfold generate_outline. rewrite (bind_run _ _ _ _ _ E).
  reflexivity.
Qed.

Lemma slice_to_take {A} (n : Z) (l : list A) :
  (0 <= n)%Z -> slice_to n l = take (Z.to_nat n) l.
Proof. intros Hn. unfold slice_to. apply Z.leb_le in Hn. rewrite Hn. reflexivity. Qed.

(** C1 as stated fails: with a service that answers every request, a
    first response of one title and a supplemental response of one line
    give two titles where three were requested. *)
Lemma outline_exact_count_refuted :
  ~ (forall self topic (N : Z) w,
       (1 <= N)%Z -> service_healthy w ->
       exists chapters w',
         generate_outline self topic N w = (Ok chapters, w')
         /\ length chapters = Z.to_nat N).
Proof.
  intros H.
  destruct (H local_generator (lit "History of Bridges") 3%Z
              (fresh_world service_terse)) as (chapters & w' & E & L).
  - lia.
  - intros [|k] prompt; eexists; split; reflexivity.
  - vm_compute in E. injection E as <- _. discriminate L.
Qed.

(** C1, amended: when the first response is non-empty, at least [N]
    non-blank lines give exactly the first [N]; [k < N] lines are followed
    by one supplemental request whose first [N - k] non-blank lines are
    appended, so that the outline has [min N (k + k')] titles. *)
Theorem generate_outline_count self topic (N : Z) w r1 w1 :
  (1 <= N)%Z ->
  make_request self (outline_prompt topic N) w = (Ok r1, w1) ->
  truthy r1 = true ->
  let first := nonblank_lines r1 in
  (Z.to_nat N <= length first ->
     generate_outline self topic N w = (Ok (take (Z.to_nat N) first), w1)
     /\ length (take (Z.to_nat N) first) = Z.to_nat N)
  /\ (length first < Z.to_nat N ->
      forall r2 w2,
        make_request self
          (additional_prompt topic (N - Z.of_nat (length first)) first) w1
        = (Ok r2, w2) ->
        let added := take (Z.to_nat N - length first) (nonblank_lines r2) in
        generate_outline self topic N w = (Ok (first ++ added), w2)
        /\ length (first ++ added)
           = Nat.min (Z.to_nat N) (length first + length (nonblank_lines r2))).
Proof.
  intros HN E1 Ht first. unfold generate_outline.
  rewrite (bind_run _ _ _ _ _ E1), Ht. fold first. split.
  - intros Hlen. split; [|rewrite length_take; lia].
    destruct (Z.ltb_spec N (Z.of_nat (length first))) as [Hlt|Hge].
    + rewrite slice_to_take by lia. reflexivity.
    + destruct (Z.ltb_spec (Z.of_nat (length first)) N) as [Hlt|_]; [lia|].
      rewrite take_ge by lia. reflexivity.
  - intros Hlen r2 w2 E2.
    destruct (Z.ltb_spec N (Z.of_nat (length first))) as [Hlt|_]; [lia|].
    destruct (Z.ltb_spec (Z.of_nat (length first)) N) as [_|Hge]; [|lia].
    rewrite (bind_run _ _ _ _ _ E2). split.
    + destruct r2 as [|c r2]; cbn [truthy].
      * change (nonblank_lines []) with (@nil text).
        rewrite take_nil, app_nil_r. reflexivity.
      * rewrite slice_to_take by lia.
        replace (Z.to_nat (N - Z.of_nat (length first)))
          with (Z.to_nat N - length first) by lia.
        reflexivity.
    + rewrite length_app, length_take. lia.
Qed.

Lemma generate_outline_count_witness :
  (generate_outline local_generator (lit "History of Bridges") 2
     (fresh_world service_terse)).1
  = Ok [lit "Stone Arches"; lit "Iron Spans"].
Proof.
  pose (topic := lit "History of Bridges").
  pose (w0 := fresh_world service_terse).
  pose (first := make_request local_generator (outline_prompt topic 2) w0).
  pose (second :=
          make_request local_generator
            (additional_prompt topic (2 - 1) [lit "Stone Arches"]) first.2).
  assert (E1 : make_request local_generator (outline_prompt topic 2) w0
               = (Ok (lit "Stone Arches"), first.2))
    by (vm_compute; reflexivity).
  destruct (generate_outline_count local_generator topic 2 w0
              (lit "Stone Arches") first.2 ltac:(lia) E1 eq_refl) as [_ H].
  assert (Hlt : length (nonblank_lines (lit "Stone Arches")) < Z.to_nat 2)
    by (vm_compute; lia).
  assert (E2 : make_request local_generator
                 (additional_prompt topic
                    (2 - Z.of_nat (length (nonblank_lines (lit "Stone Arches"))))
                    (nonblank_lines (lit "Stone Arches"))) first.2
               = (Ok (lit "Iron Spans"), second.2))
    by (vm_compute; reflexivity).
  destruct (H Hlt (lit "Iron Spans") second.2 E2) as [E _].
  fold topic w0. rewrite E. reflexivity.
Defined.

(** C10: for [N >= 1] the outline never has more than [N] titles,
    whatever the service answers; when the first request fails entirely
    it is empty, and the book is then completed with no chapter at all. *)
Theorem generate_outline_at_most self topic (N : Z) w :
  (1 <= N)%Z ->
  returns (generate_outline self topic N) w
    (fun chapters _ => length chapters <= Z.to_nat N)
  /\ (all_fail w (outline_prompt topic N) 3 ->
      (exists w', generate_outline self topic N w = (Ok [], w'))
      /\ forall output_dir,
           returns (generate_book self topic N output_dir) w
             (fun book _ => book_chapters book = [] /\ book_runs book = [])).
Proof.
  intros HN. split.
  - eapply returns_mono; [apply generate_outline_returns|].
    intros chapters w' [_ H]. apply H. lia.
  - intros Hall. split; [apply generate_outline_all_fail, Hall|].
    intros output_dir.
    eapply returns_mono; [apply generate_book_returns|].
    intros book w' (_ & (w1 & Hrun) & Hcs & _).
    destruct (generate_outline_all_fail self topic N
                (log_event (EvMakedirs (book_output_dir book)) w) Hall)
      as (w2 & E).
    rewrite E in Hrun. injection Hrun as Hch _. rewrite <- Hch in *.
    split; [reflexivity|].
    destruct (book_runs book); [reflexivity|discriminate Hcs].
Qed.

Lemma generate_outline_at_most_witness :
  returns (generate_outline local_generator (lit "History of Bridges") 3)
    (fresh_world service_down) (fun chapters _ => length chapters <= 3)
  /\ (exists w', generate_outline local_generator (lit "History of Bridges") 3
                   (fresh_world service_down) = (Ok [], w'))
  /\ forall output_dir,
       returns (generate_book local_generator (lit "History of Bridges") 3
                  output_dir) (fresh_world service_down)
         (fun book _ => book_chapters book = [] /\ book_runs book = []).
Proof.
  destruct (generate_outline_at_most local_generator (lit "History of Bridges")
              3 (fresh_world service_down) ltac:(lia)) as [H1 H2].
  split; [exact H1|]. apply H2. intros k _. reflexivity.
Defined.

(** ** The pipeline *)

(** The events of the chapter loop inside the events of a run. *)
Lemma book_events_chapters self topic num_chapters book es :
  book_events self topic num_chapters book es ->
  exists before s_chapters after,
    es = before ++ concat s_chapters ++ after
    /\ chapters_chain self (book_output_dir book) 1 [] (book_runs book) s_chapters.
Proof.
  intros (s_outline & metadata_answer & s_metadata & s_introduction & s_chapters
          & s_conclusion & bibliography_answer & s_bibliography
          & -> & _ & _ & _ & _ & Hchain & _).
  exists (EvMakedirs (book_output_dir book)
            :: s_outline ++ s_metadata ++ s_introduction),
         s_chapters, (s_conclusion ++ s_bibliography).
  split; [|exact Hchain]. cbn [app]. rewrite <- !app_assoc. reflexivity.
Qed.

(** C8: in every run of [generate_book], the section call at position
    [k] of a chapter receives the last 1000 characters of the text
    accumulated from the earlier sections of that same chapter, and the
    request it sends embeds the last 500 characters of that text; both
    are empty for the first section of each chapter. *)
Theorem section_context_window self topic num_chapters output_dir w :
  returns (generate_book self topic num_chapters output_dir) w
    (fun book w' =>
       exists before s_chapters after,
         trace w' = trace w ++ before ++ concat s_chapters ++ after
         /\ forall i c, book_runs book !! i = Some c ->
            exists s_structure s_sections s_summary,
              s_chapters !! i
              = Some (EvMakedirs (chapter_dir_of (book_output_dir book) (S i))
                        :: s_structure ++ concat s_sections ++ s_summary)
              /\ forall k r, cr_runs c !! k = Some r ->
                 let accumulated :=
                   concat (map sr_content (take k (cr_runs c))) in
                 let prompt :=
                   chunk_prompt (cr_chapter c) (sr_section r)
                     (sr_previous_content r) in
                 (exists seg,
                    s_sections !! k = Some (seg ++ [EvSleep 1])
                    /\ request_segment self prompt (sr_content r) seg)
                 /\ sr_previous_content r = section_context accumulated
                 /\ sr_previous_content r `suffix_of` accumulated
                 /\ length (sr_previous_content r) <= 1000
                 /\ (exists rest,
                       prompt
                       = nl :: lit "        "
                            ++ chunk_context (sr_previous_content r)
                            ++ nl :: rest)
                 /\ chunk_context (sr_previous_content r)
                    = (if truthy accumulated
                       then lit "Previous content: "
                              ++ slice_from (-500) accumulated
                              ++ lit " (continuation)"
                       else [])
                 /\ slice_from (-500) accumulated `suffix_of` accumulated
                 /\ length (slice_from (-500) accumulated) <= 500
                 /\ (k = 0 -> sr_previous_content r = []
                              /\ chunk_context (sr_previous_content r) = [])).
Proof.
  eapply returns_mono; [apply generate_book_returns|].
  intros book w' (_ & _ & _ & (es & T & Hev) & _).
  destruct (book_events_chapters _ _ _ _ _ Hev)
    as (before & s_chapters & after & -> & Hchain).
  exists before, s_chapters, after. split; [exact T|].
  intros i c Hc.
  destruct (chapters_chain_lookup _ _ _ _ _ _ _ _ Hchain Hc)
    as (ces & Hces
        & answer & s_structure & s_sections & s_summary
        & -> & _ & _ & _ & Hsec & _).
  exists s_structure, s_sections, s_summary. split; [exact Hces|].
  intros k r Hk accumulated prompt.
  destruct (sections_chain_lookup _ _ _ _ _ _ _ Hsec Hk)
    as [Hprev (ses & Hses & seg & -> & Hseg)].
  rewrite app_nil_l in Hprev. fold accumulated in Hprev.
  split_and!.
  - exists seg. split; [exact Hses|exact Hseg].
  - exact Hprev.
  - rewrite Hprev. apply section_context_suffix.
  - rewrite Hprev. apply section_context_length.
  - eexists. unfold prompt, chunk_prompt. cbn [join].
    rewrite <- !app_assoc. reflexivity.
  - rewrite Hprev. apply chunk_context_window.
  - apply (slice_from_tail_suffix 500). lia.
  - apply (slice_from_tail_length 500). lia.
  - intros ->. rewrite Hprev. unfold accumulated. rewrite take_0. split; reflexivity.
Qed.

Lemma section_context_window_witness :
  exists book c r,
    (generate_book local_generator (lit "History of Bridges") 1
       (Some (lit "out")) (fresh_world (service_script two_section_script))).1
    = Ok book
    /\ book_runs book !! 0 = Some c
    /\ cr_runs c !! 1 = Some r
    /\ sr_previous_content r = lit "First text."
    /\ chunk_context (sr_previous_content r)
       = lit "Previous content: First text. (continuation)".
Proof.
  destruct (section_context_window local_generator (lit "History of Bridges") 1
              (Some (lit "out")) (fresh_world (service_script two_section_script)))
    as (book & w' & E & before & s_chapters & after & _ & H).
  exists book. rewrite E. cbn [fst].
  vm_compute in E. injection E as Eb _. subst book.
  cbn [book_runs] in H |- *.
  lazymatch type of H with
  | forall i c, (?c0 :: _) !! i = Some c -> _ =>
      destruct (H 0 c0 eq_refl) as (s1 & s2 & s3 & _ & Hc); exists c0
  end.
  cbn [cr_runs] in Hc |- *.
  lazymatch type of Hc with
  | forall k r, (_ :: ?r1 :: _) !! k = Some r -> _ =>
      destruct (Hc 1 r1 eq_refl) as (_ & Hp & _ & _ & _ & Hctx & _); exists r1
  end.
  split_and!; [reflexivity|reflexivity|reflexivity|rewrite Hp|rewrite Hctx];
    reflexivity.
Defined.

(** C3: in every run of [generate_book] the structure request of the
    first chapter carries no summary.  The events of chapter [i] end with
    the summary request, whose prompt holds the complete text of the
    chapter and whose answer is the summary; the events of chapter [i+1]
    follow and open with the structure request, whose prompt is built
    from the title of that chapter and this summary, and from nothing
    else: two runs with the same titles and the same summary of chapter
    [i] send the same structure request for chapter [i+1]. *)
Theorem structure_context_flow self topic num_chapters output_dir w w2 :
  returns (generate_book self topic num_chapters output_dir) w
    (fun book w' =>
       exists before s_chapters after,
         trace w' = trace w ++ before ++ concat s_chapters ++ after
         /\ (forall r, book_runs book !! 0 = Some r ->
               cr_previous_summary r = []
               /\ structure_context (cr_previous_summary r) = [])
         /\ (forall i r, book_runs book !! i = Some r ->
               let prompt :=
                 structure_prompt (cr_chapter r) (cr_previous_summary r) in
               exists answer s_structure s_sections s_summary,
                 s_chapters !! i
                 = Some (EvMakedirs (chapter_dir_of (book_output_dir book) (S i))
                           :: s_structure ++ concat s_sections ++ s_summary)
                 /\ request_segment self prompt answer s_structure
                 /\ (exists rest,
                       prompt
                       = nl :: lit "        "
                            ++ structure_context (cr_previous_summary r)
                            ++ nl :: rest)
                 /\ cr_content r = concat (map sr_content (cr_runs r))
                 /\ request_segment self (summary_prompt (cr_content r))
                      (cr_summary r) s_summary
                 /\ forall r', book_runs book !! S i = Some r' ->
                      cr_previous_summary r' = cr_summary r)
         /\ returns (generate_book self topic num_chapters output_dir) w2
              (fun book2 _ =>
                 book_chapters book = book_chapters book2 ->
                 forall i r1 r2 r1' r2',
                   book_runs book !! i = Some r1 ->
                   book_runs book2 !! i = Some r2 ->
                   book_runs book !! S i = Some r1' ->
                   book_runs book2 !! S i = Some r2' ->
                   cr_summary r1 = cr_summary r2 ->
                   structure_context (cr_previous_summary r1')
                   = structure_context (cr_previous_summary r2')
                   /\ structure_prompt (cr_chapter r1') (cr_previous_summary r1')
                      = structure_prompt (cr_chapter r2')
                          (cr_previous_summary r2'))).
Proof.
  eapply returns_mono; [apply generate_book_returns|].
  intros book w' (_ & _ & Hcs & (es & T & Hev) & _).
  destruct (book_events_chapters _ _ _ _ _ Hev)
    as (before & s_chapters & after & -> & Hchain).
  exists before, s_chapters, after. split_and!.
  - exact T.
  - intros r Hr. rewrite (chapters_chain_first _ _ _ _ _ _ _ Hchain Hr).
    split; reflexivity.
  - intros i r Hr prompt.
    destruct (chapters_chain_lookup _ _ _ _ _ _ _ _ Hchain Hr)
      as (ces & Hces
          & answer & s_structure & s_sections & s_summary
          & -> & Hstructure & _ & _ & _ & Hcontent & Hsummary).
    exists answer, s_structure, s_sections, s_summary.
    split_and!; auto.
    + eexists. unfold prompt, structure_prompt. cbn [join].
      rewrite <- !app_assoc. reflexivity.
    + intros r' Hr'. eapply chapters_chain_next; eassumption.
  - eapply returns_mono; [apply generate_book_returns|].
    intros book2 w2' (_ & _ & Hcs2 & (es2 & _ & Hev2) & _) Htitles
      i r1 r2 r1' r2' H1 H2 H1' H2' Hsum.
    destruct (book_events_chapters _ _ _ _ _ Hev2)
      as (_ & s_chapters2 & _ & _ & Hchain2).
    rewrite (chapters_chain_next _ _ _ _ _ _ _ _ _ Hchain H1 H1').
    rewrite (chapters_chain_next _ _ _ _ _ _ _ _ _ Hchain2 H2 H2').
    rewrite Hsum. split; [reflexivity|]. f_equal.
    apply (lookup_map cr_chapter) in H1', H2'.
    rewrite Hcs in H1'. rewrite Hcs2, <- Htitles, H1' in H2'.
    congruence.
Qed.

Lemma structure_context_flow_witness :
  exists r1 r2 r1' r2',
    book_runs (book_of (generate_book local_generator (lit "History of Bridges") 2
                          (Some (lit "out"))
                          (fresh_world (service_script
                             (two_chapter_script (lit "Romans built arches."))))))
      !! 0 = Some r1
    /\ book_runs (book_of (generate_book local_generator (lit "History of Bridges") 2
                             (Some (lit "out"))
                             (fresh_world (service_script
                                (two_chapter_script (lit "Arches are old."))))))
         !! 0 = Some r2
    /\ book_runs (book_of (generate_book local_generator (lit "History of Bridges") 2
                             (Some (lit "out"))
                             (fresh_world (service_script
                                (two_chapter_script (lit "Romans built arches."))))))
         !! 1 = Some r1'
    /\ book_runs (book_of (generate_book local_generator (lit "History of Bridges") 2
                             (Some (lit "out"))
                             (fresh_world (service_script
                                (two_chapter_script (lit "Arches are old."))))))
         !! 1 = Some r2'
    /\ cr_content r1 <> cr_content r2
    /\ cr_summary r1 = cr_summary r2
    /\ structure_prompt (cr_chapter r1') (cr_previous_summary r1')
       = structure_prompt (cr_chapter r2') (cr_previous_summary r2').
Proof.
  destruct (structure_context_flow local_generator (lit "History of Bridges") 2
              (Some (lit "out"))
              (fresh_world (service_script
                 (two_chapter_script (lit "Romans built arches."))))
              (fresh_world (service_script
                 (two_chapter_script (lit "Arches are old.")))))
    as (book & w' & E & _ & _ & _ & _ & _ & _ & (book2 & w2' & E2 & H)).
  unfold book_of. rewrite E, E2. cbn [fst].
  vm_compute in E. injection E as Eb _. subst book.
  vm_compute in E2. injection E2 as Eb _. subst book2.
  cbn [book_runs book_chapters] in H |- *.
  specialize (H eq_refl 0).
  eexists _, _, _, _.
  split_and!; [reflexivity|reflexivity|reflexivity|reflexivity| | |].
  - cbn [cr_content]. discriminate.
  - reflexivity.
  - apply (H _ _ _ _ eq_refl eq_refl eq_refl eq_refl eq_refl).
Defined.

(** ** Assembly *)

(** C9: assembling [full_book.md] from an unchanged store writes the
    document of the specification (title page, introduction, the stored
    chapters in order, conclusion, bibliography numbered from 1), and
    doing it again writes the very same characters. *)
Theorem write_full_book_idempotent out metadata introduction chapters
    conclusion bibliography stored w :
  length stored = length chapters ->
  (forall k t, stored !! k = Some t ->
               files w !! full_chapter_path out (1 + k) = Some t) ->
  let document :=
    assembled_document metadata introduction (map universal_newlines stored)
      conclusion bibliography in
  exists w1 w2,
    write_full_book out metadata introduction chapters conclusion bibliography w
    = (Ok tt, w1)
    /\ files w1 = <[full_book_path out := document]> (files w)
    /\ write_full_book out metadata introduction chapters conclusion bibliography w1
       = (Ok tt, w2)
    /\ files w2 = files w1
    /\ files w2 !! full_book_path out = Some document
    /\ numbered_bibliography bibliography
       = concat (imap (fun k ref => str_nat (k + 1) ++ lit ". " ++ ref ++ [nl])
                      bibliography).
Proof.
  intros Hlen Hst document.
  destruct (write_full_book_returns out metadata introduction chapters
              conclusion bibliography stored w
              (fun _ w' => files w' = <[full_book_path out := document]> (files w))
              Hlen Hst (fun _ E _ => E)) as ([] & w1 & E1 & F1).
  destruct (write_full_book_returns out metadata introduction chapters
              conclusion bibliography stored w1
              (fun _ w' => files w' = <[full_book_path out := document]> (files w1))
              Hlen) as ([] & w2 & E2 & F2).
  { intros k t Hk. rewrite F1, lookup_insert_ne; [apply Hst, Hk|].
    apply (top_level_ne out (1 + k) (lit "/full_book.md")). reflexivity. }
  { intros w' E _. exact E. }
  exists w1, w2. split_and!; [exact E1|exact F1|exact E2| | |].
  - rewrite F2, F1, insert_insert_eq. reflexivity.
  - rewrite F2, lookup_insert_eq. reflexivity.
  - unfold numbered_bibliography, bibliography_line. f_equal.
    apply imap_ext. intros k ref _. simpl. rewrite Nat.add_1_r. reflexivity.
Qed.

Lemma write_full_book_idempotent_witness :
  exists w1 w2,
    write_full_book (lit "out") (default_metadata (lit "Bridges")) (lit "Intro.")
      [lit "Stone Arches"] (lit "End.") [lit "Vitruvius."] one_chapter_store
    = (Ok tt, w1)
    /\ write_full_book (lit "out") (default_metadata (lit "Bridges")) (lit "Intro.")
         [lit "Stone Arches"] (lit "End.") [lit "Vitruvius."] w1
       = (Ok tt, w2)
    /\ files w2 = files w1
    /\ files w2 !! full_book_path (lit "out")
       = Some (lit "# Book on Bridges" ++ [nl; nl]
               ++ lit "**Author:** Author Not Specified" ++ [nl; nl]
               ++ lit "**Annotation:**" ++ [nl; nl; nl; nl]
               ++ lit "# Introduction" ++ [nl; nl] ++ lit "Intro." ++ [nl; nl]
               ++ lit "# Chapter 1: Stone Arches" ++ [nl; nl] ++ lit "Voussoirs."
               ++ [nl; nl; nl]
               ++ lit "# Conclusion" ++ [nl; nl] ++ lit "End." ++ [nl; nl]
               ++ lit "# Bibliography" ++ [nl; nl] ++ lit "1. Vitruvius." ++ [nl]).
Proof.
  destruct (write_full_book_idempotent (lit "out") (default_metadata (lit "Bridges"))
              (lit "Intro.") [lit "Stone Arches"] (lit "End.") [lit "Vitruvius."]
              [lit "# Chapter 1: Stone Arches" ++ [nl; nl] ++ lit "Voussoirs."
                 ++ [cr; nl]]
              one_chapter_store eq_refl)
    as (w1 & w2 & E1 & _ & E2 & F2 & L & _).
  - intros [|k] t Hk; [|discriminate Hk].
    injection Hk as <-. apply lookup_singleton_eq.
  - exists w1, w2. split_and!; [exact E1|exact E2|exact F2|].
    rewrite L. reflexivity.
Defined.

(** ** Degraded stages *)

Lemma make_request_dead self prompt w :
  service_dead w ->
  exists w', make_request self prompt w = (Ok [], w').
Proof.
  intros Hd. destruct (make_request_all_fail self prompt w) as (w' & E & _).
  - intros k _. apply Hd.
  - eauto.
Qed.

Lemma run_stage_dead self st i w :
  service_dead w ->
  exists w', run_stage self st i w = (Ok (degraded_output st i), w').
Proof.
  intros Hd.
  destruct st; cbn [run_stage degraded_output];
    unfold generate_outline, generate_metadata, generate_chapter_structure,
      generate_chapter_chunk, summarize_chapter, generate_introduction,
      generate_conclusion, generate_bibliography;
    match goal with
    | |- context [make_request self ?p] =>
        destruct (make_request_dead self p w Hd) as (w' & E)
    end;
    exists w'; unfold bind at 1; try unfold bind at 1; rewrite E; reflexivity.
Qed.

(** C5, second half as stated, fails: chapter structure is not the only
    stage that answers a dead service with hard-coded text, metadata
    generation does so too. *)
Lemma structure_not_only_fallback :
  ~ (forall self st i w o w',
       service_dead w ->
       run_stage self st i w = (Ok o, w') ->
       is_empty o = false ->
       st = StructureStage).
Proof.
  intros H.
  assert (Hd : service_dead (fresh_world service_down))
    by (intros k prompt; reflexivity).
  destruct (run_stage_dead local_generator MetadataStage sample_inputs
              (fresh_world service_down) Hd) as (w' & E).
  specialize (H _ _ _ _ _ _ Hd E eq_refl). discriminate H.
Qed.

(** C5, amended: when the request layer returns its empty result,
    [generate_chapter_structure] returns exactly Introduction, Main
    Content, Conclusion; with a dead service every other stage returns
    nothing, except metadata generation, which returns its defaults. *)
Theorem structure_fallback self :
  (forall chapter_title previous_summary w w1,
     make_request self (structure_prompt chapter_title previous_summary) w
     = (Ok [], w1) ->
     generate_chapter_structure self chapter_title previous_summary w
     = (Ok [lit "Introduction"; lit "Main Content"; lit "Conclusion"], w1))
  /\ (forall st i w,
        service_dead w ->
        exists o w',
          run_stage self st i w = (Ok o, w')
          /\ o = degraded_output st i
          /\ (is_empty o = false <-> st = StructureStage \/ st = MetadataStage)).
Proof.
  split.
  - intros chapter_title previous_summary w w1 E.
    unfold generate_chapter_structure. rewrite (bind_run _ _ _ _ _ E).
    reflexivity.
  - intros st i w Hd. destruct (run_stage_dead self st i w Hd) as (w' & E).
    exists (degraded_output st i), w'. split_and!; [exact E|reflexivity|].
    destruct st; cbn; split; intros H; try discriminate H; auto;
      destruct H as [H|H]; discriminate H.
Qed.

Lemma structure_fallback_witness :
  (generate_chapter_structure local_generator (lit "Stone Arches") []
     (fresh_world service_down)).1
  = Ok [lit "Introduction"; lit "Main Content"; lit "Conclusion"]
  /\ forall st,
       (run_stage local_generator st sample_inputs (fresh_world service_down)).1
       = Ok (degraded_output st sample_inputs).
Proof.
  destruct (structure_fallback local_generator) as [H1 H2]. split.
  - destruct (make_request_dead local_generator
                (structure_prompt (lit "Stone Arches") [])
                (fresh_world service_down)) as (w1 & E).
    { intros k prompt. reflexivity. }
    rewrite (H1 _ _ _ _ E). reflexivity.
  - intros st.
    destruct (H2 st sample_inputs (fresh_world service_down))
      as (o & w' & E & -> & _).
    { intros k prompt. reflexivity. }
    rewrite E. reflexivity.
Defined.

(** ** Metadata *)

Lemma metadata_line_unrecognized metadata line :
  recognized line = false ->
  metadata_line metadata line
  = if truthy (annotation metadata)
    then mkMetadata (title metadata) (author metadata)
           (annotation metadata ++ lit " " ++ strip line)
    else metadata.
Proof.
  unfold recognized, metadata_line. intros H.
  apply orb_false_iff in H as [H H3]. apply orb_false_iff in H as [H1 H2].
  rewrite H1, H2, H3. reflexivity.
Qed.

(** What the loop of [generate_metadata] does with a line without a
    known prefix: title and author stay, and the line is appended,
    stripped and after one space, to the running annotation when that
    annotation is not empty; while it is empty the line is lost (see C7
    below).  Parsing an answer that is a string never fails. *)
Theorem unrecognized_line_appended self topic chapters w :
  returns (generate_metadata self topic chapters) w (fun _ _ => True)
  /\ forall response pre line post,
       split nl (strip response) = pre ++ line :: post ->
       recognized line = false ->
       let before := fold_left metadata_line pre (default_metadata topic) in
       let after := fold_left metadata_line (pre ++ [line]) (default_metadata topic) in
       title after = title before
       /\ author after = author before
       /\ annotation after
          = (if truthy (annotation before)
             then annotation before ++ lit " " ++ strip line
             else [])
       /\ (truthy response = true ->
           parse_metadata topic response = fold_left metadata_line post after).
Proof.
  split.
  - eapply returns_mono; [apply generate_metadata_returns|]. auto.
  - intros response pre line post Hlines Hline before after.
    assert (Hafter : after = metadata_line before line).
    { unfold after, before. rewrite fold_left_app. reflexivity. }
    rewrite Hafter, (metadata_line_unrecognized _ _ Hline).
    split_and!.
    + destruct (truthy (annotation before)); reflexivity.
    + destruct (truthy (annotation before)); reflexivity.
    + destruct (annotation before) eqn:Ea; cbn [truthy annotation];
        [exact Ea|reflexivity].
    + intros Ht. unfold parse_metadata. rewrite Ht, Hlines.
      rewrite (fold_left_app _ pre (line :: post)). cbn [fold_left].
      fold before. rewrite (metadata_line_unrecognized _ _ Hline). reflexivity.
Qed.

Lemma unrecognized_line_appended_witness :
  let response :=
    lit "see below" ++ [nl] ++ lit "Annotation: A survey" ++ [nl]
      ++ lit "  of spans. " ++ [nl] ++ lit "Title: Bridges" in
  annotation (fold_left metadata_line [lit "see below"]
                (default_metadata (lit "Bridges"))) = []
  /\ annotation (fold_left metadata_line
                   [lit "see below"; lit "Annotation: A survey"; lit "  of spans. "]
                   (default_metadata (lit "Bridges")))
     = lit "A survey of spans."
  /\ parse_metadata (lit "Bridges") response
     = mkMetadata (lit "Bridges") (lit "Author Not Specified")
         (lit "A survey of spans.").
Proof.
  intros response.
  destruct (unrecognized_line_appended local_generator (lit "Bridges") []
              (fresh_world service_down)) as [_ H].
  destruct (H response [] (lit "see below")
              [lit "Annotation: A survey"; lit "  of spans. "; lit "Title: Bridges"]
              eq_refl eq_refl) as (_ & _ & H1 & _).
  destruct (H response [lit "see below"; lit "Annotation: A survey"]
              (lit "  of spans. ") [lit "Title: Bridges"]
              eq_refl eq_refl) as (_ & _ & H2 & H3).
  split_and!.
  - exact (eq_trans H1 eq_refl).
  - exact (eq_trans H2 eq_refl).
  - exact (eq_trans (H3 eq_refl) eq_refl).
Defined.

(** C6 at a failing input: a title that itself contains the text
    [Title:] loses it, because every occurrence of the label is removed
    from the line, not only the leading one. *)
Theorem metadata_label_inside_value :
  let response :=
    lit "Title: Working Title: Bridges" ++ [nl] ++ lit "Author: Pier Nervi"
      ++ [nl] ++ lit "Annotation: A survey of spans." in
  parse_metadata (lit "Bridges") response
  = mkMetadata (lit "Working  Bridges") (lit "Pier Nervi")
      (lit "A survey of spans.")
  /\ (generate_metadata local_generator (lit "Bridges") []
        (fresh_world (service_script [response]))).1
     = Ok (mkMetadata (lit "Working  Bridges") (lit "Pier Nervi")
             (lit "A survey of spans."))
  /\ lit "Working  Bridges" <> lit "Working Title: Bridges".
Proof.
  intros response. split_and!; [reflexivity|reflexivity|discriminate].
Qed.

(** The rest of C6 holds: a field whose labelled line is absent keeps its
    default. *)
Lemma metadata_line_keeps_title metadata line :
  startswith (lit "Title:") line = false ->
  title (metadata_line metadata line) = title metadata.
Proof.
  unfold metadata_line. intros ->.
  repeat match goal with
         | |- context [if ?c then _ else _] => destruct c
         end; reflexivity.
Qed.

Lemma metadata_line_keeps_author metadata line :
  startswith (lit "Author:") line = false ->
  author (metadata_line metadata line) = author metadata.
Proof.
  unfold metadata_line. intros ->.
  repeat match goal with
         | |- context [if ?c then _ else _] => destruct c
         end; reflexivity.
Qed.

Lemma metadata_line_keeps_empty_annotation metadata line :
  startswith (lit "Annotation:") line = false ->
  annotation metadata = [] ->
  annotation (metadata_line metadata line) = [].
Proof.
  unfold metadata_line. intros -> Ha. rewrite Ha. cbn [truthy].
  repeat match goal with
         | |- context [if ?c then _ else _] => destruct c
         end; cbn [annotation]; auto.
Qed.

Lemma fold_metadata_invariant (P : Metadata -> Prop) (ok : text -> Prop) lines :
  (forall metadata line, ok line -> P metadata -> P (metadata_line metadata line)) ->
  Forall ok lines ->
  forall metadata, P metadata -> P (fold_left metadata_line lines metadata).
Proof.
  intros Hstep Hall. induction Hall as [|line lines Hline _ IH]; intros metadata HP.
  - exact HP.
  - simpl. apply IH, Hstep; assumption.
Qed.

Theorem parse_metadata_defaults topic response :
  let lines := split nl (strip response) in
  (Forall (fun line => startswith (lit "Title:") line = false) lines ->
   title (parse_metadata topic response) = lit "Book on " ++ topic)
  /\ (Forall (fun line => startswith (lit "Author:") line = false) lines ->
      author (parse_metadata topic response) = lit "Author Not Specified")
  /\ (Forall (fun line => startswith (lit "Annotation:") line = false) lines ->
      annotation (parse_metadata topic response) = []).
Proof.
  intros lines. unfold parse_metadata. fold lines.
  destruct (truthy response); [|repeat split; reflexivity].
  split_and!; intros Hall.
  - apply (fold_metadata_invariant
             (fun m => title m = lit "Book on " ++ topic) _ _ ) with (2 := Hall);
      [|reflexivity].
    intros m line Hl Hm. rewrite metadata_line_keeps_title; assumption.
  - apply (fold_metadata_invariant
             (fun m => author m = lit "Author Not Specified") _ _ ) with (2 := Hall);
      [|reflexivity].
    intros m line Hl Hm. rewrite metadata_line_keeps_author; assumption.
  - apply (fold_metadata_invariant
             (fun m => annotation m = []) _ _ ) with (2 := Hall);
      [|reflexivity].
    intros m line Hl Hm. apply metadata_line_keeps_empty_annotation; assumption.
Qed.

(** *** Stripping and replacing, structurally *)

Lemma lstrip_app a b :
  lstrip (a ++ b) = if truthy (lstrip a) then lstrip a ++ b else lstrip b.
Proof.
  induction a as [|c a IH]; [reflexivity|]. simpl.
  destruct (py_isspace c); [exact IH|reflexivity].
Qed.

Lemma truthy_reverse s : truthy (reverse s) = truthy s.
Proof.
  destruct s as [|c s]; [reflexivity|]. rewrite reverse_cons.
  destruct (reverse s); reflexivity.
Qed.

Lemma rstrip_cons c s :
  rstrip (c :: s)
  = if truthy (rstrip s) then c :: rstrip s
    else if py_isspace c then [] else [c].
Proof.
  unfold rstrip. rewrite reverse_cons, lstrip_app, truthy_reverse.
  destruct (truthy (lstrip (reverse s))) eqn:E.
  - rewrite reverse_app. reflexivity.
  - simpl. destruct (py_isspace c); reflexivity.
Qed.

Lemma rstrip_nonspace a c s :
  py_isspace c = false -> rstrip (a ++ c :: s) = a ++ c :: rstrip s.
Proof.
  intros Hc. induction a as [|x a IH].
  - simpl. rewrite rstrip_cons, Hc. destruct (rstrip s); reflexivity.
  - simpl. rewrite rstrip_cons, IH. destruct a; reflexivity.
Qed.

Lemma rstrip_prefix s : exists t, s = rstrip s ++ t.
Proof.
  induction s as [|c s [t IH]]; [exists []; reflexivity|].
  rewrite rstrip_cons. destruct (truthy (rstrip s)).
  - exists t. simpl. f_equal. exact IH.
  - destruct (py_isspace c); eexists; reflexivity.
Qed.

Lemma rstrip_rstrip s : rstrip (rstrip s) = rstrip s.
Proof.
  induction s as [|c s IH]; [reflexivity|].
  rewrite rstrip_cons. destruct (truthy (rstrip s)) eqn:E.
  - rewrite rstrip_cons, IH, E. reflexivity.
  - destruct (py_isspace c) eqn:Hc; [reflexivity|].
    rewrite rstrip_cons, Hc. reflexivity.
Qed.

Lemma lstrip_rstrip s : lstrip (rstrip s) = rstrip (lstrip s).
Proof.
  induction s as [|c s IH]; [reflexivity|].
  rewrite rstrip_cons. simpl. destruct (py_isspace c) eqn:Hc.
  - rewrite <- IH. destruct (rstrip s) eqn:E; [reflexivity|].
    simpl. rewrite Hc. reflexivity.
  - rewrite rstrip_cons, Hc.
    destruct (truthy (rstrip s)); simpl; rewrite Hc; reflexivity.
Qed.

Lemma strip_rstrip s : strip (rstrip s) = strip s.
Proof. unfold strip. rewrite lstrip_rstrip, rstrip_rstrip. reflexivity. Qed.

Lemma startswith_prefix old a b :
  startswith old a = true -> startswith old (a ++ b) = true.
Proof.
  revert a. induction old as [|o old IH]; intros [|c a] H; simpl in *;
    try reflexivity; try discriminate.
  apply andb_true_iff in H as [-> H]. simpl. auto.
Qed.

Lemma contains_prefix old a b :
  contains old (a ++ b) = false -> contains old a = false.
Proof.
  induction a as [|c a IH]; intros H.
  - destruct old as [|o old]; [|reflexivity].
    destruct b; discriminate H.
  - change ((c :: a) ++ b) with (c :: (a ++ b)) in H.
    cbn [contains] in H |- *.
    apply orb_false_iff in H as [H1 H2]. rewrite (IH H2), orb_false_r.
    destruct (startswith old (c :: a)) eqn:E; [|reflexivity].
    pose proof (startswith_prefix old (c :: a) b E) as E'.
    change ((c :: a) ++ b) with (c :: (a ++ b)) in E'.
    rewrite E' in H1. discriminate H1.
Qed.

Lemma replace_go_absent old new s :
  contains old s = false -> replace_go old new 0 s = s.
Proof.
  induction s as [|c s IH]; [reflexivity|]. cbn [contains replace_go].
  intros H. apply orb_false_iff in H as [-> H]. f_equal. auto.
Qed.

Lemma split_line a :
  nl ∉ a -> split nl a = [a].
Proof.
  induction a as [|c a IH]; [reflexivity|]. intros H.
  apply not_elem_of_cons in H as [Hc Ha]. cbn [split].
  destruct (Ascii.eqb_spec c nl) as [->|_]; [contradiction|].
  rewrite (IH Ha). reflexivity.
Qed.

Lemma split_lines a b :
  nl ∉ a -> split nl (a ++ nl :: b) = a :: split nl b.
Proof.
  induction a as [|c a IH]; [reflexivity|]. intros H.
  apply not_elem_of_cons in H as [Hc Ha]. cbn [split app].
  destruct (Ascii.eqb_spec c nl) as [->|_]; [contradiction|].
  rewrite (IH Ha). reflexivity.
Qed.

(** The labelled-line response of C6 is parsed as the claim says as long
    as no value contains its own label: the three values are single
    lines [X], [Y], [Z], and the fields are their stripped texts. *)
Theorem parse_metadata_labelled topic X Y Z :
  nl ∉ X -> nl ∉ Y -> nl ∉ Z ->
  contains (lit "Title:") X = false ->
  contains (lit "Author:") Y = false ->
  contains (lit "Annotation:") Z = false ->
  parse_metadata topic
    (lit "Title: " ++ X ++ [nl] ++ lit "Author: " ++ Y ++ [nl]
       ++ lit "Annotation: " ++ Z)
  = mkMetadata (strip X) (strip Y) (strip Z).
Proof.
  intros HX HY HZ CX CY CZ.
  destruct (rstrip_prefix (sp :: Z)) as [tail Htail].
  assert (HZ' : nl ∉ rstrip (sp :: Z)).
  { intros Hin. apply (not_elem_of_cons Z nl sp); [|rewrite Htail; set_solver].
    split; [discriminate|exact HZ]. }
  assert (CZ' : contains (lit "Annotation:") (rstrip (sp :: Z)) = false).
  { apply (contains_prefix _ _ tail). rewrite <- Htail. cbn [contains].
    rewrite CZ. reflexivity. }
  set (response := lit "Title: " ++ X ++ [nl] ++ lit "Author: " ++ Y ++ [nl]
                     ++ lit "Annotation: " ++ Z).
  assert (Hstrip :
    strip response
    = (lit "Title: " ++ X) ++ nl :: (lit "Author: " ++ Y) ++ nl
        :: lit "Annotation:" ++ rstrip (sp :: Z)).
  { unfold strip.
    replace (lstrip response) with response by reflexivity.
    replace response
      with ((lit "Title: " ++ X ++ [nl] ++ lit "Author: " ++ Y ++ [nl]
               ++ lit "Annotation") ++ ":"%char :: sp :: Z)
      by (unfold response; rewrite <- !app_assoc; reflexivity).
    rewrite rstrip_nonspace by reflexivity.
    rewrite <- !app_assoc. reflexivity. }
  unfold parse_metadata.
  replace (truthy response) with true by reflexivity.
  rewrite Hstrip. clear Hstrip response.
  rewrite split_lines, split_lines, split_line.
  2:{ intros Hin. apply elem_of_app in Hin as [Hin|Hin]; [|contradiction].
      vm_compute in Hin. repeat (apply elem_of_cons in Hin as [Hin|Hin];
                                 [discriminate|]).
      apply elem_of_nil in Hin. exact Hin. }
  2:{ intros Hin. apply elem_of_app in Hin as [Hin|Hin]; [|contradiction].
      vm_compute in Hin. repeat (apply elem_of_cons in Hin as [Hin|Hin];
                                 [discriminate|]).
      apply elem_of_nil in Hin. exact Hin. }
  2:{ intros Hin. apply elem_of_app in Hin as [Hin|Hin]; [|contradiction].
      vm_compute in Hin. repeat (apply elem_of_cons in Hin as [Hin|Hin];
                                 [discriminate|]).
      apply elem_of_nil in Hin. exact Hin. }
  cbn [fold_left].
  unfold metadata_line at 3. cbn [startswith lit app Ascii.eqb Bool.eqb andb].
  unfold metadata_line at 2. cbn [startswith lit app Ascii.eqb Bool.eqb andb title author annotation].
  unfold metadata_line at 1. cbn [startswith lit app Ascii.eqb Bool.eqb andb title author annotation].
  unfold replace.
  cbn [replace_go startswith lit app Ascii.eqb Bool.eqb andb length Nat.sub].
  rewrite !replace_go_absent by assumption.
  rewrite strip_rstrip. reflexivity.
Qed.

(** * Further properties of the code *)

(** ** Lines handed out by the list-returning stages *)

Lemma lstrip_blank s : lstrip s = [] <-> blank s = true.
Proof.
  induction s as [|c s IH]; simpl; [tauto|].
  destruct (py_isspace c); simpl; [exact IH|]. split; discriminate.
Qed.

Lemma lstrip_head_nonspace s c t :
  lstrip s = c :: t -> py_isspace c = false.
Proof.
  induction s as [|x s IH]; simpl; [discriminate|].
  destruct (py_isspace x) eqn:E; [exact IH|]. intros [= <- _]. exact E.
Qed.

Lemma lstrip_suffix s : lstrip s `suffix_of` s.
Proof.
  induction s as [|c s IH]; simpl; [reflexivity|].
  destruct (py_isspace c); [|reflexivity]. apply suffix_cons_r, IH.
Qed.

Lemma lstrip_lstrip s : lstrip (lstrip s) = lstrip s.
Proof.
  induction s as [|c s IH]; simpl; [reflexivity|].
  destruct (py_isspace c) eqn:E; [exact IH|]. simpl. rewrite E. reflexivity.
Qed.

Lemma strip_strip s : strip (strip s) = strip s.
Proof.
  unfold strip. rewrite lstrip_rstrip, lstrip_lstrip, rstrip_rstrip. reflexivity.
Qed.

Lemma rstrip_nonempty c t : py_isspace c = false -> truthy (rstrip (c :: t)) = true.
Proof.
  intros Hc. rewrite rstrip_cons, Hc. destruct (truthy (rstrip t)); reflexivity.
Qed.

Lemma strip_blank s : strip s = [] <-> blank s = true.
Proof.
  rewrite <- lstrip_blank. unfold strip. split.
  - intros H. destruct (lstrip s) as [|c t] eqn:E; [reflexivity|].
    pose proof (rstrip_nonempty c t (lstrip_head_nonspace _ _ _ E)) as Hne.
    rewrite H in Hne. discriminate Hne.
  - intros ->. reflexivity.
Qed.

Lemma truthy_strip s : truthy (strip s) = negb (blank s).
Proof.
  destruct (blank s) eqn:E.
  - apply strip_blank in E. rewrite E. reflexivity.
  - destruct (strip s) eqn:E'; [|reflexivity].
    apply strip_blank in E'. congruence.
Qed.

Lemma strip_subseteq s c : c ∈ strip s -> c ∈ s.
Proof.
  unfold strip. intros H.
  destruct (rstrip_prefix (lstrip s)) as [t Ht].
  destruct (lstrip_suffix s) as [u Hu].
  rewrite Hu, Ht. set_solver.
Qed.

Lemma split_nonempty sep s : split sep s <> [].
Proof.
  destruct s as [|c s]; simpl; [discriminate|].
  destruct (Ascii.eqb c sep); [discriminate|].
  destruct (split sep s); discriminate.
Qed.

Lemma split_no_sep sep s : Forall (fun line => sep ∉ line) (split sep s).
Proof.
  induction s as [|c s IH]; simpl.
  - repeat constructor. apply not_elem_of_nil.
  - destruct (Ascii.eqb_spec c sep) as [->|Hne].
    + constructor; [apply not_elem_of_nil|exact IH].
    + destruct (split sep s) as [|l ls]; simpl.
      * repeat constructor. apply not_elem_of_cons. split; [congruence|].
        apply not_elem_of_nil.
      * inversion IH as [|? ? Hl Hls]; subst. constructor; [|exact Hls].
        apply not_elem_of_cons. split; [congruence|exact Hl].
Qed.

Lemma split_blank s : Forall (fun line => blank line = true) (split nl s)
                      <-> blank s = true.
Proof.
  induction s as [|c s IH]; simpl.
  - split; [reflexivity|]. repeat constructor.
  - destruct (Ascii.eqb_spec c nl) as [->|Hne].
    + change (py_isspace nl) with true. simpl. rewrite <- IH. split.
      * intros H. inversion H; assumption.
      * intros H. constructor; [reflexivity|exact H].
    + destruct (split nl s) as [|l ls] eqn:E;
        [exfalso; exact (split_nonempty _ _ E)|].
      rewrite andb_true_iff, <- IH. split.
      * intros H. inversion H as [|? ? Hl Hls]; subst. simpl in Hl.
        apply andb_true_iff in Hl as [Hc Hl]. split; [exact Hc|].
        constructor; assumption.
      * intros [Hc H]. inversion H as [|? ? Hl Hls]; subst.
        constructor; [|exact Hls]. simpl. rewrite Hc, Hl. reflexivity.
Qed.

Lemma nonblank_lines_clean response : Forall clean_line (nonblank_lines response).
Proof.
  unfold nonblank_lines. pose proof (split_no_sep nl response) as H.
  induction H as [|line lines Hline _ IH]; simpl; [constructor|].
  destruct (truthy (strip line)) eqn:Ht; simpl; [|exact IH].
  constructor; [|exact IH]. split_and!.
  - exact Ht.
  - intros Hin. apply Hline, strip_subseteq, Hin.
  - apply strip_strip.
Qed.

Lemma nonblank_lines_nil response :
  nonblank_lines response = [] <-> blank response = true.
Proof.
  rewrite <- split_blank. unfold nonblank_lines.
  induction (split nl response) as [|line lines IH]; simpl.
  - split; [constructor|reflexivity].
  - rewrite truthy_strip. destruct (blank line) eqn:E; simpl.
    + rewrite IH. split.
      * intros H. constructor; assumption.
      * intros H. inversion H; assumption.
    + split; [discriminate|]. intros H. inversion H; congruence.
Qed.

Lemma slice_to_sublist {A} (n : Z) (l : list A) (P : A -> Prop) :
  Forall P l -> Forall P (slice_to n l).
Proof. intros H. unfold slice_to. destruct (0 <=? n)%Z; apply Forall_take, H. Qed.

Lemma fallback_structure_clean : Forall clean_line fallback_structure.
Proof.
  repeat constructor; try reflexivity;
    intros H; vm_compute in H;
    repeat (apply elem_of_cons in H as [H|H]; [discriminate H|]);
    apply elem_of_nil in H; exact H.
Qed.

(** X1: every title of the outline, every section title and every
    bibliography entry is a clean line: not empty, on one line, with no
    whitespace at either end. *)
Theorem listed_lines_clean self w :
  (forall topic num_chapters,
     returns (generate_outline self topic num_chapters) w
       (fun chapters _ => Forall clean_line chapters))
  /\ (forall chapter_title previous_summary,
        returns (generate_chapter_structure self chapter_title previous_summary) w
          (fun sections _ => Forall clean_line sections))
  /\ (forall topic,
        returns (generate_bibliography self topic) w
          (fun bibliography _ => Forall clean_line bibliography)).
Proof.
  split_and!.
  - intros topic N.
    eapply returns_mono; [apply generate_outline_returns|].
    intros chapters w' (_ & _ & es & _ & response & s1 & _ & H). cbv zeta in H.
    destruct (truthy response); cbn [negb] in H.
    2:{ destruct H as [-> _]. constructor. }
    destruct (_ <? _)%Z.
    { destruct H as [-> _]. apply slice_to_sublist, nonblank_lines_clean. }
    destruct (_ <? _)%Z.
    2:{ destruct H as [-> _]. apply nonblank_lines_clean. }
    destruct H as (additional & s2 & _ & _ & ->).
    apply Forall_app. split; [apply nonblank_lines_clean|].
    destruct (truthy additional); [|constructor].
    apply slice_to_sublist, nonblank_lines_clean.
  - intros chapter_title previous_summary.
    eapply returns_mono; [apply generate_chapter_structure_returns|].
    intros sections w' (_ & answer & es & _ & _ & ->). unfold sections_of.
    destruct (truthy answer);
      [apply nonblank_lines_clean|apply fallback_structure_clean].
  - intros topic.
    eapply returns_mono; [apply generate_bibliography_returns|].
    intros bibliography w' (_ & answer & es & _ & _ & ->).
    destruct (truthy answer); [apply nonblank_lines_clean|constructor].
Qed.

(** ** The retry loop *)

Lemma request_attempts_discipline self prompt max_retries retry_delay :
  (0 <= retry_delay)%Z ->
  forall m i w,
  i + m = Z.to_nat max_retries ->
  exists t w' es,
    request_attempts self prompt max_retries retry_delay (seq i m) w = (Ok t, w')
    /\ files w' = files w
    /\ trace w' = trace w ++ es
    /\ posted w' = posted w + count_posts es
    /\ count_posts es <= m
    /\ (0 < m -> count_sleeps es + 1 = count_posts es)
    /\ (m = 0 -> es = [])
    /\ (count_posts es < m \/ truthy t = true ->
        last es = Some (EvPost (generate_endpoint self) (model self) prompt
                          (Responded 200 (Some t)))).
Proof.
  intros Hd. unfold count_posts, count_sleeps.
  induction m as [|m IH]; intros i w Hm.
  - exists [], w, []. simpl. rewrite app_nil_r.
    split_and!; try reflexivity; try lia.
  - cbn [seq request_attempts].
    destruct (attempt_fails (service w (posted w) prompt)) eqn:Hf.
    + erewrite bind_run by (apply request_attempt_failed; assumption).
      destruct (IH (S i) (after_failed_attempt self prompt max_retries retry_delay i w))
        as (t & w' & es & E & Hfiles & Htrace & Hposted & Hle & Hsl & Hnil & Hlast);
        [lia|].
      cbn [after_failed_attempt files trace posted] in Hfiles, Htrace, Hposted.
      exists t, w'. eexists. split; [exact E|].
      split; [exact Hfiles|]. split.
      { rewrite Htrace, <- app_assoc. reflexivity. }
      destruct m as [|m].
      * rewrite (Hnil eq_refl) in *.
        cbn in E. unfold ret in E. injection E as <- _.
        replace (Z.of_nat i <? max_retries - 1)%Z with false
          by (symmetry; apply Z.ltb_ge; lia).
        cbn. split; [lia|]. split; [lia|]. split; [reflexivity|].
        split; [discriminate|].
        intros [H|H]; [lia|discriminate H].
      * replace (Z.of_nat i <? max_retries - 1)%Z with true
          by (symmetry; apply Z.ltb_lt; lia).
        specialize (Hsl ltac:(lia)).
        cbn [app List.filter is_post is_sleep length].
        split; [lia|]. split; [lia|]. split; [lia|].
        split; [discriminate|].
        intros H.
        assert (Hes : es <> []) by (intros ->; simpl in Hsl; lia).
        destruct es as [|e es]; [congruence|].
        cbn [last] in Hlast |- *. apply Hlast.
        destruct H as [H|H]; [left; lia|right; exact H].
    + apply attempt_fails_false in Hf as [t Ht].
      erewrite bind_run by (apply request_attempt_succeeded; exact Ht).
      exists t. eexists.
      exists [EvPost (generate_endpoint self) (model self) prompt
                (Responded 200 (Some t))].
      split; [reflexivity|].
      split_and!; simpl; try reflexivity; try lia; try discriminate.
Qed.

(** X3: a negative [retry_delay] turns the first failed attempt into a
    [ValueError] that leaves [_make_request]: the pause that follows the
    failed post is refused, inside the handler as well, so the call
    raises after a single post (when more than one attempt is allowed). *)
Theorem make_request_negative_delay self prompt max_retries retry_delay w :
  (retry_delay < 0)%Z ->
  (2 <= max_retries)%Z ->
  attempt_fails (service w (posted w) prompt) = true ->
  _make_request self prompt max_retries retry_delay w
  = (Raised ValueError, after_post self prompt w).
Proof.
  intros Hd Hn Hf. unfold _make_request.
  destruct (Z.to_nat max_retries) as [|m] eqn:Em; [lia|].
  cbn [seq request_attempts].
  assert (Ha : (Z.of_nat 0 <? max_retries - 1)%Z = true) by (apply Z.ltb_lt; lia).
  assert (Hs : (retry_delay <? 0)%Z = true) by (apply Z.ltb_lt; exact Hd).
  unfold bind at 1, request_attempt, try_except, bind, requests_post, after_post,
    when, sleep, response_json, raise, ret.
  rewrite Ha.
  destruct (service w (posted w) prompt) as [status [t|]|]; simpl in *.
  - apply negb_true_iff in Hf. rewrite Hf. simpl. rewrite Hs. reflexivity.
  - destruct (status =? 200)%Z; simpl; rewrite Hs; reflexivity.
  - rewrite Hs. reflexivity.
Qed.

Lemma make_request_negative_delay_witness :
  _make_request local_generator (lit "Outline, please.") 3 (-1)
    (fresh_world service_down)
  = (Raised ValueError,
     after_post local_generator (lit "Outline, please.") (fresh_world service_down)).
Proof.
  apply (make_request_negative_delay local_generator (lit "Outline, please.")
           3 (-1) (fresh_world service_down)); [lia|lia|reflexivity].
Defined.

Lemma make_request_answered self prompt w t :
  service w (posted w) prompt = Responded 200 (Some t) ->
  make_request self prompt w = (Ok t, after_post self prompt w).
Proof.
  intros Hs. unfold make_request, _make_request.
  change (seq 0 (Z.to_nat 3)) with [0; 1; 2]. cbn [request_attempts].
  erewrite bind_run by (apply request_attempt_succeeded; exact Hs).
  unfold after_post. rewrite Hs. reflexivity.
Qed.

(** X4: an answer of status 200 whose text is empty is not retried, and
    every stage treats it as a total failure: after one post and no pause
    the stage hands back its degraded output (the fallback structure, the
    default metadata, an empty list or an empty text). *)
Theorem empty_answer_degrades self st i w :
  service w (posted w) (stage_prompt st i) = Responded 200 (Some []) ->
  run_stage self st i w
  = (Ok (degraded_output st i), after_post self (stage_prompt st i) w).
Proof.
  intros Hs. apply (make_request_answered self) in Hs.
  destruct st; cbn [run_stage degraded_output stage_prompt] in *;
    unfold generate_outline, generate_metadata, generate_chapter_structure,
      generate_chapter_chunk, summarize_chapter, generate_introduction,
      generate_conclusion, generate_bibliography;
    unfold bind at 1; try unfold bind at 1; rewrite Hs; reflexivity.
Qed.

Lemma empty_answer_degrades_witness :
  run_stage local_generator StructureStage sample_inputs
    (fresh_world (service_script [[]]))
  = (Ok (degraded_output StructureStage sample_inputs),
     after_post local_generator (stage_prompt StructureStage sample_inputs)
       (fresh_world (service_script [[]]))).
Proof.
  apply (empty_answer_degrades local_generator StructureStage sample_inputs
           (fresh_world (service_script [[]]))).
  reflexivity.
Defined.

(** ** Edge cases of the list-returning stages *)

(** X5: the fallback structure is used for an empty answer only.  An
    answer that is not empty but holds nothing except whitespace yields a
    chapter with no section at all, and that is the only way to get
    one. *)
Theorem structure_blank_answer self chapter_title previous_summary w response w1 :
  make_request self (structure_prompt chapter_title previous_summary) w
  = (Ok response, w1) ->
  exists sections,
    generate_chapter_structure self chapter_title previous_summary w
    = (Ok sections, w1)
    /\ (sections = [] <-> truthy response = true /\ blank response = true).
Proof.
  intros E. unfold generate_chapter_structure. rewrite (bind_run _ _ _ _ _ E).
  destruct (truthy response) eqn:Ht.
  - exists (nonblank_lines response). split; [reflexivity|].
    rewrite nonblank_lines_nil. tauto.
  - exists fallback_structure. split; [reflexivity|].
    split; [discriminate|]. intros [H _]. discriminate H.
Qed.

Lemma structure_blank_answer_witness :
  exists sections,
    generate_chapter_structure local_generator (lit "Stone Arches") []
      (fresh_world (service_script [[sp; nl; sp]]))
    = (Ok sections,
       after_post local_generator (structure_prompt (lit "Stone Arches") [])
         (fresh_world (service_script [[sp; nl; sp]])))
    /\ (sections = [] <-> truthy [sp; nl; sp] = true /\ blank [sp; nl; sp] = true).
Proof.
  apply (structure_blank_answer local_generator (lit "Stone Arches") []
           (fresh_world (service_script [[sp; nl; sp]])) [sp; nl; sp]).
  apply make_request_answered. reflexivity.
Defined.

(** X6: a chapter count of zero or below is not rejected.  One request
    is made, and the outline is [lines[:num_chapters]] of its non-blank
    lines: nothing for zero, all but the last [-num_chapters] titles for
    a negative count. *)
Theorem generate_outline_nonpositive self topic (N : Z) w response w1 :
  (N <= 0)%Z ->
  make_request self (outline_prompt topic N) w = (Ok response, w1) ->
  let first := nonblank_lines response in
  generate_outline self topic N w
  = (Ok (take (if (N =? 0)%Z then 0 else length first - Z.to_nat (- N)) first), w1).
Proof.
  intros HN E first. unfold generate_outline. rewrite (bind_run _ _ _ _ _ E).
  fold first. destruct (truthy response) eqn:Ht.
  2:{ destruct response; [|discriminate]. unfold ret. subst first.
      destruct (N =? 0)%Z; reflexivity. }
  destruct (N <? Z.of_nat (length first))%Z eqn:H1.
  - unfold ret, slice_to. destruct (Z.eqb_spec N 0) as [->|Hne]; [reflexivity|].
    replace (0 <=? N)%Z with false by (symmetry; apply Z.leb_gt; lia).
    reflexivity.
  - apply Z.ltb_ge in H1.
    replace (Z.of_nat (length first) <? N)%Z with false
      by (symmetry; apply Z.ltb_ge; lia).
    assert (Hl : length first = 0) by lia.
    destruct first; [|discriminate]. unfold ret.
    destruct (N =? 0)%Z; reflexivity.
Qed.

Lemma generate_outline_nonpositive_witness :
  generate_outline local_generator (lit "Bridges") (-1)
    (fresh_world (service_script [lit "Stone Arches" ++ [nl] ++ lit "Iron Spans"]))
  = (Ok [lit "Stone Arches"],
     after_post local_generator (outline_prompt (lit "Bridges") (-1))
       (fresh_world (service_script [lit "Stone Arches" ++ [nl] ++ lit "Iron Spans"]))).
Proof.
  apply (generate_outline_nonpositive local_generator (lit "Bridges") (-1)
           (fresh_world (service_script [lit "Stone Arches" ++ [nl] ++ lit "Iron Spans"]))
           (lit "Stone Arches" ++ [nl] ++ lit "Iron Spans")).
  - lia.
  - apply make_request_answered. reflexivity.
Defined.

Lemma slice_to_idemp {A} (n : Z) (l : list A) :
  (0 <= n)%Z -> slice_to n (slice_to n l) = slice_to n l.
Proof.
  intros Hn. rewrite !slice_to_take by exact Hn. rewrite take_take.
  f_equal. lia.
Qed.

(** X7: [summarize_chapter] shows the service the first 3000 characters
    of the chapter and nothing beyond: the call is the same as on the
    truncated text, request and result alike. *)
Theorem summarize_chapter_capped self chapter_content w :
  summarize_chapter self chapter_content w
  = summarize_chapter self (slice_to 3000 chapter_content) w
  /\ length (slice_to 3000 chapter_content) <= 3000.
Proof.
  split.
  - unfold summarize_chapter, summary_prompt.
    rewrite slice_to_idemp by lia. reflexivity.
  - apply (slice_to_length 3000 chapter_content). lia.
Qed.

(** ** Metadata fields *)

Lemma fold_left_last_setter (get : Metadata -> text) (label : text) pre line post m :
  (forall m l, startswith label l = false -> get (metadata_line m l) = get m) ->
  (forall m, get (metadata_line m line) = strip (replace label [] line)) ->
  Forall (fun l => startswith label l = false) post ->
  get (fold_left metadata_line (pre ++ line :: post) m)
  = strip (replace label [] line).
Proof.
  intros Hkeep Hset Hpost. rewrite fold_left_app. cbn [fold_left].
  apply (fold_metadata_invariant
           (fun m => get m = strip (replace label [] line)) _ _) with (2 := Hpost).
  - intros m' l Hl Hm. rewrite Hkeep; assumption.
  - apply Hset.
Qed.

Lemma author_line_not_title line :
  startswith (lit "Author:") line = true ->
  startswith (lit "Title:") line = false.
Proof.
  destruct line as [|c line]; [discriminate|]. cbn [lit startswith].
  destruct (Ascii.eqb_spec "A"%char c) as [<-|]; [reflexivity|discriminate].
Qed.

(** X8: when several lines of the answer carry the same label, the last
    one decides: the title (the author) is read from the last line that
    starts with [Title:] ([Author:]), earlier ones are overwritten. *)
Theorem last_labelled_line_wins topic response pre line post :
  truthy response = true ->
  split nl (strip response) = pre ++ line :: post ->
  (startswith (lit "Title:") line = true ->
   Forall (fun l => startswith (lit "Title:") l = false) post ->
   title (parse_metadata topic response) = strip (replace (lit "Title:") [] line))
  /\ (startswith (lit "Author:") line = true ->
      Forall (fun l => startswith (lit "Author:") l = false) post ->
      author (parse_metadata topic response)
      = strip (replace (lit "Author:") [] line)).
Proof.
  intros Ht Hs. unfold parse_metadata. rewrite Ht, Hs. split; intros Hl Hpost.
  - apply fold_left_last_setter; [apply metadata_line_keeps_title| |exact Hpost].
    intros m. unfold metadata_line. rewrite Hl. reflexivity.
  - apply fold_left_last_setter; [apply metadata_line_keeps_author| |exact Hpost].
    intros m. unfold metadata_line.
    rewrite (author_line_not_title _ Hl), Hl. reflexivity.
Qed.

Lemma last_labelled_line_wins_witness :
  title (parse_metadata (lit "Bridges")
           (lit "Title: Spans" ++ [nl] ++ lit "Title: Arches"))
  = lit "Arches".
Proof.
  refine (proj1 (last_labelled_line_wins (lit "Bridges")
                   (lit "Title: Spans" ++ [nl] ++ lit "Title: Arches")
                   [lit "Title: Spans"] (lit "Title: Arches") []
                   eq_refl eq_refl) eq_refl _).
  constructor.
Defined.

Lemma replace_go_subseteq old skip s c :
  c ∈ replace_go old [] skip s -> c ∈ s.
Proof.
  revert skip. induction s as [|x s IH]; intros skip; cbn [replace_go]; [auto|].
  destruct skip as [|k].
  - destruct (startswith old (x :: s)); cbn [app].
    + intros H. apply elem_of_cons. right. eapply IH, H.
    + intros H. apply elem_of_cons in H as [->|H]; [left|right; eapply IH, H].
  - intros H. apply elem_of_cons. right. eapply IH, H.
Qed.

Lemma strip_replace_line label line :
  nl ∉ line -> nl ∉ strip (replace label [] line).
Proof.
  intros Hl Hin. apply Hl. eapply replace_go_subseteq, strip_subseteq, Hin.
Qed.

(** X9: whatever the service answers, the author and the annotation of
    the metadata are single lines, and so is the title unless it is the
    default title of a topic that itself spans several lines. *)
Theorem metadata_fields_single_line topic response :
  let metadata := parse_metadata topic response in
  ((nl ∉ title metadata) \/ title metadata = lit "Book on " ++ topic)
  /\ (nl ∉ author metadata)
  /\ (nl ∉ annotation metadata).
Proof.
  cbv zeta. unfold parse_metadata.
  assert (Hd : nl ∉ lit "Author Not Specified").
  { intros H. vm_compute in H.
    repeat (apply elem_of_cons in H as [H|H]; [discriminate H|]).
    apply elem_of_nil in H. exact H. }
  destruct (truthy response).
  2:{ split_and!; [right; reflexivity|exact Hd|apply not_elem_of_nil]. }
  apply (fold_metadata_invariant
           (fun m => ((nl ∉ title m) \/ title m = lit "Book on " ++ topic)
                     /\ (nl ∉ author m) /\ (nl ∉ annotation m))
           (fun line => nl ∉ line) _).
  - intros m line Hl (Ht & Ha & Hn). unfold metadata_line.
    repeat match goal with
           | |- context [if ?c then _ else _] => destruct c
           end; cbn [title author annotation]; split_and!;
      auto using strip_replace_line.
    rewrite !not_elem_of_app. split_and!; [exact Hn| |].
    + intros H. apply elem_of_cons in H as [H|H]; [discriminate H|].
      apply elem_of_nil in H. exact H.
    + intros H. apply Hl, strip_subseteq, H.
  - apply split_no_sep.
  - split_and!; [right; reflexivity|exact Hd|apply not_elem_of_nil].
Qed.

(** ** The derived directory name *)

Lemma replace_space s : replace [sp] (lit "_") s = map underscored s.
Proof.
  unfold replace. induction s as [|c s IH]; [reflexivity|].
  cbn [replace_go startswith map]. unfold underscored at 1.
  destruct (Ascii.eqb sp c); simpl; f_equal; exact IH.
Qed.

(** X10: without an output directory [generate_book] works in
    [book_<timestamp>_<name>], where the name is made of the first 30
    characters of the topic with every space turned into an underscore;
    every other character, a slash included, is kept as it is. *)
Theorem derived_output_dir self topic num_chapters w :
  returns (generate_book self topic num_chapters None) w
    (fun book _ =>
       book_output_dir book
       = lit "book_" ++ now_stamp w ++ lit "_" ++ map underscored (take 30 topic)).
Proof.
  eapply returns_mono; [apply generate_book_returns|].
  intros book w' (Hdir & _). rewrite Hdir. cbn [resolved_output_dir].
  rewrite replace_space, slice_to_take by lia.
  change (Z.to_nat 30) with 30. rewrite <- fmap_take. reflexivity.
Qed.

(** ** What a run leaves in the store *)



Lemma keeps_files_eq w w' : files w' = files w -> keeps_files w w'.
Proof. intros E p H. rewrite E. exact H. Qed.


Lemma section_path_inj dir j k : section_path dir j = section_path dir k -> j = k.
Proof.
  unfold section_path. intros H. do 2 apply app_inv_head in H.
  apply app_inv_tail in H. apply fmt_02d_inj, H.
Qed.


















(** ** A run against a dead service *)












(** X14: the directories of two different chapters are different and
    share no file, and two different sections of a chapter have different
    files, for any number of chapters and sections (the two-digit
    numbering widens beyond 99). *)
Theorem chapter_directories_disjoint out dir i k :
  i <> k ->
  chapter_dir_of out i <> chapter_dir_of out k
  /\ (forall p, in_chapter_dir out i p -> ~ in_chapter_dir out k p)
  /\ section_path dir i <> section_path dir k.
Proof.
  intros Hne. split_and!.
  - intros H. apply Hne. unfold chapter_dir_of in H.
    do 2 apply app_inv_head in H. apply fmt_02d_inj, H.
  - intros p Hi Hk. apply Hne. eapply in_chapter_dir_inj; eassumption.
  - intros H. apply Hne. eapply section_path_inj, H.
Qed.

Lemma chapter_directories_disjoint_witness :
  chapter_dir_of (lit "out") 10 <> chapter_dir_of (lit "out") 100
  /\ (forall p, in_chapter_dir (lit "out") 10 p -> ~ in_chapter_dir (lit "out") 100 p)
  /\ section_path (lit "out/chapter_01") 10 <> section_path (lit "out/chapter_01") 100.
Proof.
  apply (chapter_directories_disjoint (lit "out") (lit "out/chapter_01") 10 100).
  lia.
Defined.

(** ** Directories and pauses of a run *)

Lemma directories_app es1 es2 :
  directories (es1 ++ es2) = directories es1 ++ directories es2.
Proof. apply List.filter_app. Qed.

Lemma section_pauses_app es1 es2 :
  section_pauses (es1 ++ es2) = section_pauses es1 + section_pauses es2.
Proof. unfold section_pauses. rewrite List.filter_app, length_app. reflexivity. Qed.

Lemma request_segment_silent self prompt t es :
  request_segment self prompt t es ->
  directories es = [] /\ section_pauses es = 0.
Proof.
  intros ((failures & Hall & Hes) & _).
  assert (Hf : directories failures = [] /\ section_pauses failures = 0).
  { clear Hes. induction Hall as [|e l He _ IH]; [split; reflexivity|].
    destruct IH as [IH1 IH2]. unfold directories, section_pauses in *.
    destruct He as [(o & -> & _)| ->]; simpl; auto. }
  destruct Hf as [Hf1 Hf2].
  destruct Hes as [->|[-> _]]; [|split; assumption].
  rewrite directories_app, section_pauses_app, Hf1, Hf2. split; reflexivity.
Qed.

Lemma sections_chain_silent self chapter runs :
  forall full segs,
  sections_chain self chapter full runs segs ->
  directories (concat segs) = []
  /\ section_pauses (concat segs) = length runs.
Proof.
  induction runs as [|r runs IH]; intros full [|es segs] H;
    try contradiction; [split; reflexivity|].
  destruct H as (_ & (seg & -> & Hseg) & Hc).
  destruct (IH _ _ Hc) as [IH1 IH2].
  destruct (request_segment_silent _ _ _ _ Hseg) as [H1 H2].
  cbn [concat length].
  rewrite !directories_app, !section_pauses_app, H1, H2, IH1, IH2.
  split; reflexivity.
Qed.

Lemma chapter_pass_silent self out i r es :
  chapter_pass self out i r es ->
  directories es = [EvMakedirs (chapter_dir_of out i)]
  /\ section_pauses es = length (cr_sections r).
Proof.
  intros (answer & s1 & s2 & s3 & -> & Hs1 & _ & Hsec & Hc & _ & Hs3).
  destruct (request_segment_silent _ _ _ _ Hs1) as [A1 A2].
  destruct (request_segment_silent _ _ _ _ Hs3) as [C1 C2].
  destruct (sections_chain_silent _ _ _ _ _ Hc) as [B1 B2].
  change (EvMakedirs (chapter_dir_of out i) :: s1 ++ concat s2 ++ s3)
    with ([EvMakedirs (chapter_dir_of out i)] ++ s1 ++ concat s2 ++ s3).
  rewrite !directories_app, !section_pauses_app, A1, A2, B1, B2, C1, C2.
  rewrite <- Hsec, length_map. split; [reflexivity|]. simpl. lia.
Qed.

Lemma chapters_chain_silent self out runs :
  forall i previous segs,
  chapters_chain self out i previous runs segs ->
  directories (concat segs)
  = map (fun k => EvMakedirs (chapter_dir_of out k)) (seq i (length runs))
  /\ section_pauses (concat segs)
     = list_sum (map (fun r => length (cr_sections r)) runs).
Proof.
  induction runs as [|r runs IH]; intros i previous [|es segs] H;
    try contradiction; [split; reflexivity|].
  destruct H as (_ & Hpass & Hc).
  destruct (IH _ _ _ Hc) as [IH1 IH2].
  destruct (chapter_pass_silent _ _ _ _ _ Hpass) as [H1 H2].
  cbn [concat length seq map list_sum].
  rewrite directories_app, section_pauses_app, H1, H2, IH1, IH2.
  split; reflexivity.
Qed.

Lemma outline_events_silent self topic N chapters es :
  outline_events self topic N chapters es ->
  directories es = [] /\ section_pauses es = 0.
Proof.
  intros (response & s1 & Hs1 & H). cbv zeta in H.
  destruct (request_segment_silent _ _ _ _ Hs1) as [A1 A2].
  destruct (negb (truthy response)); [destruct H as [_ ->]; auto|].
  destruct (_ <? _)%Z; [destruct H as [_ ->]; auto|].
  destruct (_ <? _)%Z; [|destruct H as [_ ->]; auto].
  destruct H as (additional & s2 & Hs2 & -> & _).
  destruct (request_segment_silent _ _ _ _ Hs2) as [B1 B2].
  rewrite directories_app, section_pauses_app, A1, A2, B1, B2. auto.
Qed.

(** X16: in a run [os.makedirs] is called for the output directory
    first and then once per chapter of the outline, in order, with
    [chapter_NN] under it, and for nothing else; and the run pauses for
    one second exactly once per section it wrote, whatever the number of
    retries. *)
Theorem run_directories_and_pauses self topic num_chapters output_dir w :
  returns (generate_book self topic num_chapters output_dir) w
    (fun book w' =>
       exists es,
         trace w' = trace w ++ es
         /\ directories es
            = EvMakedirs (book_output_dir book)
                :: map (fun k => EvMakedirs (chapter_dir_of (book_output_dir book) k))
                       (seq 1 (length (book_chapters book)))
         /\ section_pauses es
            = list_sum (map (fun r => length (cr_sections r)) (book_runs book))).
Proof.
  eapply returns_mono; [apply generate_book_returns|].
  intros book w' (_ & _ & Hcs & (es & Ht & Hev) & _).
  exists es. split; [exact Ht|].
  destruct Hev as (s_outline & metadata_answer & s_metadata & s_introduction
                   & s_chapters & s_conclusion & bibliography_answer
                   & s_bibliography & -> & Ho & Hm & _ & Hi & Hchain & Hc & Hb & _).
  destruct (outline_events_silent _ _ _ _ _ Ho) as [O1 O2].
  destruct (request_segment_silent _ _ _ _ Hm) as [M1 M2].
  destruct (request_segment_silent _ _ _ _ Hi) as [I1 I2].
  destruct (request_segment_silent _ _ _ _ Hc) as [C1 C2].
  destruct (request_segment_silent _ _ _ _ Hb) as [B1 B2].
  destruct (chapters_chain_silent _ _ _ _ _ _ Hchain) as [R1 R2].
  match goal with
  | |- context [EvMakedirs ?d :: ?l] =>
      change (EvMakedirs d :: l) with ([EvMakedirs d] ++ l)
  end.
  rewrite !directories_app, !section_pauses_app,
    O1, O2, M1, M2, I1, I2, C1, C2, B1, B2, R1, R2, !app_nil_r.
  rewrite <- Hcs, length_map. split; [reflexivity|]. simpl. lia.
Qed.

(** ** The cost of a run *)

Lemma bind_inv {A B} (m : M A) (k : A -> M B) w b w' :
  bind m k w = (Ok b, w') ->
  exists a w1, m w = (Ok a, w1) /\ k a w1 = (Ok b, w').
Proof.
  unfold bind. destruct (m w) as [[a|e] w1]; [eauto|discriminate].
Qed.


Lemma silent_ret {A} (a : A) : silent (ret a).
Proof. intros w. reflexivity. Qed.

Lemma silent_bind {A B} (m : M A) (k : A -> M B) :
  silent m -> (forall a, silent (k a)) -> silent (bind m k).
Proof.
  intros Hm Hk w. unfold bind. specialize (Hm w).
  destruct (m w) as [[a|e] w1]; [|exact Hm].
  rewrite Hk. exact Hm.
Qed.

Lemma silent_open_w path : silent (open_w path).
Proof. intros w. reflexivity. Qed.

Lemma silent_f_write path s : silent (f_write path s).
Proof. intros w. reflexivity. Qed.

Lemma silent_f_read path : silent (f_read path).
Proof. intros w. unfold f_read. destruct (files w !! path); reflexivity. Qed.

Lemma silent_makedirs path : silent (makedirs path).
Proof. intros w. reflexivity. Qed.

Lemma silent_sleep seconds : silent (sleep seconds).
Proof. intros w. unfold sleep. destruct (seconds <? 0)%Z; reflexivity. Qed.


Lemma silent_write_all path xs : silent (write_all path xs).
Proof.
  induction xs as [|x xs IH]; simpl; [apply silent_ret|].
  apply silent_bind; [apply silent_f_write|]. intros _. exact IH.
Qed.

Create HintDb silent.
#[local] Hint Resolve silent_ret silent_open_w silent_f_write silent_f_read
  silent_makedirs silent_sleep silent_write_all : silent.




Lemma charged_trans w1 w2 w3 lo1 hi1 lo2 hi2 :
  charged w1 w2 lo1 hi1 -> charged w2 w3 lo2 hi2 ->
  charged w1 w3 (lo1 + lo2) (hi1 + hi2).
Proof. unfold charged. lia. Qed.

Lemma charged_silent w w' : posted w' = posted w -> charged w w' 0 0.
Proof. unfold charged. lia. Qed.

Lemma make_request_charged self prompt w t w' :
  make_request self prompt w = (Ok t, w') -> charged w w' 1 3.
Proof.
  intros E.
  destruct (request_attempts_discipline self prompt 3 5 ltac:(lia) 3 0 w eq_refl)
    as (t' & w'' & es & E' & _ & _ & Hp & Hle & Hsl & _).
  unfold make_request, _make_request in E.
  change (seq 0 (Z.to_nat 3)) with (seq 0 3) in E. rewrite E' in E.
  injection E as _ <-. specialize (Hsl ltac:(lia)). unfold charged. lia.
Qed.


Lemma list_stage_charged self prompt (f : text -> list text) w l w' :
  bind (make_request self prompt) (fun response => ret (f response)) w = (Ok l, w') ->
  charged w w' 1 3.
Proof.
  intros H. apply bind_inv in H as (r & w1 & R & H).
  injection H as _ <-. eapply make_request_charged, R.
Qed.











(** * Properties of the program on answers of any type *)

(** ** The service stays as it is *)

Lemma steady_run {A} (m : M A) w r w' :
  steady m -> m w = (r, w') -> service w' = service w.
Proof. intros H E. specialize (H w). rewrite E in H. exact H. Qed.

Lemma steady_ret {A} (a : A) : steady (ret a).
Proof. intros w. reflexivity. Qed.

Lemma steady_raise {A} e : steady (@raise A e).
Proof. intros w. reflexivity. Qed.

Lemma steady_bind {A B} (m : M A) (k : A -> M B) :
  steady m -> (forall a, steady (k a)) -> steady (bind m k).
Proof.
  intros Hm Hk w. unfold bind. specialize (Hm w).
  destruct (m w) as [[a|e] w1]; [|exact Hm].
  rewrite Hk. exact Hm.
Qed.

Lemma steady_try_except {A} (m : M A) (h : exn -> M A) :
  steady m -> (forall e, steady (h e)) -> steady (try_except m h).
Proof.
  intros Hm Hh w. unfold try_except. specialize (Hm w).
  destruct (m w) as [[a|e] w1]; [exact Hm|].
  rewrite Hh. exact Hm.
Qed.

Lemma steady_requests_post endpoint model prompt :
  steady (requests_post endpoint model prompt).
Proof.
  intros w. unfold requests_post.
  destruct (service w (posted w) prompt); reflexivity.
Qed.

Lemma steady_response_json body : steady (response_json body).
Proof. destruct body; intros w; reflexivity. Qed.

Lemma steady_sleep seconds : steady (sleep seconds).
Proof. intros w. unfold sleep. destruct (seconds <? 0)%Z; reflexivity. Qed.

Lemma steady_open_w path : steady (open_w path).
Proof. intros w. reflexivity. Qed.

Lemma steady_f_write path s : steady (f_write path s).
Proof. intros w. reflexivity. Qed.

Lemma steady_f_read path : steady (f_read path).
Proof. intros w. unfold f_read. destruct (files w !! path); reflexivity. Qed.

Lemma steady_makedirs path : steady (makedirs path).
Proof. intros w. reflexivity. Qed.

Lemma steady_strftime_now : steady strftime_now.
Proof. intros w. reflexivity. Qed.

Lemma steady_for {A S} (body : nat -> A -> S -> M S) xs :
  (forall i x s, steady (body i x s)) ->
  forall i s, steady (for_enumerate i xs body s).
Proof.
  intros Hb. induction xs as [|x xs IH]; intros i s; simpl.
  - apply steady_ret.
  - apply steady_bind; [apply Hb|]. intros s'. apply IH.
Qed.

Lemma steady_write_all path xs : steady (write_all path xs).
Proof.
  induction xs as [|x xs IH]; simpl; [apply steady_ret|].
  apply steady_bind; [apply steady_f_write|]. intros _. exact IH.
Qed.

Create HintDb steady.
#[local] Hint Resolve steady_ret steady_raise steady_requests_post
  steady_response_json steady_sleep steady_open_w steady_f_write steady_f_read
  steady_makedirs steady_strftime_now steady_write_all : steady.

(** Proves that a computation leaves the service as it is, by its
    structure. *)
Ltac steadiness :=
  repeat first
    [ progress auto with steady
    | apply steady_bind; [|intros ?]
    | apply steady_try_except; [|intros ?]
    | apply steady_for; intros ? ? ?
    | match goal with
      | |- steady (if ?c then _ else _) => destruct c
      | |- steady (when ?c _) => destruct c; cbn [when]
      | |- steady (match ?x with _ => _ end) => destruct x
      end
    | progress cbv zeta ].

Lemma steady_request_attempts self prompt max_retries retry_delay attempts :
  steady (request_attempts self prompt max_retries retry_delay attempts).
Proof.
  induction attempts as [|attempt rest IH]; simpl; [apply steady_ret|].
  apply steady_bind.
  - unfold request_attempt. steadiness.
  - intros [t|]; [apply steady_ret|exact IH].
Qed.

Lemma steady_make_request self prompt : steady (make_request self prompt).
Proof. apply steady_request_attempts. Qed.

#[local] Hint Resolve steady_make_request : steady.

Lemma steady_generate_outline self topic num_chapters :
  steady (generate_outline self topic num_chapters).
Proof. unfold generate_outline. steadiness. Qed.

Lemma steady_generate_chapter_structure self chapter_title previous_summary :
  steady (generate_chapter_structure self chapter_title previous_summary).
Proof. unfold generate_chapter_structure. steadiness. Qed.

Lemma steady_generate_metadata self topic chapters :
  steady (generate_metadata self topic chapters).
Proof. unfold generate_metadata. steadiness. Qed.

Lemma steady_generate_bibliography self topic :
  steady (generate_bibliography self topic).
Proof. unfold generate_bibliography. steadiness. Qed.

#[local] Hint Resolve steady_generate_outline steady_generate_chapter_structure
  steady_generate_metadata steady_generate_bibliography : steady.

Lemma steady_section_body self chapter dir j section st :
  steady (section_body self chapter dir j section st).
Proof. unfold section_body, generate_chapter_chunk. steadiness. Qed.

#[local] Hint Resolve steady_section_body : steady.

Lemma steady_chapter_body self out i chapter st :
  steady (chapter_body self out i chapter st).
Proof. unfold chapter_body, summarize_chapter. steadiness. Qed.

#[local] Hint Resolve steady_chapter_body : steady.

Lemma promise_run {A} answers (m : M A) w r w' :
  promise_kept answers w -> steady m -> m w = (r, w') ->
  promise_kept answers w'.
Proof.
  intros H Hm E k prompt. rewrite (steady_run _ _ _ _ Hm E). apply H.
Qed.

(** ** On strings the two programs agree *)

Lemma lockstep {A A' B} (f : A -> A') (rm : M A') (m : M A)
    (rk : A' -> M B) (k : A -> M B) w :
  rm w = cast f (m w) ->
  (forall a w1, m w = (Ok a, w1) -> rk (f a) w1 = k a w1) ->
  bind rm rk w = bind m k w.
Proof.
  intros E H. unfold bind. rewrite E. unfold cast.
  destruct (m w) as [[a|e] w1]; cbn [fst snd]; auto.
Qed.

Lemma lockstep_cast {A A' B B'} (f : A -> A') (g : B -> B') (rm : M A') (m : M A)
    (rk : A' -> M B') (k : A -> M B) w :
  rm w = cast f (m w) ->
  (forall a w1, m w = (Ok a, w1) -> rk (f a) w1 = cast g (k a w1)) ->
  bind rm rk w = cast g (bind m k w).
Proof.
  intros E H. unfold bind. rewrite E. unfold cast at 1.
  destruct (m w) as [[a|e] w1]; cbn [fst snd]; auto.
Qed.

Lemma same_step {A B} (m : M A) (rk k : A -> M B) w :
  (forall a w1, m w = (Ok a, w1) -> rk a w1 = k a w1) ->
  bind m rk w = bind m k w.
Proof.
  intros H. unfold bind. destruct (m w) as [[a|e] w1]; auto.
Qed.

Lemma same_step_cast {A B B'} (g : B -> B') (m : M A)
    (rk : A -> M B') (k : A -> M B) w :
  (forall a w1, m w = (Ok a, w1) -> rk a w1 = cast g (k a w1)) ->
  bind m rk w = cast g (bind m k w).
Proof.
  intros H. unfold bind. destruct (m w) as [[a|e] w1]; auto.
Qed.

Lemma other_step {A B} (rm m : M A) (rk k : A -> M B) w :
  rm w = m w ->
  (forall a w1, m w = (Ok a, w1) -> rk a w1 = k a w1) ->
  bind rm rk w = bind m k w.
Proof.
  intros E H. unfold bind. rewrite E. destruct (m w) as [[a|e] w1]; auto.
Qed.

Lemma other_step_cast {A B B'} (g : B -> B') (rm m : M A)
    (rk : A -> M B') (k : A -> M B) w :
  rm w = m w ->
  (forall a w1, m w = (Ok a, w1) -> rk a w1 = cast g (k a w1)) ->
  bind rm rk w = cast g (bind m k w).
Proof.
  intros E H. unfold bind. rewrite E. destruct (m w) as [[a|e] w1]; auto.
Qed.

Lemma sleep_typed refusal (seconds : Z) w :
  refusal seconds = None -> Untyped.sleep refusal seconds w = sleep seconds w.
Proof. intros H. unfold Untyped.sleep. rewrite H. reflexivity. Qed.

Lemma makedirs_typed path w :
  accepted_directory path -> Untyped.makedirs path w = makedirs path w.
Proof. intros [H1 H2]. unfold Untyped.makedirs. rewrite H1, H2. reflexivity. Qed.

Lemma request_attempt_typed refusal answers self prompt max_retries retry_delay
    attempt w :
  promise_kept answers w ->
  refusal retry_delay = None ->
  Untyped.request_attempt refusal answers self prompt max_retries retry_delay attempt w
  = cast (option_map VStr)
      (request_attempt self prompt max_retries retry_delay attempt w).
Proof.
  intros A Hlt. destruct (A (posted w) prompt) as [Es Hs].
  unfold Untyped.request_attempt, request_attempt, try_except, bind,
    Untyped.requests_post, requests_post, cast, when, Untyped.sleep.
  rewrite Es, Hlt.
  destruct (answers (posted w) prompt) as [status response|];
    cbn [typed fst snd].
  2:{ destruct (Z.of_nat attempt <? max_retries - 1)%Z; unfold sleep, ret;
        destruct (retry_delay <? 0)%Z; reflexivity. }
  destruct (status =? 200)%Z eqn:E200.
  - destruct response as [[t|b shown]|]; cbn [str_answer] in Hs;
      rewrite ?E200 in Hs; try discriminate Hs;
      cbn [option_map py_str Untyped.response_json response_json];
      unfold ret, raise; try reflexivity.
    destruct (Z.of_nat attempt <? max_retries - 1)%Z; unfold sleep, ret;
      destruct (retry_delay <? 0)%Z; reflexivity.
  - destruct (Z.of_nat attempt <? max_retries - 1)%Z; unfold sleep, ret;
      destruct (retry_delay <? 0)%Z; reflexivity.
Qed.

Lemma request_attempts_typed refusal answers self prompt max_retries retry_delay
    attempts :
  refusal retry_delay = None ->
  forall w,
  promise_kept answers w ->
  Untyped.request_attempts refusal answers self prompt max_retries retry_delay attempts w
  = cast VStr (request_attempts self prompt max_retries retry_delay attempts w).
Proof.
  intros Hd. induction attempts as [|attempt rest IH]; intros w A; [reflexivity|].
  cbn [Untyped.request_attempts request_attempts].
  eapply lockstep_cast; [apply request_attempt_typed; assumption|].
  intros [t|] w1 E; cbn [option_map]; [reflexivity|].
  apply IH. eapply promise_run; [exact A| |exact E].
  unfold request_attempt. steadiness.
Qed.

Lemma make_request_typed refusal answers self prompt w :
  usual_pauses refusal ->
  promise_kept answers w ->
  Untyped.make_request refusal answers self prompt w
  = cast VStr (make_request self prompt w).
Proof. intros [_ H5] A. apply request_attempts_typed; assumption. Qed.

Lemma bind_ret {A B} (a : A) (k : A -> M B) w : bind (ret a) k w = k a w.
Proof. reflexivity. Qed.

(** Takes the run of the step just matched to the promise for the world
    it ends in. *)
Ltac next A :=
  let E := fresh "E" in
  intros ? ? E;
  apply (promise_run _ _ _ _ _ A) in E; [|solve [steadiness]];
  clear A; rename E into A.

Lemma response_lines_str t :
  Untyped.response_lines (VStr t) = ret (nonblank_lines t).
Proof. reflexivity. Qed.

Lemma generate_outline_typed refusal answers self topic num_chapters w :
  usual_pauses refusal ->
  promise_kept answers w ->
  Untyped.generate_outline refusal answers self topic num_chapters w
  = generate_outline self topic num_chapters w.
Proof.
  intros U A. unfold Untyped.generate_outline, generate_outline.
  eapply (lockstep VStr); [apply make_request_typed; assumption|]. next A.
  cbn [truth_of]. destruct (truthy a); [|reflexivity].
  rewrite response_lines_str, bind_ret. cbv zeta.
  destruct (_ <? _)%Z; [reflexivity|].
  destruct (_ <? _)%Z; [|reflexivity].
  eapply (lockstep VStr); [apply make_request_typed; assumption|]. next A.
  cbn [truth_of]. destruct (truthy a0); [|reflexivity].
  rewrite response_lines_str, bind_ret. reflexivity.
Qed.

Lemma generate_chapter_structure_typed refusal answers self chapter_title previous_summary w :
  usual_pauses refusal ->
  promise_kept answers w ->
  Untyped.generate_chapter_structure refusal answers self chapter_title (VStr previous_summary) w
  = generate_chapter_structure self chapter_title previous_summary w.
Proof.
  intros U A. unfold Untyped.generate_chapter_structure, generate_chapter_structure.
  change (Untyped.structure_prompt chapter_title (VStr previous_summary))
    with (structure_prompt chapter_title previous_summary).
  eapply (lockstep VStr); [apply make_request_typed; assumption|]. next A.
  cbn [truth_of]. destruct (truthy a); reflexivity.
Qed.

Lemma generate_metadata_typed refusal answers self topic chapters w :
  usual_pauses refusal ->
  promise_kept answers w ->
  Untyped.generate_metadata refusal answers self topic chapters w
  = generate_metadata self topic chapters w.
Proof.
  intros U A. unfold Untyped.generate_metadata, generate_metadata.
  eapply (lockstep VStr); [apply make_request_typed; assumption|]. next A.
  cbv zeta. unfold parse_metadata. cbn [truth_of].
  destruct (truthy a); reflexivity.
Qed.

Lemma generate_bibliography_typed refusal answers self topic w :
  usual_pauses refusal ->
  promise_kept answers w ->
  Untyped.generate_bibliography refusal answers self topic w
  = generate_bibliography self topic w.
Proof.
  intros U A. unfold Untyped.generate_bibliography, generate_bibliography.
  eapply (lockstep VStr); [apply make_request_typed; assumption|]. next A.
  cbn [truth_of]. destruct (truthy a); reflexivity.
Qed.

Lemma section_body_typed refusal answers self chapter dir j section st w :
  usual_pauses refusal ->
  promise_kept answers w ->
  Untyped.section_body refusal answers self chapter dir j section st w
  = section_body self chapter dir j section st w.
Proof.
  intros U A. unfold Untyped.section_body, section_body,
    Untyped.generate_chapter_chunk, generate_chapter_chunk. cbv zeta.
  eapply (lockstep VStr); [apply make_request_typed; assumption|]. intros content w1 _.
  cbn [str_operand]. rewrite bind_ret.
  do 3 (apply same_step; intros ? ? _).
  apply other_step; [apply sleep_typed, U|].
  reflexivity.
Qed.

Lemma sections_loop_typed refusal answers self chapter dir sections :
  usual_pauses refusal ->
  forall j st w,
  promise_kept answers w ->
  for_enumerate j sections (Untyped.section_body refusal answers self chapter dir) st w
  = for_enumerate j sections (section_body self chapter dir) st w.
Proof.
  intros U. induction sections as [|section rest IH]; intros j st w A;
    [reflexivity|].
  cbn [for_enumerate].
  apply other_step; [apply section_body_typed; assumption|]. next A.
  apply IH, A.
Qed.

Lemma digits_no_nul s :
  forallb is_digit s = true -> existsb (Ascii.eqb NUL) s = false.
Proof.
  induction s as [|c s IH]; [reflexivity|]. cbn [forallb existsb].
  intros H. apply andb_true_iff in H as [Hc Hs]. rewrite (IH Hs), orb_false_r.
  destruct (Ascii.eqb_spec NUL c) as [<-|]; [discriminate Hc|reflexivity].
Qed.

Lemma accepted_chapter_dir out i :
  accepted_directory out -> accepted_directory (chapter_dir_of out i).
Proof.
  intros [H1 H2]. unfold accepted_directory, chapter_dir_of. split.
  - destruct out; [discriminate H1|reflexivity].
  - rewrite !existsb_app, H2, (digits_no_nul _ (fmt_02d_digits i)). reflexivity.
Qed.

Lemma chapter_body_typed refusal answers self out i chapter previous_summary runs w :
  usual_pauses refusal ->
  promise_kept answers w ->
  accepted_directory out ->
  Untyped.chapter_body refusal answers self out i chapter (VStr previous_summary, runs) w
  = cast (fun st => (VStr st.1, st.2))
      (chapter_body self out i chapter (previous_summary, runs) w).
Proof.
  intros U A Hout. unfold Untyped.chapter_body, chapter_body,
    Untyped.summarize_chapter, summarize_chapter. cbv zeta. cbn [fst snd].
  apply other_step_cast; [apply makedirs_typed, accepted_chapter_dir, Hout|].
  next A.
  apply other_step_cast; [apply generate_chapter_structure_typed; assumption|]. next A.
  do 4 (apply same_step_cast; next A).
  apply other_step_cast; [apply sections_loop_typed; assumption|]. next A.
  eapply (lockstep_cast VStr); [apply make_request_typed; assumption|]. next A.
  do 3 (apply same_step_cast; next A).
  reflexivity.
Qed.

Lemma chapters_loop_typed refusal answers self out chapters :
  usual_pauses refusal ->
  accepted_directory out ->
  forall i st w,
  promise_kept answers w ->
  for_enumerate i chapters (Untyped.chapter_body refusal answers self out) (VStr st.1, st.2) w
  = cast (fun st => (VStr st.1, st.2))
      (for_enumerate i chapters (chapter_body self out) st w).
Proof.
  intros U Hout. induction chapters as [|chapter rest IH]; intros i st w A;
    [reflexivity|].
  cbn [for_enumerate].
  eapply (lockstep_cast (fun st => (VStr st.1, st.2))).
  { destruct st as [s runs]. apply chapter_body_typed; assumption. }
  next A. apply IH, A.
Qed.

Lemma write_full_book_typed out metadata introduction chapters conclusion
    bibliography w :
  Untyped.write_full_book out metadata (VStr introduction) chapters
    (VStr conclusion) bibliography w
  = write_full_book out metadata introduction chapters conclusion bibliography w.
Proof. reflexivity. Qed.

Lemma generate_book_typed refusal answers self topic num_chapters output_dir w :
  usual_pauses refusal ->
  promise_kept answers w ->
  accepted_directory (resolved_output_dir topic output_dir w) ->
  Untyped.generate_book refusal answers self topic num_chapters output_dir w
  = generate_book self topic num_chapters output_dir w.
Proof.
  intros U A Hout. unfold Untyped.generate_book, generate_book,
    Untyped.generate_introduction, generate_introduction,
    Untyped.generate_conclusion, generate_conclusion.
  apply same_step. intros out w0 E0.
  assert (Eout : out = resolved_output_dir topic output_dir w /\ w0 = w).
  { destruct output_dir; [injection E0 as <- <-; auto|].
    cbn in E0. injection E0 as <- <-. auto. }
  destruct Eout as [-> ->]. clear E0.
  set (out := resolved_output_dir topic output_dir w) in *.
  apply other_step; [apply makedirs_typed, Hout|]. next A.
  apply other_step; [apply generate_outline_typed; assumption|]. next A.
  apply other_step; [apply generate_metadata_typed; assumption|]. next A.
  do 4 (apply same_step; next A).
  eapply (lockstep VStr); [apply make_request_typed; assumption|]. next A.
  cbn [py_str]. cbv zeta.
  do 9 (apply same_step; next A).
  eapply (lockstep (fun st => (VStr st.1, st.2)));
    [apply (chapters_loop_typed refusal answers self out _ U Hout 1 ([], [])), A|].
  next A.
  eapply (lockstep VStr); [apply make_request_typed; assumption|]. next A.
  cbn [py_str].
  do 2 (apply same_step; next A).
  apply other_step; [apply generate_bibliography_typed; assumption|]. next A.
  do 3 (apply same_step; next A).
  apply other_step; [apply write_full_book_typed|]. intros ? ? _.
  reflexivity.
Qed.

(** ** The retry loop *)

Lemma untyped_attempt_failed refusal answers self prompt max_retries retry_delay
    attempt w :
  (0 <= retry_delay)%Z /\ refusal retry_delay = None ->
  attempt_fails (typed (answers (posted w) prompt)) = true ->
  Untyped.request_attempt refusal answers self prompt max_retries retry_delay attempt w
  = (Ok None,
     mkWorld (service w) (S (posted w)) (files w)
       (trace w ++ EvPost (generate_endpoint self) (model self) prompt
                     (typed (answers (posted w) prompt))
          :: (if (Z.of_nat attempt <? max_retries - 1)%Z
              then [EvSleep retry_delay] else []))
       (now_stamp w)).
Proof.
  intros [Hd Hlt] Hf.
  assert (Hs : (retry_delay <? 0)%Z = false) by (apply Z.ltb_ge; exact Hd).
  unfold Untyped.request_attempt, try_except, bind, Untyped.requests_post,
    when, Untyped.sleep, sleep, Untyped.response_json, raise, ret, log_event.
  rewrite Hlt.
  destruct (answers (posted w) prompt) as [status [v|]|]; simpl in *.
  - apply negb_true_iff in Hf. rewrite Hf.
    destruct (Z.of_nat attempt <? max_retries - 1)%Z; simpl; rewrite ?Hs;
      simpl; rewrite <- ?app_assoc; reflexivity.
  - destruct (status =? 200)%Z;
    destruct (Z.of_nat attempt <? max_retries - 1)%Z; simpl; rewrite ?Hs;
      simpl; rewrite <- ?app_assoc; reflexivity.
  - destruct (Z.of_nat attempt <? max_retries - 1)%Z; simpl; rewrite ?Hs;
      simpl; rewrite <- ?app_assoc; reflexivity.
Qed.

Lemma untyped_attempt_answered refusal answers self prompt max_retries retry_delay
    attempt w v :
  answers (posted w) prompt = RawResponded 200 (Some v) ->
  Untyped.request_attempt refusal answers self prompt max_retries retry_delay attempt w
  = (Ok (Some v),
     mkWorld (service w) (S (posted w)) (files w)
       (trace w ++ [EvPost (generate_endpoint self) (model self) prompt
                      (typed (RawResponded 200 (Some v)))])
       (now_stamp w)).
Proof.
  intros Hs.
  unfold Untyped.request_attempt, try_except, bind, Untyped.requests_post.
  rewrite Hs. reflexivity.
Qed.

Lemma untyped_attempt_outcome o :
  attempt_fails (typed o) = false -> exists v, o = RawResponded 200 (Some v).
Proof.
  destruct o as [status [v|]|]; simpl; try discriminate.
  intros H. apply negb_false_iff, Z.eqb_eq in H. subst. eauto.
Qed.

Lemma untyped_attempts_discipline refusal answers self prompt max_retries retry_delay :
  (0 <= retry_delay)%Z /\ refusal retry_delay = None ->
  forall m i w,
  i + m = Z.to_nat max_retries ->
  exists v w' es,
    Untyped.request_attempts refusal answers self prompt max_retries retry_delay (seq i m) w
    = (Ok v, w')
    /\ files w' = files w
    /\ trace w' = trace w ++ es
    /\ posted w' = posted w + count_posts es
    /\ count_posts es <= m
    /\ (0 < m -> count_sleeps es + 1 = count_posts es)
    /\ (m = 0 -> es = [])
    /\ (count_posts es < m \/ v <> VStr [] ->
        last es = Some (EvPost (generate_endpoint self) (model self) prompt
                          (typed (RawResponded 200 (Some v))))).
Proof.
  intros Hd. unfold count_posts, count_sleeps.
  induction m as [|m IH]; intros i w Hm.
  - exists (VStr []), w, []. simpl. rewrite app_nil_r.
    split_and!; try reflexivity; try lia.
    intros [H|H]; [lia|congruence].
  - cbn [seq Untyped.request_attempts].
    destruct (attempt_fails (typed (answers (posted w) prompt))) eqn:Hf.
    + erewrite bind_run by (apply untyped_attempt_failed; assumption).
      cbv beta iota.
      match goal with
      | |- context [Untyped.request_attempts _ _ _ _ _ _ _ ?w1] =>
          destruct (IH (S i) w1)
            as (v & w' & es & E & Hfiles & Htrace & Hposted & Hle & Hsl & Hnil & Hlast);
            [lia|]
      end.
      cbn [files trace posted] in Hfiles, Htrace, Hposted.
      exists v, w'. eexists. split; [exact E|].
      split; [exact Hfiles|]. split.
      { rewrite Htrace, <- app_assoc. reflexivity. }
      destruct m as [|m].
      * rewrite (Hnil eq_refl) in *.
        cbn in E. unfold ret in E. injection E as <- _.
        replace (Z.of_nat i <? max_retries - 1)%Z with false
          by (symmetry; apply Z.ltb_ge; lia).
        cbn. split; [lia|]. split; [lia|]. split; [reflexivity|].
        split; [discriminate|].
        intros [H|H]; [lia|congruence].
      * replace (Z.of_nat i <? max_retries - 1)%Z with true
          by (symmetry; apply Z.ltb_lt; lia).
        specialize (Hsl ltac:(lia)).
        cbn [app List.filter is_post is_sleep length].
        split; [lia|]. split; [lia|]. split; [lia|].
        split; [discriminate|].
        intros H.
        assert (Hes : es <> []) by (intros ->; simpl in Hsl; lia).
        destruct es as [|e es]; [congruence|].
        cbn [last] in Hlast |- *. apply Hlast.
        destruct H as [H|H]; [left; lia|right; exact H].
    + apply untyped_attempt_outcome in Hf as [v Hv].
      erewrite bind_run by (apply untyped_attempt_answered; exact Hv).
      exists v. eexists.
      exists [EvPost (generate_endpoint self) (model self) prompt
                (typed (RawResponded 200 (Some v)))].
      split; [reflexivity|].
      split_and!; simpl; try reflexivity; try lia; try discriminate.
Qed.

(** X2: for every [max_retries] (none or a negative number of attempts
    included) and every delay that is not negative and that [time.sleep]
    takes, [_make_request] never raises and never touches the artifact
    store, whatever the service answers (a response that is not a string
    included).  It posts at most [max_retries] times, pauses exactly
    once between two consecutive posts and never after the last one, and
    gives up early, or returns anything but the empty string, only on a
    post that was answered with status 200 and that very value. *)
Theorem make_request_retry_discipline refusal answers self prompt max_retries
    retry_delay w :
  (0 <= retry_delay)%Z /\ refusal retry_delay = None ->
  exists v w' es,
    Untyped._make_request refusal answers self prompt max_retries retry_delay w = (Ok v, w')
    /\ files w' = files w
    /\ trace w' = trace w ++ es
    /\ posted w' = posted w + count_posts es
    /\ count_posts es <= Z.to_nat max_retries
    /\ count_sleeps es = count_posts es - 1
    /\ (count_posts es < Z.to_nat max_retries \/ v <> VStr [] ->
        last es = Some (EvPost (generate_endpoint self) (model self) prompt
                          (typed (RawResponded 200 (Some v))))).
Proof.
  intros Hd.
  destruct (untyped_attempts_discipline refusal answers self prompt max_retries
              retry_delay Hd (Z.to_nat max_retries) 0 w eq_refl)
    as (v & w' & es & E & Hfiles & Htrace & Hposted & Hle & Hsl & Hnil & Hlast).
  exists v, w', es. split_and!; try assumption.
  destruct (Z.to_nat max_retries) as [|m].
  - rewrite (Hnil eq_refl). reflexivity.
  - specialize (Hsl ltac:(lia)). lia.
Qed.

Lemma make_request_retry_discipline_witness :
  exists v w' es,
    Untyped._make_request patient answers_null local_generator
      (lit "Outline, please.") 3 5 (fresh_world service_down) = (Ok v, w')
    /\ files w' = files (fresh_world service_down)
    /\ trace w' = trace (fresh_world service_down) ++ es
    /\ posted w' = posted (fresh_world service_down) + count_posts es
    /\ count_posts es <= Z.to_nat 3
    /\ count_sleeps es = count_posts es - 1
    /\ (count_posts es < Z.to_nat 3 \/ v <> VStr [] ->
        last es = Some (EvPost (generate_endpoint local_generator)
                          (model local_generator) (lit "Outline, please.")
                          (typed (RawResponded 200 (Some v))))).
Proof.
  apply (make_request_retry_discipline patient answers_null local_generator
           (lit "Outline, please.") 3 5 (fresh_world service_down)).
  split; [lia|reflexivity].
Defined.

(** ** The pipeline *)

Lemma full_book_text_assembled book :
  assembled_document (book_metadata book) (book_introduction book)
    (imap (fun k r => chapter_text (S k) r) (book_runs book))
    (book_conclusion book) (book_bibliography book)
  = full_book_text book.
Proof.
  unfold assembled_document, full_book_text, numbered_bibliography,
    bibliography_line.
  rewrite map_imap. cbn [title_page concat]. rewrite app_nil_r, <- !app_assoc.
  reflexivity.
Qed.

(** C2 at a failing input: the service answers every request with status
    200 and the body [{"response": null}].  The retry layer hands the
    [None] on; outline, metadata and bibliography take it for a failure,
    the introduction is written to [introduction.md] as the text [None],
    and the assembly of [full_book.md] raises [TypeError] at
    [f.write(introduction)]: the run does not complete, and the book file
    is left with the title page and one heading.  A number for an answer
    ends the run earlier still, with [AttributeError] at the first
    [response.split]. *)
Theorem generate_book_breaks_on_null :
  let run :=
    Untyped.generate_book patient answers_null local_generator (lit "Bridges") 2
      (Some (lit "out")) (fresh_world service_down) in
  run.1 = Raised TypeError
  /\ posted run.2 = 5
  /\ files run.2 !! lit "out/introduction.md"
     = Some (lit "# Introduction" ++ [nl; nl] ++ lit "None")
  /\ files run.2 !! full_book_path (lit "out")
     = Some (broken_document (lit "Bridges"))
  /\ let run' :=
       Untyped.generate_book patient answers_number local_generator (lit "Bridges") 2
         (Some (lit "out")) (fresh_world service_down) in
     run'.1 = Raised AttributeError
     /\ posted run'.2 = 1
     /\ files run'.2 = ∅.
Proof. vm_compute. split_and!; reflexivity. Qed.

(** The rest of C2 holds: when every successful answer carries a string,
    the directory is one that [os.makedirs] accepts and [time.sleep]
    takes its usual pauses, the run finishes without raising, whatever
    else the service does; its events are those of all stages in the
    order of the pipeline, and [full_book.md] holds title page,
    introduction, every chapter as read back, conclusion and numbered
    bibliography. *)
Theorem generate_book_completes_on_strings refusal answers self topic num_chapters
    output_dir w :
  usual_pauses refusal ->
  promise_kept answers w ->
  accepted_directory (resolved_output_dir topic output_dir w) ->
  exists book w',
    Untyped.generate_book refusal answers self topic num_chapters output_dir w
    = (Ok book, w')
    /\ length (book_runs book) = length (book_chapters book)
    /\ (exists es, trace w' = trace w ++ es
                   /\ book_events self topic num_chapters book es)
    /\ files w' !! full_book_path (book_output_dir book)
       = Some (full_book_text book).
Proof.
  intros U A Hout. rewrite (generate_book_typed _ _ _ _ _ _ _ U A Hout).
  destruct (generate_book_returns self topic num_chapters output_dir w)
    as (book & w' & E & _ & _ & Hcs & Hev & Hfile).
  exists book, w'. split_and!; [exact E| |exact Hev|].
  - rewrite <- Hcs, length_map. reflexivity.
  - rewrite Hfile, full_book_text_assembled. reflexivity.
Qed.

Lemma generate_book_completes_on_strings_witness :
  exists book w',
    Untyped.generate_book patient answers_terse local_generator (lit "Bridges") 1
      None (fresh_world service_terse)
    = (Ok book, w')
    /\ length (book_runs book) = length (book_chapters book)
    /\ (exists es, trace w' = trace (fresh_world service_terse) ++ es
                   /\ book_events local_generator (lit "Bridges") 1 book es)
    /\ files w' !! full_book_path (book_output_dir book)
       = Some (full_book_text book).
Proof.
  apply (generate_book_completes_on_strings patient answers_terse
           local_generator (lit "Bridges") 1 None (fresh_world service_terse)).
  - split; reflexivity.
  - intros [|k] prompt; split; reflexivity.
  - split; reflexivity.
Defined.

(** ** Metadata *)

(** C7 at a failing input: a line without a known prefix that arrives
    while the annotation is still empty is not appended but lost, also
    when it follows a bare [Annotation:] line; and an answer that is not
    a string makes the parse raise [AttributeError] at
    [response.strip()]. *)
Theorem unrecognized_line_lost :
  let response := lit "Title: Bridges" ++ [nl] ++ lit "A survey of spans." in
  let response' := lit "Annotation:" ++ [nl] ++ lit "A survey of spans." in
  parse_metadata (lit "Bridges") response
  = mkMetadata (lit "Bridges") (lit "Author Not Specified") []
  /\ (generate_metadata local_generator (lit "Bridges") []
        (fresh_world (service_script [response]))).1
     = Ok (mkMetadata (lit "Bridges") (lit "Author Not Specified") [])
  /\ (generate_metadata local_generator (lit "Bridges") []
        (fresh_world (service_script [response']))).1
     = Ok (mkMetadata (lit "Book on Bridges") (lit "Author Not Specified") [])
  /\ (Untyped.generate_metadata patient answers_number local_generator
        (lit "Bridges") [] (fresh_world service_down)).1
     = Raised AttributeError.
Proof. vm_compute. split_and!; reflexivity. Qed.

(** ** A run against a dead service *)



(** ** The command line *)



